(** * Pantry Tracker front end: status polling and the dashboard cache

    A shallow embedding of the client-side logic of the Pantry Tracker web
    application, and the properties proved of it.

    Program (first part of the file):
    - [Js]: [Number.parseInt], [toString] and truthiness, as the cache
      uses them on [localStorage] strings;
    - [Prices]: [ensureValidPriceData] of the dashboard page, which patches
      missing prices, price ranges and store names with [Math.random];
    - [Poll]: the four status pollers, [checkDataLoadingStatus] (signup
      page), [checkDataFetchStatus] (login page, two versions) and the
      [setInterval] effect of the earlier signup page;
    - [Dashboard]: the loading effect of [DashboardPage], its
      [fetchDashboardData] and [fetchMyList], the one-hour freshness test
      and the view of the dashboard tab;
    - [PriceNotions], [DashboardNotions], [PollNotions]: vocabulary for
      further properties of the three modules above;
    - [PollTimers]: the pollers together with the delayed callbacks that
      their handlers leave to [setTimeout];
    - [JsString], [Login]: the login page, its [validateForm],
      [handleSubmit] (with and without the e-mail verification check) and
      its mount effect;
    - [Regex], [Signup]: the patterns and the checks of the signup form,
      [validateStep1], [validateStep2] and the earlier [validateForm];
    - [Api]: [getApiUrl] and [fetchWithAuth].

    Properties (second part): [JsFacts], [PollFacts], [DashboardFacts],
    [PricesFacts], then [PriceLaws], [DashboardLaws], [PollLaws],
    [LoginLaws], [RegexLaws], [SignupLaws], [ApiLaws].

    Conventions.
    - JavaScript integers that the code handles (epoch milliseconds, timer
      delays) are [Z]; prices and percentages are rationals [Q].
    - [localStorage] is a finite map from string keys to string values.
    - Asynchronous code is a labelled transition system: an event is a timer
      callback that runs, a [fetch] that settles, or the component that
      unmounts; time itself is not modelled, only the order of events.
    - [Math.random] is an explicit sequence of draws threaded through a small
      state monad.
    - A string is a sequence of 8-bit characters; white space, for [trim]
      and for the class [\S], is the ASCII white space of
      [Js.isWhiteSpace].  The form checks of the model therefore agree
      with those of the pages on ASCII strings, and accept at least what
      the pages accept on others. *)

From Stdlib Require Import ZArith QArith Qround List String Ascii Bool Lia.
From Stdlib Require Import Decimal DecimalString DecimalPos DecimalZ.
From Stdlib Require Import Lqa.
From stdpp Require Import gmap strings.
Import ListNotations.

Local Open Scope string_scope.
Local Open Scope Z_scope.

(* ===================================================================== *)
(** ** JavaScript primitives used by the cache                            *)
(* ===================================================================== *)

Module Js.

(** [Number.prototype.toString] on an integer: decimal digits, a leading
    minus sign for negative values.  (Epoch milliseconds stay far below
    1e21, where JavaScript would switch to exponent notation.) *)
Definition toString (n : Z) : string :=
  NilZero.string_of_int (Z.to_int n).

(** ASCII members of [StrWhiteSpaceChar]. *)
Definition isWhiteSpace (c : ascii) : bool :=
  let n := N_of_ascii c in
  (n =? 32)%N || ((9 <=? n)%N && (n <=? 13)%N).

Fixpoint trimStart (s : string) : string :=
  match s with
  | String c s' => if isWhiteSpace c then trimStart s' else s
  | EmptyString => EmptyString
  end.

(** Value of a character as a digit in some radix up to 36. *)
Definition digitValue (c : ascii) : option Z :=
  let n := Z.of_N (N_of_ascii c) in
  if (48 <=? n) && (n <=? 57) then Some (n - 48)
  else if (97 <=? n) && (n <=? 122) then Some (n - 87)
  else if (65 <=? n) && (n <=? 90) then Some (n - 55)
  else None.

Definition radixDigit (R : Z) (c : ascii) : option Z :=
  match digitValue c with
  | Some d => if d <? R then Some d else None
  | None => None
  end.

(** The longest prefix of radix-[R] digits, read as a number. *)
Fixpoint parseDigits (R : Z) (s : string) (acc : Z) : Z :=
  match s with
  | String c s' =>
      match radixDigit R c with
      | Some d => parseDigits R s' (acc * R + d)
      | None => acc
      end
  | EmptyString => acc
  end.

Definition stripSign (s : string) : Z * string :=
  match s with
  | String "-" r => (-1, r)
  | String "+" r => (1, r)
  | _ => (1, s)
  end.

Definition stripPrefix (s : string) : Z * string :=
  match s with
  | String "0" (String "x" r) => (16, r)
  | String "0" (String "X" r) => (16, r)
  | _ => (10, s)
  end.

(** [Number.parseInt(s)] with no radix argument; [None] is [NaN]. *)
Definition parseInt (input : string) : option Z :=
  let '(sign, s1) := stripSign (trimStart input) in
  let '(R, s2) := stripPrefix s1 in
  match s2 with
  | String c _ =>
      match radixDigit R c with
      | Some _ => Some (sign * parseDigits R s2 0)
      | None => None
      end
  | EmptyString => None
  end.

(** JavaScript truthiness of a [string | null] value. *)
Definition truthy (v : option string) : bool :=
  match v with
  | Some (String _ _) => true
  | _ => false
  end.

End Js.

(* ===================================================================== *)
(** ** [ensureValidPriceData] (dashboard page)                            *)
(* ===================================================================== *)

Module Prices.

(** [PriceInfo], [PriceRange], [ProductType] and the two fields of
    [StoreType] that the function reads.  A field is [None] when the JSON
    value lacks it; numbers are rationals.  The descriptive fields of a
    product, which the spread [...product] copies unchanged, are gathered
    in [rest]. *)
Record PriceInfo := { price : option Q; store : option string }.
Record PriceRange :=
  { min : option Q; max : option Q; period : option string }.
Record ProductType :=
  { id : string;
    rest : list (string * string);
    lowestPrice : option PriceInfo;
    priceRange : option PriceRange }.
Record StoreType := { name : option string; chainName : option string }.

Definition storeVariety : list string :=
  [ "Walmart"; "Target"; "Kroger"; "Costco"; "Whole Foods"; "Safeway";
    "Trader Joe's"; "Publix"; "Albertsons"; "Ralphs"; "Aldi"; "Meijer";
    "H-E-B"; "Wegmans"; "Food Lion"; "Stop & Shop"; "Giant Eagle";
    "ShopRite"; "Sprouts"; "Fresh Market" ].

(** [storeVariety[index % storeVariety.length]] *)
Definition varietyAt (index : nat) : string :=
  nth (index mod length storeVariety) storeVariety EmptyString.

(** [x.toFixed(2)] read back by [Number.parseFloat]: the nearest multiple
    of one hundredth, the larger one on a tie.  (The function only applies
    it to positive numbers.) *)
Definition toFixed2 (x : Q) : Q :=
  Qfloor (x * 100 + (1 # 2)) # 100.

Definition Qgtb (x y : Q) : bool := negb (Qle_bool x y).

(** [s || d] on an optional string: the empty string is falsy. *)
Definition strOr (s : option string) (d : string) : string :=
  if Js.truthy s then default d s else d.

(** [x || 0] on an optional number. *)
Definition numOr0 (x : option Q) : Q := default 0%Q x.

(** [product.lowestPrice?.price || 0] *)
Definition readPrice (product : ProductType) : Q :=
  numOr0 (lowestPrice product ≫= price).

Section Random.

(** The values that successive calls of [Math.random()] return. *)
Variable rng : nat -> Q.

(** Computations that call [Math.random]: the state is the number of
    draws made so far. *)
Definition Rand (A : Type) : Type := nat -> A * nat.

Definition ret {A} (a : A) : Rand A := fun n => (a, n).

Definition bind {A B} (m : Rand A) (k : A -> Rand B) : Rand B :=
  fun n => let '(a, n') := m n in k a n'.

Definition random : Rand Q := fun n => (rng n, S n).

Notation "x <- m ;; k" := (bind m (fun x => k))
  (at level 60, m at next level, right associativity).

(** [stores[Math.floor(Math.random() * stores.length)]], then
    [randomStore.name || randomStore.chainName || storeVariety[...]].
    A draw lies in [0, 1), so the index is inside the array (see
    [randomIndex_in_range]); the default of [nth] is never used. *)
Definition randomIndex (r : Q) (len : nat) : nat :=
  Z.to_nat (Qfloor (r * inject_Z (Z.of_nat len))).

Definition pickStore (stores : list StoreType) (index : nat)
  : Rand string :=
  match stores with
  | [] => ret (varietyAt index)
  | _ :: _ =>
      r <- random;;
      let randomStore :=
        nth (randomIndex r (length stores)) stores
            {| name := None; chainName := None |} in
      ret (strOr (name randomStore)
             (strOr (chainName randomStore) (varietyAt index)))
  end.

Definition needsStore (storeName : option string) : bool :=
  negb (Js.truthy storeName)
  || bool_decide (storeName = Some "Unknown Store").

(** The body of the [products.map] callback. *)
Definition ensureOne (stores : list StoreType) (index : nat)
    (product : ProductType) : Rand ProductType :=
  let storeName := lowestPrice product ≫= store in
  storeName <-
    (if needsStore storeName then pickStore stores index
     else ret (default EmptyString storeName));;
  let price := readPrice product in
  validPrice <-
    (if Qgtb price 0 then ret price
     else r <- random;; ret (toFixed2 (r * 10 + 1)));;
  let minPrice := numOr0 (priceRange product ≫= min) in
  let maxPrice := numOr0 (priceRange product ≫= max) in
  validRange <-
    (if Qeq_bool minPrice 0 && Qeq_bool maxPrice 0 then
       r1 <- random;;
       let validMinPrice := toFixed2 (r1 * 5 + 1) in
       r2 <- random;;
       ret (validMinPrice, toFixed2 (validMinPrice + r2 * 5))
     else if Qeq_bool minPrice 0 && Qgtb maxPrice 0 then
       ret (toFixed2 (maxPrice * (8 # 10)), maxPrice)
     else if Qgtb minPrice 0 && Qeq_bool maxPrice 0 then
       ret (minPrice, toFixed2 (minPrice * (12 # 10)))
     else ret (minPrice, maxPrice));;
  let '(validMinPrice, validMaxPrice) := validRange in
  ret {| id := id product;
         rest := rest product;
         lowestPrice :=
           Some {| price := Some validPrice; store := Some storeName |};
         priceRange :=
           Some {| min := Some validMinPrice;
                   max := Some validMaxPrice;
                   period :=
                     Some (strOr (priceRange product ≫= period)
                             "6 weeks") |} |}.

(** [products.map((product, index) => ...)], left to right. *)
Fixpoint mapFrom (stores : list StoreType) (index : nat)
    (products : list ProductType) : Rand (list ProductType) :=
  match products with
  | [] => ret []
  | product :: more =>
      p <- ensureOne stores index product;;
      ps <- mapFrom stores (S index) more;;
      ret (p :: ps)
  end.

Definition ensureValidPriceData (products : list ProductType)
    (stores : list StoreType) : Rand (list ProductType) :=
  mapFrom stores 0 products.

End Random.

Arguments ret {A} a _ /.
Arguments bind {A B} m k _ /.

(** A sequence of draws that [Math.random] can produce. *)
Definition validDraws (rng : nat -> Q) : Prop :=
  forall n, (0 <= rng n)%Q /\ (rng n < 1)%Q.

(** *** Sample data for the statements *)

(** Sequences of draws that always return the same value. *)
Definition constant (c : Q) : nat -> Q := fun _ => c.

Definition lowDraws : nat -> Q := constant 0.
Definition midDraws : nat -> Q := constant (1 # 2).

(** Three products: no price at all, a price of 0, a complete record. *)
Definition unpriced : ProductType :=
  {| id := "p1"; rest := [ ("name", "Rice") ];
     lowestPrice := None; priceRange := None |}.

Definition zeroPriced : ProductType :=
  {| id := "p2"; rest := [ ("name", "Beans") ];
     lowestPrice := Some {| price := Some 0%Q; store := Some "Unknown Store" |};
     priceRange := Some {| min := Some 0%Q; max := Some 0%Q;
                           period := None |} |}.

Definition complete : ProductType :=
  {| id := "p3"; rest := [ ("name", "Oats") ];
     lowestPrice := Some {| price := Some (3 # 2)%Q; store := Some "Aldi" |};
     priceRange := Some {| min := Some 1%Q; max := Some 2%Q;
                           period := Some "4 weeks" |} |}.

Definition twoStores : list StoreType :=
  [ {| name := Some "Corner Shop"; chainName := None |};
    {| name := None; chainName := Some "MegaMart" |} ].

End Prices.

(* ===================================================================== *)
(** ** Status pollers (signup and login pages)                            *)
(* ===================================================================== *)

Module Poll.

(** The body of a status response, [{ status, progress?, message? }].
    A field is [None] when the body lacks it; a field that is present has
    the type of the contract (a string, a number, a string). *)
Record StatusBody :=
  { status : option string; progress : option Q; message : option string }.

(** How one status-check [fetch] settles. *)
Inductive Response :=
| NetworkError                             (* [fetch] rejects *)
| NotJson (ok : bool)                      (* [response.json()] rejects *)
| JsonNull (ok : bool)                     (* the body is [null] *)
| Body (ok : bool) (data : StatusBody).    (* any other JSON body *)

Inductive Arg := VBool (b : bool) | VNum (q : Q) | VStr (s : string).

(** What a handler does, in program order.  [SetTimeout CheckStatus ms]
    is the recursive [setTimeout(() => check(key), ms)]; [Later] is a timer
    whose callback does something else. *)
Inductive Effect :=
| SetState (setter : string) (value : Arg)
| Toast (kind text : string)
| RouterPush (url : string)
| RemoveItem (key : string)
| ConsoleError (text : string)
| SetTimeout (callback : Callback) (ms : Z)
| ClearInterval
with Callback :=
| CheckStatus
| Later (effects : list Effect).

Definition statusIs (data : StatusBody) (s : string) : bool :=
  bool_decide (status data = Some s).

(** [data.progress >= 100]; false when [progress] is undefined. *)
Definition progressDone (data : StatusBody) : bool :=
  match progress data with
  | Some p => Qle_bool 100 p
  | None => false
  end.

(** *** Signup page, [checkDataLoadingStatus] (after e-mail verification) *)

Definition checkDataLoadingStatus_catch : list Effect :=
  [ ConsoleError "Error checking data loading status:";
    SetTimeout (Later [SetState "setDataLoading" (VBool false);
                       RouterPush "/login"]) 5000 ].

Definition checkDataLoadingStatus (r : Response) : list Effect :=
  match r with
  | Body true data =>
      [ SetState "setDataLoadingProgress"
          (VNum (Prices.numOr0 (progress data)));
        SetState "setDataLoadingMessage"
          (VStr (Prices.strOr (message data) "Setting up your account...")) ]
      ++
      if statusIs data "completed" || progressDone data then
        [ SetState "setDataLoading" (VBool false);
          Toast "success" "Your account is ready!";
          RouterPush
            "/login?message=Your account is ready! You can now sign in." ]
      else if statusIs data "failed" then
        [ SetState "setDataLoading" (VBool false);
          Toast "error"
            "There was an issue setting up your account. You can still sign in.";
          RouterPush
            "/login?message=There was an issue setting up your account. You can still sign in." ]
      else
        [ SetTimeout CheckStatus 2000 ]
  | _ => checkDataLoadingStatus_catch
  end.

(** *** Login page, [checkDataFetchStatus], first version
        (the response status is checked before the body is read) *)

Definition checkDataFetchStatus_catch : list Effect :=
  [ ConsoleError "Error checking status:";
    SetState "setIsCheckingStatus" (VBool false) ].

Definition checkDataFetchStatus_ready : list Effect :=
  [ SetState "setIsCheckingStatus" (VBool false);
    RemoveItem "pendingLoginEmail";
    SetState "setMessage" (VStr "Your account is ready! You can now sign in.") ].

Definition checkDataFetchStatus_else : list Effect :=
  [ SetState "setIsCheckingStatus" (VBool false);
    RemoveItem "pendingLoginEmail" ].

Definition checkDataFetchStatus_v1 (r : Response) : list Effect :=
  match r with
  | Body true result =>
      if statusIs result "completed" then checkDataFetchStatus_ready
      else if statusIs result "pending" then [ SetTimeout CheckStatus 3000 ]
      else checkDataFetchStatus_else
  | _ => checkDataFetchStatus_catch
  end.

(** *** Login page, [checkDataFetchStatus] of [LoginContent]
        (the body is read first, [response.ok] is tested in each branch) *)

Definition checkDataFetchStatus (r : Response) : list Effect :=
  match r with
  | NetworkError | NotJson _ => checkDataFetchStatus_catch
  | JsonNull true => checkDataFetchStatus_catch
  | JsonNull false => checkDataFetchStatus_else
  | Body ok result =>
      if ok && statusIs result "completed" then checkDataFetchStatus_ready
      else if ok && statusIs result "pending" then
        [ SetTimeout CheckStatus 5000 ]
      else checkDataFetchStatus_else
  end.

(** *** Signup page with a bearer token, the [setInterval] callback *)

Definition statusCheckInterval (r : Response) : list Effect :=
  match r with
  | Body true data =>
      if statusIs data "completed" then
        [ SetState "setIsDataFetching" (VBool false);
          RouterPush
            "/login?message=Registration%20complete!%20You%20can%20now%20sign%20in.";
          ClearInterval ]
      else if statusIs data "failed" then
        [ SetState "setIsDataFetching" (VBool false);
          SetState "setErrors.general"
            (VStr "Data preparation failed. You can still log in, but some product data may be missing.");
          ClearInterval;
          SetTimeout (Later [RouterPush "/login"]) 3000 ]
      else []
  | _ => [ ConsoleError "Error checking status:" ]
  end.

(** *** The pollers as transition systems *)

(** A polling call site: how it is driven ([setInterval], or a chain of
    [setTimeout] calls), what it does with a response, and what the
    component's cleanup does when it unmounts.  A poller is one call of
    the check function, or one [setInterval], for one key. *)
Record Site :=
  { byInterval : bool;
    onResponse : Response -> list Effect;
    cleanup : list Effect }.

Definition signupDataLoading : Site :=
  {| byInterval := false;
     onResponse := checkDataLoadingStatus;
     cleanup := [] |}.

Definition loginByEmail_v1 : Site :=
  {| byInterval := false;
     onResponse := checkDataFetchStatus_v1;
     cleanup := [] |}.

Definition loginByEmail : Site :=
  {| byInterval := false;
     onResponse := checkDataFetchStatus;
     cleanup := [] |}.

Definition signupStatus : Site :=
  {| byInterval := true;
     onResponse := statusCheckInterval;
     cleanup := [ ClearInterval ] |}.

Definition timeoutSites : list Site :=
  [ signupDataLoading; loginByEmail_v1; loginByEmail ].

Definition allSites : list Site := timeoutSites ++ [ signupStatus ].

(** The state of one poller.
    - [interval]: the [setInterval] handle is live;
    - [timers]: [setTimeout] callbacks that will call the check again;
    - [inflight]: status-check requests whose response has not arrived;
    - [requests]: status-check requests issued so far;
    - [performed]: what the handlers did that had an effect. *)
Record Poller :=
  { mounted : bool;
    interval : bool;
    timers : nat;
    inflight : nat;
    requests : nat;
    performed : list Effect }.

(** A timeout poller starts by calling the check function, which issues
    its request at once; the interval poller starts by [setInterval] and
    issues its first request at the first tick. *)
Definition arm (site : Site) : Poller :=
  if byInterval site then
    {| mounted := true; interval := true; timers := 0; inflight := 0;
       requests := 0; performed := [] |}
  else
    {| mounted := true; interval := false; timers := 0; inflight := 1;
       requests := 1; performed := [] |}.

(** The events of a poller.  A [Later] timer issues no request; the
    running of its callback is an event of [PollTimers], which extends
    this system. *)
Inductive Event :=
| TimerFires               (* a [setTimeout] check callback runs *)
| Tick                     (* the [setInterval] callback runs *)
| Settle (r : Response)    (* a status-check request settles *)
| Unmount.                 (* the component unmounts *)

Definition isCheckTimer (e : Effect) : bool :=
  match e with SetTimeout CheckStatus _ => true | _ => false end.

Definition isClearInterval (e : Effect) : bool :=
  match e with ClearInterval => true | _ => false end.

Definition isSetState (e : Effect) : bool :=
  match e with SetState _ _ => true | _ => false end.

(** Number of new status checks that a list of effects schedules. *)
Definition scheduled (effects : list Effect) : nat :=
  length (List.filter isCheckTimer effects).

Definition clears (effects : list Effect) : bool :=
  existsb isClearInterval effects.

(** React ignores a state update of an unmounted component; everything
    else a handler does (navigation, storage, timers) still happens. *)
Definition effective (isMounted : bool) (effects : list Effect)
  : list Effect :=
  if isMounted then effects
  else List.filter (fun e => negb (isSetState e)) effects.

Definition issueRequest (s : Poller) : Poller :=
  {| mounted := mounted s; interval := interval s; timers := timers s;
     inflight := S (inflight s);
     requests := S (requests s);
     performed := performed s |}.

Definition perform (effects : list Effect) (s : Poller) : Poller :=
  {| mounted := mounted s;
     interval := interval s && negb (clears effects);
     timers := timers s + scheduled effects;
     inflight := inflight s;
     requests := requests s;
     performed := performed s ++ effective (mounted s) effects |}.

(** One event; [None] when the event cannot happen in this state. *)
Definition step (site : Site) (s : Poller) (e : Event) : option Poller :=
  match e with
  | TimerFires =>
      match timers s with
      | O => None
      | S k =>
          Some (issueRequest
                  {| mounted := mounted s; interval := interval s;
                     timers := k; inflight := inflight s;
                     requests := requests s; performed := performed s |})
      end
  | Tick => if interval s then Some (issueRequest s) else None
  | Settle r =>
      match inflight s with
      | O => None
      | S k =>
          Some (perform (onResponse site r)
                  {| mounted := mounted s; interval := interval s;
                     timers := timers s; inflight := k;
                     requests := requests s; performed := performed s |})
      end
  | Unmount =>
      if mounted s then
        Some (perform (cleanup site)
                {| mounted := false; interval := interval s;
                   timers := timers s; inflight := inflight s;
                   requests := requests s; performed := performed s |})
      else None
  end.

Fixpoint run (site : Site) (s : Poller) (events : list Event)
  : option Poller :=
  match events with
  | [] => Some s
  | e :: more =>
      match step site s e with
      | Some s' => run site s' more
      | None => None
      end
  end.

(** States that some sequence of events reaches from [arm]. *)
Definition Reachable (site : Site) (s : Poller) : Prop :=
  exists events, run site (arm site) events = Some s.

(** A 2xx response whose status is a terminal state of the job. *)
Definition terminal (r : Response) : bool :=
  match r with
  | Body true data => statusIs data "completed" || statusIs data "failed"
  | _ => false
  end.

(** The check itself failed: no response, or a non-2xx response. *)
Definition failedCheck (r : Response) : bool :=
  match r with
  | NetworkError => true
  | NotJson ok | JsonNull ok | Body ok _ => negb ok
  end.

(** A 2xx response whose status is none of the three of the contract. *)
Definition unrecognised (r : Response) : bool :=
  match r with
  | Body true data =>
      negb (statusIs data "pending" || statusIs data "completed"
            || statusIs data "failed")
  | _ => false
  end.

(** After the event [e] no further status-check request is issued,
    whatever happens next. *)
Definition StopsAfter (site : Site) (s : Poller) (e : Event) : Prop :=
  forall s1 events s2,
    step site s e = Some s1 ->
    run site s1 events = Some s2 ->
    requests s2 = requests s1.

(** *** Vocabulary of the statements *)

(** A timeout poller has either one request in flight or one timer
    pending, never both, and no interval. *)
Definition Chain (s : Poller) : Prop :=
  interval s = false /\ (timers s + inflight s <= 1)%nat.

(** Nothing is left that could issue a request. *)
Definition Idle (site : Site) (s : Poller) : Prop :=
  interval s = false /\ timers s = 0%nat
  /\ (inflight s = 0%nat \/ forall r, scheduled (onResponse site r) = 0%nat).

(** C2 as stated: at every call site a failed status check is the last
    request for the handle. *)
Definition FailedCheckStops (site : Site) : Prop :=
  forall s r, Reachable site s -> failedCheck r = true ->
              StopsAfter site s (Settle r).

(** C3 as stated: at every call site at most one status check is in
    flight. *)
Definition OneAtATime (site : Site) : Prop :=
  forall s, Reachable site s -> (inflight s <= 1)%nat.

(** C7 as stated: at every call site a status outside "pending",
    "completed", "failed" ends the polling. *)
Definition UnknownStops (site : Site) : Prop :=
  forall s r, Reachable site s -> unrecognised r = true ->
              StopsAfter site s (Settle r).

(** C8 as stated: after the component unmounts, a timer that fires or a
    response that arrives changes nothing and issues no request. *)
Definition CancelSilences (site : Site) : Prop :=
  forall s s1 events s2,
    Reachable site s ->
    step site s Unmount = Some s1 ->
    run site s1 events = Some s2 ->
    requests s2 = requests s1 /\ performed s2 = performed s1.

(** *** Sample responses and states *)

Definition pendingBody : StatusBody :=
  {| status := Some "pending"; progress := Some (40 # 1)%Q;
     message := None |}.

Definition completedBody : StatusBody :=
  {| status := Some "completed"; progress := Some (100 # 1)%Q;
     message := Some "Done" |}.

Definition queuedBody : StatusBody :=
  {| status := Some "queued"; progress := None; message := None |}.

Definition almostDoneBody : StatusBody :=
  {| status := Some "pending"; progress := Some (100 # 1)%Q;
     message := Some "Almost there" |}.

Definition waitingLogin : Poller :=
  {| mounted := true; interval := false; timers := 1; inflight := 0;
     requests := 1; performed := [ SetTimeout CheckStatus 5000 ] |}.

End Poll.

(* ===================================================================== *)
(** ** Dashboard page: cache, fetches and view                            *)
(* ===================================================================== *)

Module Dashboard.

Import Prices.

Record UserType :=
  { _id : string; firstName : string; lastName : string; fullName : string;
    email : string; zipCode : string; shoppingStyle : string }.

Record NewsItemType := { newsId : string; title : string; summary : string }.

(** The dashboard aggregate, as the API sends it and as the cache holds it;
    a field is [None] when the JSON object lacks it. *)
Record DashboardDataType :=
  { stores : option (list StoreType);
    pantryItems : option (list ProductType);
    produceItems : option (list ProductType);
    buyAlerts : option (list ProductType);
    newsHighlights : option (list NewsItemType) }.

(** [JSON.parse] and [JSON.stringify] at the types the page uses them.
    A parser returns [None] when [JSON.parse], or the reading of the parsed
    value inside the same [try] block, throws. *)
Record Json :=
  { parseUser : string -> option UserType;
    parseDashboard : string -> option DashboardDataType;
    parseList : string -> option (list ProductType);
    stringifyDashboard : DashboardDataType -> string;
    stringifyList : list ProductType -> string }.

(** The [useState] cells of [DashboardPage] that loading touches. *)
Record Page :=
  { user : option UserType;
    loading : bool;
    dashboardData : option DashboardDataType;
    dataLoading : bool;
    error : option string;
    dataLoaded : bool;
    myList : list ProductType;
    isMyListLoading : bool }.

Definition initialPage : Page :=
  {| user := None; loading := true; dashboardData := None;
     dataLoading := true; error := None; dataLoaded := false;
     myList := []; isMyListLoading := false |}.

Definition setUser (v : UserType) (p : Page) : Page :=
  {| user := Some v; loading := loading p; dashboardData := dashboardData p;
     dataLoading := dataLoading p; error := error p;
     dataLoaded := dataLoaded p; myList := myList p;
     isMyListLoading := isMyListLoading p |}.

Definition setLoading (v : bool) (p : Page) : Page :=
  {| user := user p; loading := v; dashboardData := dashboardData p;
     dataLoading := dataLoading p; error := error p;
     dataLoaded := dataLoaded p; myList := myList p;
     isMyListLoading := isMyListLoading p |}.

Definition setDashboardData (v : DashboardDataType) (p : Page) : Page :=
  {| user := user p; loading := loading p; dashboardData := Some v;
     dataLoading := dataLoading p; error := error p;
     dataLoaded := dataLoaded p; myList := myList p;
     isMyListLoading := isMyListLoading p |}.

Definition setDataLoading (v : bool) (p : Page) : Page :=
  {| user := user p; loading := loading p; dashboardData := dashboardData p;
     dataLoading := v; error := error p;
     dataLoaded := dataLoaded p; myList := myList p;
     isMyListLoading := isMyListLoading p |}.

Definition setError (v : option string) (p : Page) : Page :=
  {| user := user p; loading := loading p; dashboardData := dashboardData p;
     dataLoading := dataLoading p; error := v;
     dataLoaded := dataLoaded p; myList := myList p;
     isMyListLoading := isMyListLoading p |}.

Definition setDataLoaded (v : bool) (p : Page) : Page :=
  {| user := user p; loading := loading p; dashboardData := dashboardData p;
     dataLoading := dataLoading p; error := error p;
     dataLoaded := v; myList := myList p;
     isMyListLoading := isMyListLoading p |}.

Definition setMyList (v : list ProductType) (p : Page) : Page :=
  {| user := user p; loading := loading p; dashboardData := dashboardData p;
     dataLoading := dataLoading p; error := error p;
     dataLoaded := dataLoaded p; myList := v;
     isMyListLoading := isMyListLoading p |}.

Definition setIsMyListLoading (v : bool) (p : Page) : Page :=
  {| user := user p; loading := loading p; dashboardData := dashboardData p;
     dataLoading := dataLoading p; error := error p;
     dataLoaded := dataLoaded p; myList := myList p;
     isMyListLoading := v |}.

(** Requests and navigations that a piece of page logic starts. *)
Inductive Command :=
| GetDashboard (token : string)     (* [GET /dashboard] *)
| GetMyList (token : string)        (* [GET /search/my-list] *)
| Navigate (url : string).          (* [router.push] *)

Definition isGetDashboard (c : Command) : bool :=
  match c with GetDashboard _ => true | _ => false end.

(** The comparison [currentTime - fetchedAt < window]. *)
Definition isFresh (fetchedAt currentTime window : Z) : bool :=
  currentTime - fetchedAt <? window.

(** [lastFetchTime && currentTime - Number.parseInt(lastFetchTime) < window],
    as a condition.  A comparison with [NaN] is false. *)
Definition freshWithin (window : Z) (lastFetchTime : option string)
    (currentTime : Z) : bool :=
  Js.truthy lastFetchTime &&
  match lastFetchTime ≫= Js.parseInt with
  | Some fetchedAt => isFresh fetchedAt currentTime window
  | None => false
  end.

(** The page's test: the window is one hour, in milliseconds. *)
Definition isCacheValid (lastFetchTime : option string) (currentTime : Z)
  : bool :=
  freshWithin 3600000 lastFetchTime currentTime.

Definition defaultStores : list string :=
  [ "Walmart"; "Target"; "Kroger"; "Costco"; "Whole Foods" ].

(** How the [GET /dashboard] request ends. *)
Inductive DashboardResponse :=
| DNetworkError (msg : string)            (* [fetch] rejects with an [Error] *)
| DHttpError (msg : option string)        (* not ok; [errorData.message] *)
| DBadBody (msg : string)                 (* ok, but reading the body throws *)
| DOk (data : DashboardDataType).

(** How the [GET /search/my-list] request ends. *)
Inductive MyListResponse :=
| MFailed
| MOk (items : option (list ProductType)).

Inductive View :=
| LoadingScreen
| Blank
| Spinner
| ErrorBox (msg : string)
| Content (data : option DashboardDataType).

(** What the dashboard tab shows. *)
Definition render (page : Page) : View :=
  if loading page then LoadingScreen
  else
    match user page with
    | None => Blank
    | Some _ =>
        if dataLoading page then Spinner
        else if Js.truthy (error page) then
          ErrorBox (default EmptyString (error page))
        else Content (dashboardData page)
    end.

Section Logic.

Variable json : Json.
Variable rng : nat -> Q.

Notation "x <- m ;; k" := (bind m (fun x => k))
  (at level 60, m at next level, right associativity).

(** [fetchDashboardData(token)] up to its [await fetch(...)]. *)
Definition fetchDashboardData (token : string) (page : Page)
  : Page * list Command :=
  (setError None (setDataLoading true page), [ GetDashboard token ]).

(** [fetchMyList(token)] up to its [await fetch(...)]. *)
Definition fetchMyList (token : string) (pc : Page * list Command)
  : Page * list Command :=
  (setIsMyListLoading true (fst pc), (snd pc ++ [ GetMyList token ])%list).

(** The three product lists of a dashboard value, each passed through
    [ensureValidPriceData] with the value's own stores. *)
Definition validated (data : DashboardDataType)
  : Rand (list ProductType * list ProductType * list ProductType) :=
  let sts := default [] (stores data) in
  pantry <- ensureValidPriceData rng (default [] (pantryItems data)) sts;;
  produce <- ensureValidPriceData rng (default [] (produceItems data)) sts;;
  alerts <- ensureValidPriceData rng (default [] (buyAlerts data)) sts;;
  ret (pantry, produce, alerts).

(** The loading effect of [DashboardPage] (dependencies [router],
    [retryCount], [dataLoaded]); [page] is the state of the render that the
    effect belongs to. *)
Definition loadEffect (storage : gmap string string) (currentTime : Z)
    (page : Page) : Rand (Page * list Command) :=
  let token := storage !! "token" in
  let userData := storage !! "user" in
  if negb (Js.truthy token) || negb (Js.truthy userData) then
    ret (page, [ Navigate "/login" ])
  else
    let tok := default EmptyString token in
    match userData ≫= parseUser json with
    | None => ret (page, [ Navigate "/login" ])
    | Some parsedUser =>
        let page1 := setLoading false (setUser parsedUser page) in
        let cachedDashboardData := storage !! "dashboardData" in
        let cachedMyList := storage !! "myList" in
        let lastFetchTime := storage !! "lastFetchTime" in
        let valid := isCacheValid lastFetchTime currentTime in
        afterDashboard <-
          (if Js.truthy cachedDashboardData && valid
              && negb (dataLoaded page) then
             match cachedDashboardData ≫= parseDashboard json with
             | Some parsedData =>
                 lists <- validated parsedData;;
                 let '(pantry, produce, alerts) := lists in
                 let validatedData :=
                   {| stores := stores parsedData;
                      pantryItems := Some pantry;
                      produceItems := Some produce;
                      buyAlerts := Some alerts;
                      newsHighlights := newsHighlights parsedData |} in
                 ret (setDataLoading false
                        (setDataLoaded true
                           (setDashboardData validatedData page1)), [])
             | None => ret (fetchDashboardData tok page1)
             end
           else if negb (dataLoaded page) then
             ret (fetchDashboardData tok page1)
           else ret (page1, []));;
        if Js.truthy cachedMyList && valid
           && negb (isMyListLoading page) then
          match cachedMyList ≫= parseList json with
          | Some parsedList =>
              validatedList <-
                ensureValidPriceData rng parsedList
                  (map (fun n => {| name := Some n; chainName := None |})
                       defaultStores);;
              ret (setMyList validatedList (fst afterDashboard),
                   snd afterDashboard)
          | None => ret (fetchMyList tok afterDashboard)
          end
        else if negb (isMyListLoading page) then
          ret (fetchMyList tok afterDashboard)
        else ret afterDashboard
    end.

(** The rest of [fetchDashboardData], once the request has settled at time
    [currentTime].  (The two [localStorage.setItem] calls are taken to
    succeed.) *)
Definition fetchDashboardData_settled (r : DashboardResponse)
    (currentTime : Z) (page : Page) (storage : gmap string string)
  : Rand (Page * gmap string string) :=
  let failed (msg : string) :=
    ret (setDataLoading false (setError (Some msg) page), storage) in
  match r with
  | DOk data =>
      lists <- validated data;;
      let '(pantry, produce, alerts) := lists in
      let formattedData :=
        {| stores := Some (default [] (stores data));
           pantryItems := Some pantry;
           produceItems := Some produce;
           buyAlerts := Some alerts;
           newsHighlights := Some (default [] (newsHighlights data)) |} in
      ret (setDataLoading false
             (setDataLoaded true (setDashboardData formattedData page)),
           <["lastFetchTime" := Js.toString currentTime]>
             (<["dashboardData" := stringifyDashboard json formattedData]>
                storage))
  | DHttpError msg => failed (strOr msg "Failed to fetch dashboard data")
  | DNetworkError msg => failed msg
  | DBadBody msg => failed msg
  end.

(** The rest of [fetchMyList]; [closureStores] is the
    [dashboardData?.stores || []] of the render that started the fetch. *)
Definition fetchMyList_settled (r : MyListResponse)
    (closureStores : list StoreType) (page : Page)
    (storage : gmap string string) : Rand (Page * gmap string string) :=
  match r with
  | MOk items =>
      validatedItems <-
        ensureValidPriceData rng (default [] items) closureStores;;
      ret (setIsMyListLoading false (setMyList validatedItems page),
           <["myList" := stringifyList json validatedItems]> storage)
  | MFailed => ret (setIsMyListLoading false page, storage)
  end.

(** [removeFromList(productId)] after an ok response.  [closureList] is
    the [myList] of the render whose handler was called: the function
    filters that list, not the list that the page holds when the response
    arrives. *)
Definition removeFromList_settled (productId : string)
    (closureList : list ProductType) (page : Page)
    (storage : gmap string string) : Page * gmap string string :=
  let updatedList :=
    filter (fun item => id item <> productId) closureList in
  (setMyList updatedList page,
   <["myList" := stringifyList json updatedList]> storage).

(** [handleLogout]: every cached entry is dropped. *)
Definition handleLogout (storage : gmap string string)
  : gmap string string :=
  delete "lastFetchTime"
    (delete "myList"
       (delete "dashboardData" (delete "user" (delete "token" storage)))).

End Logic.

(** *** Vocabulary of the statements *)

(** The page and the requests that the loading effect leaves. *)
Definition loadedPage (json : Json) (rng : nat -> Q)
    (storage : gmap string string) (currentTime : Z) (page : Page)
    (n : nat) : Page :=
  fst (fst (loadEffect json rng storage currentTime page n)).

Definition loadCommands (json : Json) (rng : nat -> Q)
    (storage : gmap string string) (currentTime : Z) (page : Page)
    (n : nat) : list Command :=
  snd (fst (loadEffect json rng storage currentTime page n)).

(** The page and the storage once the dashboard request has settled. *)
Definition settledPage (json : Json) (rng : nat -> Q)
    (r : DashboardResponse) (currentTime : Z) (page : Page)
    (storage : gmap string string) (n : nat) : Page :=
  fst (fst (fetchDashboardData_settled json rng r currentTime page
              storage n)).

Definition settledStorage (json : Json) (rng : nat -> Q)
    (r : DashboardResponse) (currentTime : Z) (page : Page)
    (storage : gmap string string) (n : nat) : gmap string string :=
  snd (fst (fetchDashboardData_settled json rng r currentTime page
              storage n)).

(** What the page shows from the cache: the parsed value with its three
    product lists passed through [ensureValidPriceData]. *)
Definition fromCache (rng : nat -> Q) (parsedData : DashboardDataType)
    (n : nat) : DashboardDataType :=
  let '(pantry, produce, alerts) := fst (validated rng parsedData n) in
  {| stores := stores parsedData;
     pantryItems := Some pantry;
     produceItems := Some produce;
     buyAlerts := Some alerts;
     newsHighlights := newsHighlights parsedData |}.

(** The value that [fetchDashboardData] shows and stores for an API
    response [data]. *)
Definition formatted (rng : nat -> Q) (data : DashboardDataType) (n : nat)
  : DashboardDataType :=
  let '(pantry, produce, alerts) := fst (validated rng data n) in
  {| stores := Some (default [] (stores data));
     pantryItems := Some pantry;
     produceItems := Some produce;
     buyAlerts := Some alerts;
     newsHighlights := Some (default [] (newsHighlights data)) |}.

(** The message that [fetchDashboardData] keeps when the request fails. *)
Definition failureMessage (r : DashboardResponse) : option string :=
  match r with
  | DNetworkError msg => Some msg
  | DHttpError msg => Some (strOr msg "Failed to fetch dashboard data")
  | DBadBody msg => Some msg
  | DOk _ => None
  end.

(** A signed-in session whose storage holds a dashboard that parses to
    [parsedData], written at time [fetchedAt]. *)
Record Session (json : Json) (storage : gmap string string)
    (token : string) (parsedData : DashboardDataType) (fetchedAt : Z)
  : Prop :=
  { has_token : storage !! "token" = Some token;
    token_truthy : Js.truthy (Some token) = true;
    has_user :
      exists userData parsedUser,
        storage !! "user" = Some userData
        /\ Js.truthy (Some userData) = true
        /\ parseUser json userData = Some parsedUser;
    has_cache :
      exists raw,
        storage !! "dashboardData" = Some raw
        /\ Js.truthy (Some raw) = true
        /\ parseDashboard json raw = Some parsedData;
    has_time : storage !! "lastFetchTime" = Some (Js.toString fetchedAt) }.

(** The page after a stale load whose request then fails. *)
Definition afterFailedRefresh (json : Json) (rng : nat -> Q)
    (storage : gmap string string) (currentTime : Z)
    (r : DashboardResponse) : Page :=
  settledPage json rng r currentTime
    (loadedPage json rng storage currentTime initialPage 0%nat)
    storage 0%nat.

(** C5 as stated, for the shopping list: right after [fetchMyList] has
    written the list, the cache counts as fresh. *)
Definition MyListWriteIsFresh : Prop :=
  forall json rng items closureStores page storage n currentTime window,
    0 < window ->
    freshWithin window
      (snd (fst (fetchMyList_settled json rng (MOk items) closureStores
                   page storage n)) !! "lastFetchTime")
      currentTime = true.

(** C6 as stated: with an old cache entry in storage, a failed dashboard
    request does not end in the error box. *)
Definition StaleServedOnFailure : Prop :=
  forall json rng storage token parsedData fetchedAt currentTime r msg,
    Session json storage token parsedData fetchedAt ->
    3600000 <= currentTime - fetchedAt ->
    failureMessage r = Some msg ->
    render (afterFailedRefresh json rng storage currentTime r)
    <> ErrorBox msg.

(** *** Sample data for the statements *)

(** A codec for examples: every stored string parses, to an empty
    dashboard, an empty list and one fixed user. *)
Definition emptyDashboard : DashboardDataType :=
  {| stores := Some []; pantryItems := Some []; produceItems := Some [];
     buyAlerts := Some []; newsHighlights := Some [] |}.

Definition someUser : UserType :=
  {| _id := "u1"; firstName := "Ada"; lastName := "Jones";
     fullName := "Ada Jones"; email := "ada@example.com";
     zipCode := "10001"; shoppingStyle := "value" |}.

Definition demoJson : Json :=
  {| parseUser := fun _ => Some someUser;
     parseDashboard := fun _ => Some emptyDashboard;
     parseList := fun _ => Some [];
     stringifyDashboard := fun _ => "{}";
     stringifyList := fun _ => "[]" |}.

(** A session whose dashboard and list were cached at time 1 000 000. *)
Definition cachedStorage : gmap string string :=
  <["lastFetchTime" := "1000000"]>
    (<["myList" := "[]"]>
       (<["dashboardData" := "{}"]>
          (<["user" := "{}"]> (<["token" := "t0k3n"]> ∅)))).

Definition refreshing : Page :=
  loadedPage demoJson lowDraws cachedStorage (1000000 + 5400000)
    initialPage 0%nat.

End Dashboard.

(* ===================================================================== *)
(** ** Notions about [ensureValidPriceData]                               *)
(* ===================================================================== *)

Module PriceNotions.

Import Prices.

(** [product.lowestPrice?.store] *)
Definition readStore (product : ProductType) : option string :=
  lowestPrice product ≫= store.

(** The test of the first branch of the price-range repair:
    [minPrice === 0 && maxPrice === 0]. *)
Definition rangeIsBlank (product : ProductType) : bool :=
  Qeq_bool (numOr0 (priceRange product ≫= min)) 0
  && Qeq_bool (numOr0 (priceRange product ≫= max)) 0.

(** A product that the function has nothing to invent for: a usable store
    name, a positive price, a range that is not 0 to 0. *)
Definition Complete (product : ProductType) : Prop :=
  needsStore (readStore product) = false
  /\ Qgtb (readPrice product) 0 = true
  /\ rangeIsBlank product = false.

(** A product as the page can show it: a positive price at a store with a
    name. *)
Definition Priced (product : ProductType) : Prop :=
  exists p s,
    lowestPrice product = Some {| price := Some p; store := Some s |}
    /\ (0 < p)%Q /\ s <> EmptyString.

(** A store whose names the function would not take for a missing one. *)
Definition Named (st : StoreType) : Prop :=
  name st <> Some "Unknown Store" /\ chainName st <> Some "Unknown Store".

(** The [min] and [max] of a product's price range, when it has one. *)
Definition rangeOf (product : ProductType) : option (Q * Q) :=
  r ← priceRange product; a ← min r; b ← max r; Some (a, b).

(** The branches of the price-range repair that draw nothing: a [min] of 0
    becomes 80% of [max], a [max] of 0 becomes 120% of [min]. *)
Definition repairRange (mn mx : Q) : Q * Q :=
  if Qeq_bool mn 0 && Qgtb mx 0 then (toFixed2 (mx * (8 # 10)), mx)
  else if Qgtb mn 0 && Qeq_bool mx 0 then (mn, toFixed2 (mn * (12 # 10)))
  else (mn, mx).

(** What the function invents for [product] stays within the bounds of its
    formulas: a price from 1 to 11, a range that starts between 1 and 6
    and ends at most 5 above its start. *)
Definition InventedWithinBounds (product out : ProductType) : Prop :=
  (Qgtb (readPrice product) 0 = false ->
   exists v, lowestPrice out ≫= price = Some v
             /\ (1 <= v)%Q /\ (v <= 11)%Q)
  /\ (rangeIsBlank product = true ->
      exists a b, rangeOf out = Some (a, b)
                  /\ (1 <= a)%Q /\ (a <= 6)%Q
                  /\ (a <= b)%Q /\ (b <= 11)%Q).

(** The product's own price and store are in the result. *)
Definition SamePriceAndStore (product out : ProductType) : Prop :=
  lowestPrice out ≫= price = Some (readPrice product)
  /\ readStore out = readStore product.

(** A product that the function returns as it is, without a draw. *)
Definition Settled (product : ProductType) : Prop :=
  forall rng stores index n,
    ensureOne rng stores index product n = (product, n).

(** [randomStore.name || randomStore.chainName || storeVariety[...]] *)
Definition storeLabel (index : nat) (st : StoreType) : string :=
  strOr (name st) (strOr (chainName st) (varietyAt index)).

(** The store name that the function gives to the product at [index]
    when its own is missing and every draw is [c]. *)
Definition pickedStore (c : Q) (stores : list StoreType) (index : nat)
  : string :=
  match stores with
  | [] => varietyAt index
  | _ :: _ =>
      storeLabel index
        (nth (randomIndex c (length stores)) stores
             {| name := None; chainName := None |})
  end.

(** The price and the range that the function invents when every draw is
    [c]. *)
Definition inventedPrice (c : Q) : Q := toFixed2 (c * 10 + 1).

Definition inventedRange (c : Q) : Q * Q :=
  (toFixed2 (c * 5 + 1), toFixed2 (toFixed2 (c * 5 + 1) + c * 5)).

(** The store list offers two names to the product at [index]. *)
Definition TwoNames (index : nat) (stores : list StoreType) : Prop :=
  exists j1 j2 st1 st2,
    nth_error stores j1 = Some st1 /\ nth_error stores j2 = Some st2
    /\ storeLabel index st1 <> storeLabel index st2.

(** The draw that picks position [j] of an array of length [len]. *)
Definition drawFor (j len : nat) : Q := Z.of_nat j # Pos.of_nat len.



(** *** More sample products *)

(** A price and a range, but no store; a price and a store, but no
    range. *)
Definition storeless : ProductType :=
  {| id := "p4"; rest := [ ("name", "Lentils") ];
     lowestPrice := Some {| price := Some (5 # 2)%Q; store := None |};
     priceRange := Some {| min := Some 2%Q; max := Some 3%Q;
                           period := Some "4 weeks" |} |}.

Definition rangeless : ProductType :=
  {| id := "p5"; rest := [ ("name", "Flour") ];
     lowestPrice := Some {| price := Some (7 # 4)%Q; store := Some "Aldi" |};
     priceRange := None |}.

End PriceNotions.
(* ===================================================================== *)
(** ** Notions about the dashboard page                                   *)
(* ===================================================================== *)

Module DashboardNotions.

Import Prices Dashboard PriceNotions.

(** A storage with a token and a user that parses: the loading effect
    does not send such a visitor to the login page. *)
Definition SignedIn (json : Json) (storage : gmap string string)
    (token : string) : Prop :=
  storage !! "token" = Some token
  /\ Js.truthy (Some token) = true
  /\ Js.truthy (storage !! "user") = true
  /\ is_Some (storage !! "user" ≫= parseUser json).

(** The dashboard entry of the storage cannot be used at [currentTime]:
    there is none, its timestamp is missing, not a number or an hour old,
    or the entry does not parse. *)
Definition Unusable (json : Json) (storage : gmap string string)
    (currentTime : Z) : Prop :=
  Js.truthy (storage !! "dashboardData") = false
  \/ isCacheValid (storage !! "lastFetchTime") currentTime = false
  \/ storage !! "dashboardData" ≫= parseDashboard json = None.

(** The five keys that [handleLogout] removes. *)
Definition sessionKeys : list string :=
  [ "token"; "user"; "dashboardData"; "myList"; "lastFetchTime" ].

Definition isGetMyList (c : Command) : bool :=
  match c with GetMyList _ => true | _ => false end.

(** The list that a successful list request shows, and the storage that
    it leaves. *)
Definition listedItems (rng : nat -> Q) (items : option (list ProductType))
    (closureStores : list StoreType) (n : nat) : list ProductType :=
  fst (ensureValidPriceData rng (default [] items) closureStores n).

Definition listStorage (json : Json) (rng : nat -> Q)
    (items : option (list ProductType)) (closureStores : list StoreType)
    (page : Page) (storage : gmap string string) (n : nat)
  : gmap string string :=
  snd (fst (fetchMyList_settled json rng (MOk items) closureStores page
              storage n)).

(** Two removals, of [a] and then of [b].  In turn: the second handler
    belongs to the render that follows the first removal, so its closure
    holds the list that the first removal left.  Overlapping: both
    handlers belong to the render that showed [shown], and the response
    for [a] arrives first. *)
Definition removedInTurn (json : Json) (a b : string)
    (shown : list ProductType) (page : Page)
    (storage : gmap string string) : Page * gmap string string :=
  let first := removeFromList_settled json a shown page storage in
  removeFromList_settled json b (myList (fst first)) (fst first)
    (snd first).

Definition removedOverlapping (json : Json) (a b : string)
    (shown : list ProductType) (page : Page)
    (storage : gmap string string) : Page * gmap string string :=
  let first := removeFromList_settled json a shown page storage in
  removeFromList_settled json b shown (fst first) (snd first).

(** The result of [ensureValidPriceData] on these products and stores is
    not a function of them: two sequences of values of [Math.random] give
    different lists, and for an API response with these pantry items and
    stores, [fetchDashboardData] shows, and stringifies into the cache,
    different values. *)
Definition DependsOnDraws (products : list ProductType)
    (stores : list StoreType) : Prop :=
  exists rng1 rng2,
    validDraws rng1 /\ validDraws rng2
    /\ fst (ensureValidPriceData rng1 products stores 0%nat)
       <> fst (ensureValidPriceData rng2 products stores 0%nat)
    /\ forall json data currentTime page storage,
         pantryItems data = Some products ->
         Dashboard.stores data = Some stores ->
         dashboardData
           (settledPage json rng1 (DOk data) currentTime
              page storage 0%nat)
         <> dashboardData
              (settledPage json rng2 (DOk data) currentTime
                 page storage 0%nat)
         /\ (forall rng,
               settledStorage json rng (DOk data)
                 currentTime page storage 0%nat !! "dashboardData"
               = stringifyDashboard json
                   <$> dashboardData
                         (settledPage json rng (DOk data)
                            currentTime page storage 0%nat)).


(** *** Sample data with products *)

(** A codec that knows one dashboard and one list: it writes them as
    "dashboard" and "list", reads these two strings back and fails on
    every other. *)
Definition tableJson (dashboard : DashboardDataType)
    (list : list ProductType) : Json :=
  {| parseUser := fun _ => Some someUser;
     parseDashboard :=
       fun text =>
         if String.eqb text "dashboard" then Some dashboard else None;
     parseList :=
       fun text => if String.eqb text "list" then Some list else None;
     stringifyDashboard := fun _ => "dashboard";
     stringifyList := fun _ => "list" |}.

(** A storage with a session and no cache. *)
Definition signedInStorage : gmap string string :=
  <["user" := "{}"]> (<["token" := "t0k3n"]> ∅).

(** An API response with products that lack a price, a range or a store,
    and one that lacks nothing. *)
Definition pantryResponse : DashboardDataType :=
  {| stores := Some twoStores;
     pantryItems := Some [ unpriced; zeroPriced; complete ];
     produceItems := Some [ storeless ];
     buyAlerts := None;
     newsHighlights := None |}.

(** What [fetchDashboardData] makes of it, the codec that stores it, and
    the storage after the request of time 1 000 000. *)
Definition pantryWritten : DashboardDataType :=
  formatted midDraws pantryResponse 0%nat.

Definition pantryJson : Json := tableJson pantryWritten [].

Definition pantryStorage : gmap string string :=
  settledStorage pantryJson midDraws (DOk pantryResponse) 1000000
    initialPage signedInStorage 0%nat.

(** The same with the list of a list request. *)
Definition listJson : Json :=
  tableJson emptyDashboard
    (listedItems midDraws (Some [ unpriced; zeroPriced; complete ])
       twoStores 0%nat).






End DashboardNotions.
(* ===================================================================== *)
(** ** Notions about the pollers                                          *)
(* ===================================================================== *)

Module PollNotions.

Import Poll.

(** [k] rounds of a timeout poller whose job stays pending: the response
    arrives, then the timer that the handler has set fires. *)
Fixpoint pendingRounds (data : StatusBody) (k : nat) : list Event :=
  match k with
  | O => []
  | S k' => Settle (Body true data) :: TimerFires :: pendingRounds data k'
  end.

(** [k] rounds of the interval poller whose job stays pending: a tick,
    then the response to its request. *)
Fixpoint pendingTicks (data : StatusBody) (k : nat) : list Event :=
  match k with
  | O => []
  | S k' => Tick :: Settle (Body true data) :: pendingTicks data k'
  end.

Definition isRouterPush (e : Effect) : bool :=
  match e with RouterPush _ => true | _ => false end.

(** An effect that lets the user out of the waiting screen: the login
    page's checking flag is cleared (its form comes back), or the page
    goes to another route, now or by a timer. *)
Definition isRelease (e : Effect) : bool :=
  match e with
  | SetState setter (VBool false) => String.eqb setter "setIsCheckingStatus"
  | RouterPush _ => true
  | SetTimeout (Later effects) _ => existsb isRouterPush effects
  | _ => false
  end.

Definition releases (effects : list Effect) : bool :=
  existsb isRelease effects.

(** The poller goes on after these effects: a timeout poller has set its
    next timer, the interval poller has not cleared its interval. *)
Definition continues (site : Site) (effects : list Effect) : bool :=
  if byInterval site then negb (clears effects)
  else Nat.eqb (scheduled effects) 1.

(** The same effects with another delay for the next status check. *)
Definition retimed (ms : Z) (effects : list Effect) : list Effect :=
  map (fun e => match e with
                | SetTimeout CheckStatus _ => SetTimeout CheckStatus ms
                | _ => e
                end) effects.

(** A non-2xx response whose body can be read. *)
Definition failedWithBody (r : Response) : bool :=
  match r with
  | Body false _ | JsonNull false => true
  | _ => false
  end.

(** What [checkDataLoadingStatus] does first with every 2xx body: it
    shows the progress and the message. *)
Definition announces (data : StatusBody) : list Effect :=
  [ SetState "setDataLoadingProgress"
      (VNum (Prices.numOr0 (progress data)));
    SetState "setDataLoadingMessage"
      (VStr (Prices.strOr (message data) "Setting up your account...")) ].

(** The success branch of [checkDataLoadingStatus]. *)
Definition accountReady : list Effect :=
  [ SetState "setDataLoading" (VBool false);
    Toast "success" "Your account is ready!";
    RouterPush "/login?message=Your account is ready! You can now sign in." ].

(** A body that says "completed" and is far from 100. *)
Definition completedEarlyBody : StatusBody :=
  {| status := Some "completed"; progress := Some (40 # 1)%Q;
     message := None |}.

End PollNotions.
(* ===================================================================== *)
(** ** The pollers with their delayed callbacks                           *)
(* ===================================================================== *)

Module PollTimers.

Import Poll.

(** The callbacks that a list of effects leaves to [setTimeout] and that
    do something other than a status check, in the order of the calls. *)
Fixpoint delayedBy (effects : list Effect) : list (list Effect) :=
  match effects with
  | [] => []
  | SetTimeout (Later callback) _ :: more => callback :: delayedBy more
  | _ :: more => delayedBy more
  end.

(** A poller together with the delayed callbacks that have not run
    yet.  Nothing in the pages clears such a timer: it runs whether or
    not the component is still mounted. *)
Record Timed := { poller : Poller; delayed : list (list Effect) }.

Definition armT (site : Site) : Timed :=
  {| poller := arm site; delayed := [] |}.

Inductive TimedEvent :=
| Plain (e : Event)          (* an event of the poller itself *)
| LaterFires (i : nat).      (* the delayed callback at position [i] runs *)

(** What an event of the poller hands to [setTimeout]. *)
Definition armedBy (site : Site) (e : Event) : list (list Effect) :=
  match e with
  | Settle r => delayedBy (onResponse site r)
  | Unmount => delayedBy (cleanup site)
  | TimerFires | Tick => []
  end.

Definition stepT (site : Site) (s : Timed) (e : TimedEvent)
  : option Timed :=
  match e with
  | Plain e =>
      match step site (poller s) e with
      | Some s' =>
          Some {| poller := s';
                  delayed := (delayed s ++ armedBy site e)%list |}
      | None => None
      end
  | LaterFires i =>
      match nth_error (delayed s) i with
      | Some callback =>
          Some {| poller := perform callback (poller s);
                  delayed :=
                    (firstn i (delayed s) ++ skipn (S i) (delayed s)
                     ++ delayedBy callback)%list |}
      | None => None
      end
  end.

Fixpoint runT (site : Site) (s : Timed) (events : list TimedEvent)
  : option Timed :=
  match events with
  | [] => Some s
  | e :: more =>
      match stepT site s e with
      | Some s' => runT site s' more
      | None => None
      end
  end.

Definition ReachableT (site : Site) (s : Timed) : Prop :=
  exists events, runT site (armT site) events = Some s.

(** *** Vocabulary of the statements *)

(** A callback that sets no timer of any kind. *)
Definition Quiet (callback : list Effect) : Prop :=
  scheduled callback = 0%nat /\ delayedBy callback = [].

(** The state of a timeout poller between two verdicts: one request in
    flight or one check timer pending and no delayed callback; or nothing
    of the two, and at most one delayed callback, which is quiet. *)
Definition Tidy (s : Timed) : Prop :=
  interval (poller s) = false
  /\ ((timers (poller s) + inflight (poller s) = 1)%nat /\ delayed s = []
      \/ timers (poller s) = 0%nat /\ inflight (poller s) = 0%nat
         /\ (length (delayed s) <= 1)%nat /\ Forall Quiet (delayed s)).

(** What is left to happen after a verdict that armed the callbacks
    [armed], from the request count [count] and the effects [done]:
    nothing more is requested, and either nothing more was done, or the
    one callback ran, once. *)
Definition Verdict (armed : list (list Effect)) (count : nat)
    (done : list Effect) (s : Timed) : Prop :=
  interval (poller s) = false /\ timers (poller s) = 0%nat
  /\ inflight (poller s) = 0%nat
  /\ requests (poller s) = count
  /\ (performed (poller s) = done /\ delayed s = armed
      \/ exists callback m,
           armed = [ callback ] /\ delayed s = []
           /\ performed (poller s) = (done ++ effective m callback)%list).

(** *** Sample states *)

(** The signup data-loading poll after a status check that failed, and
    the same after the component has unmounted and the five seconds have
    passed. *)
Definition caughtSignup : Timed :=
  {| poller :=
       {| mounted := true; interval := false; timers := 0; inflight := 0;
          requests := 1; performed := checkDataLoadingStatus_catch |};
     delayed :=
       [ [ SetState "setDataLoading" (VBool false); RouterPush "/login" ] ] |}.

Definition releasedSignup : Timed :=
  {| poller :=
       {| mounted := false; interval := false; timers := 0; inflight := 0;
          requests := 1;
          performed :=
            (checkDataLoadingStatus_catch ++ [ RouterPush "/login" ])%list |};
     delayed := [] |}.

End PollTimers.
(* ===================================================================== *)
(** ** String methods                                                     *)
(* ===================================================================== *)

Module JsString.

(** [s.startsWith(prefix)] *)
Definition startsWith (s prefix : string) : bool := String.prefix prefix s.

(** [s.includes(sub)]: [sub] occurs somewhere in [s]. *)
Fixpoint includes (s sub : string) : bool :=
  String.prefix sub s
  || match s with
     | EmptyString => false
     | String _ rest => includes rest sub
     end.

(** [!s.trim()]: nothing but white space, with the white space of
    [Js.isWhiteSpace]: exact on ASCII strings. *)
Fixpoint isBlank (s : string) : bool :=
  match s with
  | EmptyString => true
  | String c rest => Js.isWhiteSpace c && isBlank rest
  end.

(** [String(v)] of a value that is a string or [undefined], as
    [localStorage.setItem] stores it. *)
Definition stringOf (v : option string) : string := default "undefined" v.

End JsString.

(* ===================================================================== *)
(** ** Login page                                                         *)
(* ===================================================================== *)

Module Login.

Import JsString.

Record FormData := { email : string; password : string }.

(** The [errors] state; its fields are [email], [password], [general]. *)
Record Errors :=
  { emailError : string; passwordError : string; general : string }.

Record LoginState :=
  { formData : FormData;
    errors : Errors;
    isLoading : bool;
    isCheckingStatus : bool;
    message : option string }.

Definition setFormEmail (v : string) (p : LoginState) : LoginState :=
  {| formData := {| email := v; password := password (formData p) |};
     errors := errors p; isLoading := isLoading p;
     isCheckingStatus := isCheckingStatus p; message := message p |}.

Definition setErrors (v : Errors) (p : LoginState) : LoginState :=
  {| formData := formData p; errors := v; isLoading := isLoading p;
     isCheckingStatus := isCheckingStatus p; message := message p |}.

Definition setIsLoading (v : bool) (p : LoginState) : LoginState :=
  {| formData := formData p; errors := errors p; isLoading := v;
     isCheckingStatus := isCheckingStatus p; message := message p |}.

Definition setIsCheckingStatus (v : bool) (p : LoginState) : LoginState :=
  {| formData := formData p; errors := errors p; isLoading := isLoading p;
     isCheckingStatus := v; message := message p |}.

Definition setMessage (v : option string) (p : LoginState) : LoginState :=
  {| formData := formData p; errors := errors p; isLoading := isLoading p;
     isCheckingStatus := isCheckingStatus p; message := v |}.

Definition initialState : LoginState :=
  {| formData := {| email := EmptyString; password := EmptyString |};
     errors := {| emailError := EmptyString; passwordError := EmptyString;
                  general := EmptyString |};
     isLoading := false; isCheckingStatus := false; message := None |}.

(** Requests that the page sends. *)
Inductive LoginRequest :=
| CheckEmailVerification (address : string)
                                (* [POST /users/check-email-verification] *)
| PostLogin (form : FormData)   (* [POST /users/login] *)
| StatusByEmail (address : string).
                                (* [POST /users/data-fetch-status-by-email] *)

(** [validateForm]: the verdict and the errors that it sets. *)
Definition validateForm (form : FormData) : bool * Errors :=
  let badEmail :=
    negb (includes (email form) "@") || negb (includes (email form) ".") in
  let badPassword := (String.length (password form) <? 1)%nat in
  (negb badEmail && negb badPassword,
   {| emailError :=
        if badEmail then "Please enter a valid email address."
        else EmptyString;
      passwordError :=
        if badPassword then "Password is required." else EmptyString;
      general := EmptyString |}).

(** How the verification check settles; [verified] is the truthiness of
    [result.verified]. *)
Inductive VerificationResponse :=
| VNetworkError                      (* [fetch] rejects *)
| VNotJson (ok : bool)               (* [response.json()] rejects *)
| VNull (ok : bool)                  (* the body is [null] *)
| VBody (ok : bool) (verified : bool).

(** [checkEmailVerification], as the truthiness of what it returns. *)
Definition checkEmailVerification (r : VerificationResponse) : bool :=
  match r with
  | VBody true verified => verified
  | VBody false _ => true
  | VNull false => true
  | VNull true => true               (* [result.verified] throws *)
  | VNetworkError | VNotJson _ => true
  end.

(** The body of a login response; a field is [None] when the body lacks
    it.  [user] is the JSON text of [result.user]. *)
Record LoginBody :=
  { dataFetchStatus : option string;
    bodyMessage : option string;
    token : option string;
    user : option string }.

(** How the login request settles. *)
Inductive LoginResponse :=
| LThrows (msg : string)
      (* [fetch] or [response.json()] rejects, or the body is [null] and
         reading a field of it throws: the message of the error *)
| LBody (ok : bool) (result : LoginBody).

Record Outcome :=
  { page : LoginState;
    storage : gmap string string;
    sent : list LoginRequest;
    pushed : option string }.

Definition generalError (msg : string) (p : LoginState) : LoginState :=
  setErrors {| emailError := emailError (errors p);
               passwordError := passwordError (errors p);
               general := msg |} p.

(** [handleSubmit] from its [fetch] of [/users/login] on; [before] are the
    requests already sent. *)
Definition login (resp : LoginResponse) (before : list LoginRequest)
    (p : LoginState) (store : gmap string string) : Outcome :=
  let form := formData p in
  match resp with
  | LThrows msg =>
      {| page := setIsLoading false (generalError msg p);
         storage := store;
         sent := (before ++ [ PostLogin form ])%list;
         pushed := None |}
  | LBody false result =>
      if bool_decide (dataFetchStatus result = Some "pending") then
        {| page :=
             setIsLoading false
               (setIsLoading false
                  (setErrors
                     {| emailError := EmptyString;
                        passwordError := EmptyString;
                        general :=
                          "Your account is still being set up. Please wait a moment before signing in." |}
                     (setIsCheckingStatus true p)));
           storage := <["pendingLoginEmail" := email form]> store;
           sent :=
             (before ++ [ PostLogin form; StatusByEmail (email form) ])%list;
           pushed := None |}
      else
        {| page :=
             setIsLoading false
               (generalError
                  (Prices.strOr (bodyMessage result) "Invalid credentials")
                  p);
           storage := store;
           sent := (before ++ [ PostLogin form ])%list;
           pushed := None |}
  | LBody true result =>
      {| page := setIsLoading false p;
         storage :=
           <["user" := stringOf (user result)]>
             (<["token" := stringOf (token result)]> store);
         sent := (before ++ [ PostLogin form ])%list;
         pushed := Some "/dashboard" |}
  end.

(** [handleSubmit] of [LoginContent]. *)
Definition handleSubmit (resp : LoginResponse) (p : LoginState)
    (store : gmap string string) : Outcome :=
  let (valid, newErrors) := validateForm (formData p) in
  if negb valid then
    {| page := setErrors newErrors p; storage := store; sent := [];
       pushed := None |}
  else login resp [] (setIsLoading true (setErrors newErrors p)) store.

Section Verified.

Variable encodeURIComponent : string -> string.

(** [handleSubmit] of the first version, which asks first whether the
    e-mail address is verified. *)
Definition handleSubmit_v1 (ver : VerificationResponse)
    (resp : LoginResponse) (p : LoginState) (store : gmap string string)
  : Outcome :=
  let (valid, newErrors) := validateForm (formData p) in
  if negb valid then
    {| page := setErrors newErrors p; storage := store; sent := [];
       pushed := None |}
  else
    let p1 := setIsLoading true (setErrors newErrors p) in
    let address := email (formData p) in
    if negb (checkEmailVerification ver) then
      {| page := setIsLoading false p1;
         storage := store;
         sent := [ CheckEmailVerification address ];
         pushed :=
           Some ("/signup?email=" ++ encodeURIComponent address
                 ++ "&needsVerification=true") |}
    else login resp [ CheckEmailVerification address ] p1 store.

End Verified.

(** The effect that runs when the page mounts; [urlMessage] is
    [searchParams.get("message")]. *)
Definition mountEffect (urlMessage : option string)
    (store : gmap string string) (p : LoginState)
  : LoginState * list LoginRequest :=
  let p1 := if Js.truthy urlMessage then setMessage urlMessage p else p in
  let pending := store !! "pendingLoginEmail" in
  if Js.truthy pending then
    let address := default EmptyString pending in
    (setIsCheckingStatus true (setFormEmail address p1),
     [ StatusByEmail address ])
  else (p1, []).

(** What an effect of the status handlers does to the page and to the
    storage. *)
Definition applyEffect (st : LoginState * gmap string string)
    (e : Poll.Effect)
  : LoginState * gmap string string :=
  match e with
  | Poll.SetState setter (Poll.VBool b) =>
      if String.eqb setter "setIsCheckingStatus"
      then (setIsCheckingStatus b (fst st), snd st) else st
  | Poll.SetState setter (Poll.VStr text) =>
      if String.eqb setter "setMessage"
      then (setMessage (Some text) (fst st), snd st) else st
  | Poll.RemoveItem key => (fst st, delete key (snd st))
  | _ => st
  end.

Definition handled (effects : list Poll.Effect)
    (st : LoginState * gmap string string)
  : LoginState * gmap string string :=
  fold_left applyEffect effects st.

(** *** Vocabulary of the statements *)

(** The status check ended in the handler's [catch] block. *)
Definition threw (r : Poll.Response) : bool :=
  match r with
  | Poll.NetworkError | Poll.NotJson _ | Poll.JsonNull true => true
  | _ => false
  end.

Definition isPostLogin (q : LoginRequest) : bool :=
  match q with PostLogin _ => true | _ => false end.

(** *** Sample data *)

Definition aliceForm : FormData :=
  {| email := "alice@example.com"; password := "correct horse" |}.

Definition alicePage : LoginState :=
  {| formData := aliceForm; errors := errors initialState;
     isLoading := false; isCheckingStatus := false; message := None |}.

Definition stillPending : LoginBody :=
  {| dataFetchStatus := Some "pending";
     bodyMessage := Some "Data is still being prepared";
     token := None; user := None |}.

Definition welcome : LoginBody :=
  {| dataFetchStatus := None; bodyMessage := None;
     token := Some "t0k3n"; user := Some "{}" |}.

End Login.
(* ===================================================================== *)
(** ** Regular expressions                                                *)
(* ===================================================================== *)

Module Regex.

(** The patterns of the form checks, without their anchors: all of them
    are written [/^...$/], so [test] asks for a match of the whole
    string. *)
Inductive Pattern :=
| Never
| Empty
| Class (member : ascii -> bool)
| Seq (a b : Pattern)
| Alt (a b : Pattern)
| Star (a : Pattern).

(** [a+], [a?] and [a{n}] *)
Definition Plus (a : Pattern) : Pattern := Seq a (Star a).

Definition Opt (a : Pattern) : Pattern := Alt a Empty.

Fixpoint Times (n : nat) (a : Pattern) : Pattern :=
  match n with
  | O => Empty
  | S k => Seq a (Times k a)
  end.

Definition isDigit (c : ascii) : bool :=
  let n := N_of_ascii c in (48 <=? n)%N && (n <=? 57)%N.

(** [\d] *)
Definition digit : Pattern := Class isDigit.

(** [\S], with the white space of [Js.isWhiteSpace]: exact on ASCII
    strings; a character above 127 always counts as [\S] here. *)
Definition nonSpace : Pattern := Class (fun c => negb (Js.isWhiteSpace c)).

(** A literal character *)
Definition char (c : ascii) : Pattern := Class (Ascii.eqb c).

Fixpoint nullable (p : Pattern) : bool :=
  match p with
  | Never => false
  | Empty => true
  | Class _ => false
  | Seq a b => nullable a && nullable b
  | Alt a b => nullable a || nullable b
  | Star _ => true
  end.

(** What is left of a pattern once the character [c] has been read. *)
Fixpoint deriv (c : ascii) (p : Pattern) : Pattern :=
  match p with
  | Never => Never
  | Empty => Never
  | Class member => if member c then Empty else Never
  | Seq a b =>
      if nullable a then Alt (Seq (deriv c a) b) (deriv c b)
      else Seq (deriv c a) b
  | Alt a b => Alt (deriv c a) (deriv c b)
  | Star a => Seq (deriv c a) (Star a)
  end.

(** [/^p$/.test(s)] *)
Fixpoint test (p : Pattern) (s : string) : bool :=
  match s with
  | EmptyString => nullable p
  | String c rest => test (deriv c p) rest
  end.

(** The strings of a pattern. *)
Inductive Iter (L : string -> Prop) : string -> Prop :=
| iter_done : Iter L EmptyString
| iter_more (c : ascii) (u v : string) :
    L (String c u) -> Iter L v -> Iter L (String c u ++ v).

Fixpoint Lang (p : Pattern) (s : string) : Prop :=
  match p with
  | Never => False
  | Empty => s = EmptyString
  | Class member => exists c, s = String c EmptyString /\ member c = true
  | Seq a b => exists u v, s = u ++ v /\ Lang a u /\ Lang b v
  | Alt a b => Lang a s \/ Lang b s
  | Star a => Iter (Lang a) s
  end.

(** A pattern that no string matches, by its shape. *)
Fixpoint dead (p : Pattern) : bool :=
  match p with
  | Never => true
  | Seq a b => dead a || dead b
  | Alt a b => dead a && dead b
  | _ => false
  end.

End Regex.

(* ===================================================================== *)
(** ** Signup page: the checks of the form                                *)
(* ===================================================================== *)

Module Signup.

Import JsString Regex.

Record SignupForm :=
  { firstName : string;
    lastName : string;
    email : string;
    password : string;
    confirmPassword : string;
    zipCode : string;
    shoppingStyle : string;
    phoneNumber : string }.

(** [/^\S+@\S+\.\S+$/] *)
Definition emailPattern : Pattern :=
  Seq (Plus nonSpace)
    (Seq (char "@") (Seq (Plus nonSpace) (Seq (char ".") (Plus nonSpace)))).

(** [/^\d{5}(-\d{4})?$/] *)
Definition zipPattern : Pattern :=
  Seq (Times 5 digit) (Opt (Seq (char "-") (Times 4 digit))).

(** [validateStep1]: the message of the first check that fails. *)
Definition validateStep1 (formData : SignupForm) : option string :=
  if isBlank (firstName formData) then Some "First name is required"
  else if isBlank (lastName formData) then Some "Last name is required"
  else if isBlank (email formData) then Some "Email is required"
  else if negb (test emailPattern (email formData))
       then Some "Invalid email format"
  else if negb (Js.truthy (Some (password formData)))
       then Some "Password is required"
  else if (String.length (password formData) <? 8)%nat
       then Some "Password must be at least 8 characters"
  else if negb (String.eqb (password formData) (confirmPassword formData))
       then Some "Passwords do not match"
  else None.

(** [validateStep2] *)
Definition validateStep2 (formData : SignupForm) : option string :=
  if isBlank (zipCode formData) then Some "ZIP code is required"
  else if negb (test zipPattern (zipCode formData))
       then Some "Invalid ZIP code format"
  else if negb (Js.truthy (Some (shoppingStyle formData)))
       then Some "Please select your shopping style"
  else None.

(** The verdict of [validateForm] of the earlier, one-step signup page
    (it has no [confirmPassword] and no [phoneNumber]). *)
Definition validateForm_one_step (formData : SignupForm) : bool :=
  negb (String.length (firstName formData) <? 2)%nat
  && negb (String.length (lastName formData) <? 2)%nat
  && negb (negb (includes (email formData) "@")
           || negb (includes (email formData) "."))
  && negb (String.length (password formData) <? 8)%nat
  && negb (String.length (zipCode formData) <? 5)%nat.

(** *** Vocabulary of the statements *)

Fixpoint allDigits (s : string) : bool :=
  match s with
  | EmptyString => true
  | String c rest => isDigit c && allDigits rest
  end.

Fixpoint noSpace (s : string) : bool :=
  match s with
  | EmptyString => true
  | String c rest => negb (Js.isWhiteSpace c) && noSpace rest
  end.

(** Five digits, or five digits, a hyphen and four digits. *)
Definition zipShape (s : string) : bool :=
  (String.length s =? 5)%nat && allDigits s
  || (String.length s =? 10)%nat
     && allDigits (substring 0 5 s)
     && String.eqb (substring 5 1 s) "-"
     && allDigits (substring 6 4 s).

(** A non-empty string without white space. *)
Definition word (s : string) : Prop :=
  s <> EmptyString /\ noSpace s = true.

(** Strings of characters below 128.  On these the white space and the
    lengths of the model are those of the page; a character above 127 is
    never white space here, so that on other strings the checks of the
    model accept at least what the page accepts. *)
Fixpoint isAscii (s : string) : bool :=
  match s with
  | EmptyString => true
  | String c rest => (N_of_ascii c <? 128)%N && isAscii rest
  end.

Definition asciiForm (formData : SignupForm) : bool :=
  isAscii (firstName formData) && isAscii (lastName formData)
  && isAscii (email formData) && isAscii (password formData).

(** A word, "@", a word, ".", a word. *)
Definition EmailShape (s : string) : Prop :=
  exists a b c, s = a ++ "@" ++ b ++ "." ++ c /\ word a /\ word b /\ word c.

(** *** Sample data *)

Definition alice : SignupForm :=
  {| firstName := "Alice"; lastName := "Liddell";
     email := "alice@example.com";
     password := "correct horse"; confirmPassword := "correct horse";
     zipCode := "10001-0042"; shoppingStyle := "value";
     phoneNumber := EmptyString |}.

End Signup.
(* ===================================================================== *)
(** ** API helpers                                                        *)
(* ===================================================================== *)

Module Api.

Import JsString.

(** [getApiUrl(path)]; [env] is [process.env.NEXT_PUBLIC_API_URL]. *)
Definition getApiUrl (env : option string) (path : string) : string :=
  let baseUrl := Prices.strOr env "http://localhost:5000/api" in
  baseUrl ++ (if startsWith path "/" then path else "/" ++ path).

(** The request that [fetchWithAuth(path, options)] passes to [fetch],
    for [options.headers] given as a plain object.  In an object literal
    a later spread overrides the keys before it. *)
Record Request := { url : string; headers : gmap string string }.

Definition fetchWithAuth (env : option string)
    (storage : gmap string string) (path : string)
    (optionHeaders : gmap string string) : Request :=
  let token := storage !! "token" in
  {| url := getApiUrl env path;
     headers :=
       optionHeaders
       ∪ ((if Js.truthy token
           then {[ "Authorization" := "Bearer " ++ default EmptyString token ]}
           else ∅)
          ∪ {[ "Content-Type" := "application/json" ]}) |}.

End Api.

(* ===================================================================== *)
(** * Properties                                                          *)
(* ===================================================================== *)

Module JsFacts.

Import Js.

Example parseInt_plain : parseInt "1700000000000" = Some 1700000000000.
Proof. reflexivity. Qed.

Example parseInt_padded : parseInt "  -42px" = Some (-42).
Proof. reflexivity. Qed.

Example parseInt_hex : parseInt "0x1f" = Some 31.
Proof. reflexivity. Qed.

Example parseInt_nan : parseInt "soon" = None.
Proof. reflexivity. Qed.

Example toString_neg : toString (-15) = "-15".
Proof. reflexivity. Qed.

Lemma parseDigits_uint_acc (u : uint) (acc : positive) :
  parseDigits 10 (NilEmpty.string_of_uint u) (Z.pos acc)
  = Z.pos (Pos.of_uint_acc u acc).
Proof.
  revert acc.
  induction u as [ |u IH|u IH|u IH|u IH|u IH|u IH|u IH|u IH|u IH|u IH];
    intros acc; cbn [NilEmpty.string_of_uint parseDigits Pos.of_uint_acc];
    [reflexivity | ..];
    (change (radixDigit 10 _) with (Some 0)
     || change (radixDigit 10 _) with (Some 1)
     || change (radixDigit 10 _) with (Some 2)
     || change (radixDigit 10 _) with (Some 3)
     || change (radixDigit 10 _) with (Some 4)
     || change (radixDigit 10 _) with (Some 5)
     || change (radixDigit 10 _) with (Some 6)
     || change (radixDigit 10 _) with (Some 7)
     || change (radixDigit 10 _) with (Some 8)
     || change (radixDigit 10 _) with (Some 9));
    cbv beta iota; rewrite <- IH; f_equal; lia.
Qed.

Lemma parseDigits_uint (u : uint) :
  parseDigits 10 (NilEmpty.string_of_uint u) 0 = Z.of_N (Pos.of_uint u).
Proof.
  induction u as [ |u IH|u IH|u IH|u IH|u IH|u IH|u IH|u IH|u IH|u IH];
    cbn [NilEmpty.string_of_uint parseDigits Pos.of_uint];
    [reflexivity | exact IH | ..];
    apply (parseDigits_uint_acc u).
Qed.

Lemma to_uint_not_Nil (p : positive) : Pos.to_uint p <> Nil.
Proof.
  intros E. pose proof (DecimalPos.Unsigned.of_to p) as H.
  rewrite E in H. discriminate H.
Qed.

(** A printed numeral starts with a digit and its second character is
    never an [x]: neither white space, a sign nor a radix prefix is
    stripped from it. *)
Lemma parseInt_uint (u : uint) :
  u <> Nil ->
  parseInt (NilEmpty.string_of_uint u)
  = Some (parseDigits 10 (NilEmpty.string_of_uint u) 0).
Proof.
  intros Hu.
  assert (forall z, 1 * z = z) as E by (intros; lia).
  destruct u as [ |u|u|u|u|u|u|u|u|u|u];
    [congruence | destruct u | ..];
    cbn [NilEmpty.string_of_uint];
    cbv -[parseDigits Z.mul Z.opp NilEmpty.string_of_uint];
    rewrite ?E; reflexivity.
Qed.

Lemma parseInt_neg_uint (u : uint) :
  u <> Nil ->
  parseInt (String "-" (NilEmpty.string_of_uint u))
  = Some (- parseDigits 10 (NilEmpty.string_of_uint u) 0).
Proof.
  intros Hu.
  assert (forall z, -1 * z = - z) as E by (intros; lia).
  destruct u as [ |u|u|u|u|u|u|u|u|u|u];
    [congruence | destruct u | ..];
    cbn [NilEmpty.string_of_uint];
    cbv -[parseDigits Z.mul Z.opp NilEmpty.string_of_uint];
    rewrite ?E; reflexivity.
Qed.

(** What [toString] writes, [parseInt] reads back. *)
Lemma parseInt_toString (n : Z) : parseInt (toString n) = Some n.
Proof.
  destruct n as [ |p|p]; [reflexivity | ..]; unfold toString; cbn.
  - pose proof (to_uint_not_Nil p) as Hp.
    unfold NilZero.string_of_uint.
    destruct (Pos.to_uint p) eqn:E; try congruence;
      rewrite <- E in *; rewrite parseInt_uint by assumption;
      rewrite parseDigits_uint, DecimalPos.Unsigned.of_to; reflexivity.
  - pose proof (to_uint_not_Nil p) as Hp.
    unfold NilZero.string_of_uint.
    destruct (Pos.to_uint p) eqn:E; try congruence;
      rewrite <- E in *; rewrite parseInt_neg_uint by assumption;
      rewrite parseDigits_uint, DecimalPos.Unsigned.of_to; reflexivity.
Qed.

Lemma truthy_toString (n : Z) : truthy (Some (toString n)) = true.
Proof.
  destruct n as [ |p|p]; [reflexivity | ..]; unfold toString; cbn.
  - pose proof (to_uint_not_Nil p) as Hp.
    unfold NilZero.string_of_uint.
    destruct (Pos.to_uint p); try congruence; reflexivity.
  - reflexivity.
Qed.

End JsFacts.

(* ===================================================================== *)
(** ** The pollers                                                        *)
(* ===================================================================== *)

Module PollFacts.

Import Poll.

(** Case analysis on a response and on the tests a handler makes of it. *)
Ltac handler_cases r :=
  destruct r as [ | [] | [] | [] ?data ]; cbn;
  repeat match goal with
         | |- context [ statusIs ?d ?s ] => destruct (statusIs d s) eqn:?
         | |- context [ progressDone ?d ] => destruct (progressDone d) eqn:?
         end; cbn.

Lemma statusIs_true (data : StatusBody) (s : string) :
  statusIs data s = true -> status data = Some s.
Proof. unfold statusIs. apply bool_decide_eq_true_1. Qed.

(** A status is one string: two different tests cannot both succeed. *)
Ltac status_clash :=
  match goal with
  | H1 : statusIs ?d ?a = true, H2 : statusIs ?d ?b = true |- _ =>
      apply statusIs_true in H1; apply statusIs_true in H2;
      rewrite H1 in H2; discriminate H2
  end.

Ltac in_sites H :=
  cbn in H;
  repeat match type of H with
         | _ \/ _ => destruct H as [H | H]
         end;
  try contradiction; subst.

(** *** Scenarios *)

(** Statuses pending, pending, completed: three requests, then rest. *)
Example pending_pending_completed :
  option_map (fun s => (requests s, timers s, inflight s))
    (run signupDataLoading (arm signupDataLoading)
       [ Settle (Body true pendingBody); TimerFires;
         Settle (Body true pendingBody); TimerFires;
         Settle (Body true completedBody) ])
  = Some (3, 0, 0)%nat.
Proof. reflexivity. Qed.

(** HTTP 500 on the login page: one request, no retry. *)
Example login_http_500 :
  option_map (fun s => (requests s, timers s, inflight s, performed s))
    (run loginByEmail (arm loginByEmail) [ Settle (NotJson false) ])
  = Some (1, 0, 0, checkDataFetchStatus_catch)%nat.
Proof. reflexivity. Qed.

(** *** What each handler schedules *)

Lemma timeout_handler_schedules_at_most_one (site : Site) (r : Response) :
  In site timeoutSites -> (scheduled (onResponse site r) <= 1)%nat.
Proof.
  intros Hs. in_sites Hs; handler_cases r; lia.
Qed.

Lemma interval_handler_schedules_nothing (r : Response) :
  scheduled (onResponse signupStatus r) = 0%nat.
Proof. handler_cases r; reflexivity. Qed.

Lemma cleanup_schedules_nothing (site : Site) :
  In site allSites -> scheduled (cleanup site) = 0%nat.
Proof. intros Hs. in_sites Hs; reflexivity. Qed.

Lemma terminal_schedules_nothing (site : Site) (r : Response) :
  In site allSites -> terminal r = true ->
  scheduled (onResponse site r) = 0%nat.
Proof.
  intros Hs Hr.
  destruct r as [ | ok | ok | ok data ]; try discriminate Hr.
  destruct ok; try discriminate Hr. cbn in Hr.
  in_sites Hs; cbn;
    destruct (statusIs data "completed") eqn:Ec;
    destruct (statusIs data "failed") eqn:Ef;
    try discriminate Hr; cbn;
    repeat match goal with
      | |- context [ statusIs ?d ?s ] => destruct (statusIs d s) eqn:?
      | |- context [ progressDone ?d ] => destruct (progressDone d) eqn:?
      end; try status_clash; reflexivity.
Qed.

Lemma terminal_clears_interval (r : Response) :
  terminal r = true -> clears (onResponse signupStatus r) = true.
Proof.
  intros Hr.
  destruct r as [ | ok | ok | ok data ]; try discriminate Hr.
  destruct ok; try discriminate Hr. cbn in Hr. cbn.
  destruct (statusIs data "completed"); [reflexivity | ].
  destruct (statusIs data "failed"); [reflexivity | discriminate Hr].
Qed.

(** *** Invariants *)

Lemma byInterval_timeoutSites (site : Site) :
  In site timeoutSites -> byInterval site = false /\ cleanup site = [].
Proof. intros Hs. in_sites Hs; split; reflexivity. Qed.

Lemma chain_arm (site : Site) : In site timeoutSites -> Chain (arm site).
Proof. intros Hs. in_sites Hs; split; cbn; auto. Qed.

Lemma chain_step (site : Site) (s s' : Poller) (e : Event) :
  In site timeoutSites -> Chain s -> step site s e = Some s' -> Chain s'.
Proof.
  intros Hs [Hi Hn] Hstep.
  destruct s as [m i t f q p]; cbn in Hi, Hn; subst i.
  destruct e as [ | | r | ]; cbn in Hstep.
  - destruct t as [ | k]; [discriminate | ].
    injection Hstep as <-. split; cbn; [reflexivity | lia].
  - discriminate.
  - destruct f as [ | k]; [discriminate | ].
    injection Hstep as <-.
    pose proof (timeout_handler_schedules_at_most_one site r Hs).
    split; cbn; [reflexivity | lia].
  - destruct m; [ | discriminate].
    injection Hstep as <-.
    destruct (byInterval_timeoutSites site Hs) as [_ ->].
    split; cbn; [reflexivity | lia].
Qed.

Lemma chain_run (site : Site) (events : list Event) :
  In site timeoutSites ->
  forall s s', Chain s -> run site s events = Some s' -> Chain s'.
Proof.
  intros Hs. induction events as [ | e more IH]; intros s s' Hc Hrun.
  - injection Hrun as <-. exact Hc.
  - cbn in Hrun. destruct (step site s e) as [s1 | ] eqn:E; [ | discriminate].
    apply (IH s1 s'); [ | exact Hrun]. exact (chain_step site s s1 e Hs Hc E).
Qed.

Lemma chain_reachable (site : Site) (s : Poller) :
  In site timeoutSites -> Reachable site s -> Chain s.
Proof.
  intros Hs [events Hrun].
  exact (chain_run site events Hs _ _ (chain_arm site Hs) Hrun).
Qed.

Lemma idle_step (site : Site) (s s' : Poller) (e : Event) :
  In site allSites -> Idle site s -> step site s e = Some s' ->
  Idle site s' /\ requests s' = requests s.
Proof.
  intros Hs (Hi & Ht & Hf) Hstep.
  destruct s as [m i t f q p]; cbn in Hi, Ht, Hf; subst i t.
  destruct e as [ | | r | ]; cbn in Hstep; try discriminate.
  - destruct f as [ | k]; [discriminate | ].
    injection Hstep as <-.
    destruct Hf as [Hf | Hf]; [discriminate | ].
    repeat split; cbn; auto.
  - destruct m; [ | discriminate].
    injection Hstep as <-.
    pose proof (cleanup_schedules_nothing site Hs) as Hc.
    repeat split; cbn; auto.
Qed.

Lemma idle_run (site : Site) (events : list Event) :
  In site allSites ->
  forall s s', Idle site s -> run site s events = Some s' ->
               requests s' = requests s.
Proof.
  intros Hs. induction events as [ | e more IH]; intros s s' Hidle Hrun.
  - injection Hrun as <-. reflexivity.
  - cbn in Hrun. destruct (step site s e) as [s1 | ] eqn:E; [ | discriminate].
    destruct (idle_step site s s1 e Hs Hidle E) as [Hidle1 Hreq].
    rewrite <- Hreq. exact (IH s1 s' Hidle1 Hrun).
Qed.

(** The interval poller never has a check timer pending. *)
Lemma interval_no_timers (events : list Event) :
  forall s s', timers s = 0%nat -> run signupStatus s events = Some s' ->
               timers s' = 0%nat.
Proof.
  induction events as [ | e more IH]; intros s s' Ht Hrun.
  - injection Hrun as <-. exact Ht.
  - cbn in Hrun.
    destruct (step signupStatus s e) as [s1 | ] eqn:E; [ | discriminate].
    apply (IH s1 s'); [ | exact Hrun].
    destruct s as [m i t f q p]; cbn in Ht; subst t.
    destruct e as [ | | r | ]; cbn in E; try discriminate.
    + destruct i; [ | discriminate]. injection E as <-. reflexivity.
    + destruct f as [ | k]; [discriminate | ]. injection E as <-.
      cbn. apply (interval_handler_schedules_nothing r).
    + destruct m; [ | discriminate]. injection E as <-. reflexivity.
Qed.

Lemma allSites_cases (site : Site) :
  In site allSites -> In site timeoutSites \/ site = signupStatus.
Proof. intros Hs. in_sites Hs; cbn; auto. Qed.

Lemma timeoutSites_allSites (site : Site) :
  In site timeoutSites -> In site allSites.
Proof. intros Hs. in_sites Hs; cbn; auto. Qed.

(** In a timeout poller, the response to the one request in flight leaves
    the poller idle as soon as its handler schedules no new check. *)
Lemma timeout_settle_idle (site : Site) (s s1 : Poller) (r : Response) :
  In site timeoutSites -> Chain s ->
  scheduled (onResponse site r) = 0%nat ->
  step site s (Settle r) = Some s1 -> Idle site s1.
Proof.
  intros Hs [Hi Hn] Hsched Hstep.
  destruct s as [m i t f q p]; cbn in Hi, Hn; subst i.
  cbn in Hstep. destruct f as [ | k]; [discriminate | ].
  injection Hstep as <-.
  repeat split; cbn; [lia | left; lia].
Qed.

Lemma failed_schedules_nothing (site : Site) (r : Response) :
  In site timeoutSites -> failedCheck r = true ->
  scheduled (onResponse site r) = 0%nat.
Proof.
  intros Hs Hr.
  destruct r as [ | ok | ok | ok data ]; cbn in Hr;
    try (destruct ok; try discriminate Hr);
    in_sites Hs; reflexivity.
Qed.

Lemma interval_reachable_no_timers (s : Poller) :
  Reachable signupStatus s -> timers s = 0%nat.
Proof.
  intros [events Hrun].
  exact (interval_no_timers events (arm signupStatus) s eq_refl Hrun).
Qed.

(** *** Terminal states *)

(** C1.  At every polling call site (the signup data-loading poll, both
    versions of the login-by-email poll, the authenticated signup status
    poll), once a 2xx status response whose state is "completed" or "failed"
    has been handled, no later sequence of events issues another
    status-check request: the terminal states are absorbing. *)
Theorem terminal_absorbing (site : Site) (s : Poller) (r : Response) :
  In site allSites -> Reachable site s -> terminal r = true ->
  StopsAfter site s (Settle r).
Proof.
  intros Hs Hreach Hr s1 events s2 Hstep Hrun.
  apply (idle_run site events Hs s1 s2); [ | exact Hrun].
  destruct (allSites_cases site Hs) as [Ht | ->].
  - apply (timeout_settle_idle site s s1 r Ht).
    + exact (chain_reachable site s Ht Hreach).
    + exact (terminal_schedules_nothing site r Hs Hr).
    + exact Hstep.
  - pose proof (interval_reachable_no_timers s Hreach) as Ht.
    pose proof (terminal_clears_interval r Hr) as Hc.
    change (onResponse signupStatus r) with (statusCheckInterval r) in Hc.
    destruct s as [m i t f q p]; cbn in Ht; subst t.
    cbn in Hstep. destruct f as [ | k]; [discriminate | ].
    injection Hstep as <-.
    split; [ | split]; cbn.
    + rewrite Hc. apply andb_false_r.
    + apply (interval_handler_schedules_nothing r).
    + right. exact interval_handler_schedules_nothing.
Qed.

Lemma terminal_absorbing_witness :
  StopsAfter signupStatus
    {| mounted := true; interval := true; timers := 0; inflight := 1;
       requests := 1; performed := [] |}
    (Settle (Body true completedBody)).
Proof.
  apply terminal_absorbing.
  - cbn. auto.
  - exists [ Tick ]. reflexivity.
  - reflexivity.
Defined.

(** *** Failed status checks *)

(** The authenticated signup status poll answers an HTTP 500 by logging
    it; its interval stays armed and the next tick issues a second
    request. *)
Lemma failed_check_retried_by_interval :
  ~ (forall site, In site allSites -> FailedCheckStops site).
Proof.
  intros H.
  assert (In signupStatus allSites) as Hs by (cbn; auto).
  specialize (H signupStatus Hs
                (issueRequest (arm signupStatus)) (NotJson false)).
  assert (Reachable signupStatus (issueRequest (arm signupStatus))) as Hr
    by (exists [ Tick ]; reflexivity).
  specialize (H Hr eq_refl _ [ Tick ] _ eq_refl eq_refl).
  discriminate H.
Qed.

(** C2, amended.  When a status check fails (no response, or a non-2xx
    response), the signup data-loading poll and both versions of the
    login-by-email poll issue no further status-check request.  The
    authenticated signup status poll only logs the failure: its interval
    stays as it was, so a later tick checks again. *)
Theorem failed_check_stops_timeout_pollers (r : Response) :
  failedCheck r = true ->
  (forall site s, In site timeoutSites -> Reachable site s ->
                  StopsAfter site s (Settle r))
  /\ (forall s s1, step signupStatus s (Settle r) = Some s1 ->
                   interval s1 = interval s
                   /\ performed s1
                      = (performed s
                         ++ effective (mounted s)
                              [ ConsoleError "Error checking status:" ])%list).
Proof.
  intros Hr. split.
  - intros site s Ht Hreach s1 events s2 Hstep Hrun.
    pose proof (timeoutSites_allSites site Ht) as Hs.
    apply (idle_run site events Hs s1 s2); [ | exact Hrun].
    apply (timeout_settle_idle site s s1 r Ht).
    + exact (chain_reachable site s Ht Hreach).
    + exact (failed_schedules_nothing site r Ht Hr).
    + exact Hstep.
  - intros s s1 Hstep.
    destruct s as [m i t f q p]. cbn in Hstep.
    destruct f as [ | k]; [discriminate | ]. injection Hstep as <-.
    destruct r as [ | ok | ok | ok data ]; cbn in Hr;
      try (destruct ok; try discriminate Hr); cbn;
      rewrite andb_true_r; split; reflexivity.
Qed.

Lemma failed_check_stops_timeout_pollers_witness :
  (forall site s, In site timeoutSites -> Reachable site s ->
                  StopsAfter site s (Settle (NotJson false)))
  /\ (forall s s1, step signupStatus s (Settle (NotJson false)) = Some s1 ->
                   interval s1 = interval s
                   /\ performed s1
                      = (performed s
                         ++ effective (mounted s)
                              [ ConsoleError "Error checking status:" ])%list).
Proof.
  apply (failed_check_stops_timeout_pollers (NotJson false)). reflexivity.
Defined.

(** *** Overlapping requests *)

(** Two ticks of the interval before the first response: two requests in
    flight. *)
Lemma interval_requests_overlap :
  ~ (forall site, In site allSites -> OneAtATime site).
Proof.
  intros H.
  assert (In signupStatus allSites) as Hs by (cbn; auto).
  specialize (H signupStatus Hs
                (issueRequest (issueRequest (arm signupStatus)))).
  assert (Reachable signupStatus
            (issueRequest (issueRequest (arm signupStatus)))) as Hr
    by (exists [ Tick; Tick ]; reflexivity).
  specialize (H Hr). cbn in H. lia.
Qed.

(** C3, amended.  In the signup data-loading poll and in both versions of
    the login-by-email poll, at most one status check is in flight, and the
    timer for the next check exists only while none is in flight.  (The
    interval of the authenticated signup status poll ticks whether or not
    the previous response has arrived.) *)
Theorem timeout_pollers_sequential (site : Site) (s : Poller) :
  In site timeoutSites -> Reachable site s ->
  (inflight s <= 1)%nat /\ (timers s + inflight s <= 1)%nat.
Proof.
  intros Ht Hreach.
  destruct (chain_reachable site s Ht Hreach) as [_ Hn].
  split; lia.
Qed.

Lemma timeout_pollers_sequential_witness :
  (inflight waitingLogin <= 1)%nat
  /\ (timers waitingLogin + inflight waitingLogin <= 1)%nat.
Proof.
  apply (timeout_pollers_sequential loginByEmail).
  - cbn. auto.
  - exists [ Settle (Body true pendingBody) ]. reflexivity.
Defined.

(** *** Responses outside the contract *)

(** The signup data-loading poll answers the status "queued" by its
    last branch, the one for a pending job: a timer, then a second
    request. *)
Lemma unknown_status_polled_again :
  ~ (forall site, In site allSites -> UnknownStops site).
Proof.
  intros H.
  assert (In signupDataLoading allSites) as Hs by (cbn; auto).
  specialize (H signupDataLoading Hs
                (arm signupDataLoading) (Body true queuedBody)).
  assert (Reachable signupDataLoading (arm signupDataLoading)) as Hr
    by (exists []; reflexivity).
  specialize (H Hr eq_refl _ [ TimerFires ] _ eq_refl eq_refl).
  discriminate H.
Qed.

Lemma unrecognised_inv (r : Response) :
  unrecognised r = true ->
  exists data, r = Body true data
               /\ statusIs data "pending" = false
               /\ statusIs data "completed" = false
               /\ statusIs data "failed" = false.
Proof.
  intros Hr. destruct r as [ | ok | ok | ok data ]; try discriminate Hr.
  destruct ok; try discriminate Hr. cbn in Hr.
  exists data. split; [reflexivity | ].
  destruct (statusIs data "pending"), (statusIs data "completed"),
    (statusIs data "failed"); try discriminate Hr; auto.
Qed.

(** C7, amended.  Only the login-by-email poll (both versions) stops on a
    2xx response whose status is outside the contract: it runs its last
    branch, which clears the checking flag and the pending e-mail and shows
    no "ready" message, and it issues no further request.  The
    authenticated signup status poll does nothing with such a response and
    keeps ticking; the signup data-loading poll, unless the progress has
    reached 100, schedules the next check as for a pending job. *)
Theorem unknown_status_by_site (r : Response) :
  unrecognised r = true ->
  (forall site s, In site [ loginByEmail_v1; loginByEmail ] ->
                  Reachable site s ->
                  onResponse site r = checkDataFetchStatus_else
                  /\ StopsAfter site s (Settle r))
  /\ onResponse signupStatus r = []
  /\ (forall data, r = Body true data -> progressDone data = false ->
                   scheduled (onResponse signupDataLoading r) = 1%nat).
Proof.
  intros Hr.
  destruct (unrecognised_inv r Hr) as (data & -> & Hp & Hc & Hf).
  split; [ | split].
  - intros site s Hin Hreach.
    assert (onResponse site (Body true data) = checkDataFetchStatus_else)
      as Helse by (in_sites Hin; cbn; rewrite Hc, Hp; reflexivity).
    split; [exact Helse | ].
    assert (In site timeoutSites) as Ht by (in_sites Hin; cbn; auto).
    intros s1 events s2 Hstep Hrun.
    apply (idle_run site events (timeoutSites_allSites site Ht) s1 s2);
      [ | exact Hrun].
    apply (timeout_settle_idle site s s1 (Body true data) Ht).
    + exact (chain_reachable site s Ht Hreach).
    + rewrite Helse. reflexivity.
    + exact Hstep.
  - cbn. rewrite Hc, Hf. reflexivity.
  - intros data' E Hprog. injection E as <-.
    cbn. rewrite Hc, Hf, Hprog. reflexivity.
Qed.

Lemma unknown_status_by_site_witness :
  (forall site s, In site [ loginByEmail_v1; loginByEmail ] ->
                  Reachable site s ->
                  onResponse site (Body true queuedBody)
                  = checkDataFetchStatus_else
                  /\ StopsAfter site s (Settle (Body true queuedBody)))
  /\ onResponse signupStatus (Body true queuedBody) = []
  /\ (forall data, Body true queuedBody = Body true data ->
                   progressDone data = false ->
                   scheduled (onResponse signupDataLoading
                                (Body true queuedBody)) = 1%nat).
Proof.
  apply (unknown_status_by_site (Body true queuedBody)). reflexivity.
Defined.

(** *** Unmounting *)

(** The login page unmounts while its first check is in flight; the
    response says "pending", the handler sets its timer, the timer fires
    and a second request leaves. *)
Lemma unmounted_login_poll_goes_on :
  ~ (forall site, In site allSites -> CancelSilences site).
Proof.
  intros H.
  assert (In loginByEmail allSites) as Hs by (cbn; auto).
  assert (Reachable loginByEmail (arm loginByEmail)) as Hr
    by (exists []; reflexivity).
  destruct (H loginByEmail Hs (arm loginByEmail) _
              [ Settle (Body true pendingBody); TimerFires ] _
              Hr eq_refl eq_refl) as [Hreq _].
  discriminate Hreq.
Qed.

(** On the signup page the interval is cleared, but a response that was
    in flight is still handled: the navigation to the login page happens
    after the unmount. *)
Example unmounted_signup_late_response :
  option_map performed
    (run signupStatus (arm signupStatus)
       [ Tick; Unmount; Settle (Body true completedBody) ])
  = Some
      [ ClearInterval;
        RouterPush
          "/login?message=Registration%20complete!%20You%20can%20now%20sign%20in.";
        ClearInterval ].
Proof. reflexivity. Qed.

(** C8, amended.  Only the authenticated signup status poll is cancelled
    by unmounting: its cleanup clears the interval, and from then on no
    status-check request is issued.  The signup data-loading poll and the
    login-by-email poll have no cancellation: unmounting leaves their
    pending timer and their request in flight as they were. *)
Theorem unmount_cancels_interval_only :
  (forall s, Reachable signupStatus s -> StopsAfter signupStatus s Unmount)
  /\ (forall site s s1, In site timeoutSites ->
                        step site s Unmount = Some s1 ->
                        timers s1 = timers s /\ inflight s1 = inflight s
                        /\ performed s1 = performed s).
Proof.
  split.
  - intros s Hreach s1 events s2 Hstep Hrun.
    assert (In signupStatus allSites) as Hs by (cbn; auto).
    apply (idle_run signupStatus events Hs s1 s2); [ | exact Hrun].
    pose proof (interval_reachable_no_timers s Hreach) as Ht.
    destruct s as [m i t f q p]; cbn in Ht; subst t.
    cbn in Hstep. destruct m; [ | discriminate]. injection Hstep as <-.
    split; [ | split]; cbn.
    + apply andb_false_r.
    + reflexivity.
    + right. exact interval_handler_schedules_nothing.
  - intros site s s1 Ht Hstep.
    destruct (byInterval_timeoutSites site Ht) as [_ Hc].
    destruct s as [m i t f q p]. cbn in Hstep.
    destruct m; [ | discriminate]. injection Hstep as <-.
    rewrite Hc. cbn. repeat split; [lia | apply app_nil_r].
Qed.

Lemma unmount_cancels_interval_only_witness :
  StopsAfter signupStatus (issueRequest (arm signupStatus)) Unmount
  /\ (forall s1, step loginByEmail (arm loginByEmail) Unmount = Some s1 ->
                 timers s1 = timers (arm loginByEmail)
                 /\ inflight s1 = inflight (arm loginByEmail)
                 /\ performed s1 = performed (arm loginByEmail)).
Proof.
  destruct unmount_cancels_interval_only as [Hinterval Htimeout]. split.
  - apply Hinterval. exists [ Tick ]. reflexivity.
  - intros s1. apply (Htimeout loginByEmail). cbn. auto.
Defined.

(** *** Progress as a completion signal *)

(** C9.  The signup data-loading poll treats a 2xx status response whose
    progress is at least 100 as a success whatever its status says.  For
    a body whose status is "completed", whatever its progress, the
    handler shows progress and message, clears the loading flag,
    announces that the account is ready and goes to the login page, and
    no further status check is issued; for a body whose progress is at
    least 100, whatever its status (also "pending" or "failed"), it does
    exactly the same. *)
Theorem progress_100_is_success (data completed : StatusBody)
    (s : Poller) :
  progressDone data = true ->
  status completed = Some "completed" ->
  Reachable signupDataLoading s ->
  checkDataLoadingStatus (Body true completed)
  = (PollNotions.announces completed ++ PollNotions.accountReady)%list
  /\ checkDataLoadingStatus (Body true data)
     = (PollNotions.announces data ++ PollNotions.accountReady)%list
  /\ StopsAfter signupDataLoading s (Settle (Body true completed))
  /\ StopsAfter signupDataLoading s (Settle (Body true data)).
Proof.
  intros Hp Hc Hreach.
  assert (checkDataLoadingStatus (Body true completed)
          = (PollNotions.announces completed ++ PollNotions.accountReady)%list)
    as Hcompleted.
  { cbn. unfold statusIs at 1.
    rewrite bool_decide_eq_true_2 by exact Hc. reflexivity. }
  assert (checkDataLoadingStatus (Body true data)
          = (PollNotions.announces data ++ PollNotions.accountReady)%list)
    as Hdone.
  { cbn. rewrite Hp, orb_true_r. reflexivity. }
  assert (forall body,
             checkDataLoadingStatus (Body true body)
             = (PollNotions.announces body ++ PollNotions.accountReady)%list ->
             StopsAfter signupDataLoading s (Settle (Body true body)))
    as Hstops.
  { intros body Heff.
    assert (In signupDataLoading timeoutSites) as Ht by (cbn; auto).
    intros s1 events s2 Hstep Hrun.
    apply (idle_run signupDataLoading events
             (timeoutSites_allSites _ Ht) s1 s2); [ | exact Hrun].
    apply (timeout_settle_idle signupDataLoading s s1 (Body true body) Ht).
    - exact (chain_reachable _ s Ht Hreach).
    - change (onResponse signupDataLoading (Body true body))
        with (checkDataLoadingStatus (Body true body)).
      rewrite Heff. reflexivity.
    - exact Hstep. }
  split; [exact Hcompleted | ].
  split; [exact Hdone | ].
  split; [exact (Hstops completed Hcompleted) | exact (Hstops data Hdone)].
Qed.

(** "pending" at 100% against "completed" at 40%. *)
Lemma progress_100_is_success_witness :
  checkDataLoadingStatus (Body true PollNotions.completedEarlyBody)
  = (PollNotions.announces PollNotions.completedEarlyBody
     ++ PollNotions.accountReady)%list
  /\ checkDataLoadingStatus (Body true almostDoneBody)
     = (PollNotions.announces almostDoneBody ++ PollNotions.accountReady)%list
  /\ StopsAfter signupDataLoading (arm signupDataLoading)
       (Settle (Body true PollNotions.completedEarlyBody))
  /\ StopsAfter signupDataLoading (arm signupDataLoading)
       (Settle (Body true almostDoneBody)).
Proof.
  apply (progress_100_is_success almostDoneBody
           PollNotions.completedEarlyBody (arm signupDataLoading)).
  - reflexivity.
  - reflexivity.
  - exists []. reflexivity.
Defined.

End PollFacts.

(* ===================================================================== *)
(** ** The dashboard cache                                                *)
(* ===================================================================== *)

Module DashboardFacts.

Import Prices Dashboard.

(** *** The freshness test *)

Lemma freshWithin_toString (window fetchedAt currentTime : Z) :
  freshWithin window (Some (Js.toString fetchedAt)) currentTime
  = isFresh fetchedAt currentTime window.
Proof.
  unfold freshWithin. rewrite JsFacts.truthy_toString. cbn.
  rewrite JsFacts.parseInt_toString. reflexivity.
Qed.

Lemma isFresh_spec (fetchedAt currentTime window : Z) :
  isFresh fetchedAt currentTime window = true
  <-> currentTime - fetchedAt < window.
Proof. unfold isFresh. apply Z.ltb_lt. Qed.

Lemma isCacheValid_toString (fetchedAt currentTime : Z) :
  isCacheValid (Some (Js.toString fetchedAt)) currentTime = true
  <-> currentTime - fetchedAt < 3600000.
Proof.
  unfold isCacheValid. rewrite freshWithin_toString. apply isFresh_spec.
Qed.

(** Without a stored timestamp nothing is fresh. *)
Lemma freshWithin_None (window currentTime : Z) :
  freshWithin window None currentTime = false.
Proof. reflexivity. Qed.

(** The boundary: an entry that is exactly one hour old is stale. *)
Example one_hour_old_is_stale :
  isCacheValid (Some "1000000") (1000000 + 3600000) = false
  /\ isCacheValid (Some "1000000") (1000000 + 3599999) = true.
Proof. split; reflexivity. Qed.

(** *** Loading the dashboard *)

Lemma load_fresh (json : Json) (rng : nat -> Q)
    (storage : gmap string string) (token : string)
    (parsedData : DashboardDataType) (fetchedAt currentTime : Z)
    (page : Page) (n : nat) :
  Session json storage token parsedData fetchedAt ->
  dataLoaded page = false ->
  currentTime - fetchedAt < 3600000 ->
  existsb isGetDashboard
    (loadCommands json rng storage currentTime page n) = false
  /\ dashboardData (loadedPage json rng storage currentTime page n)
     = Some (fromCache rng parsedData n)
  /\ dataLoading (loadedPage json rng storage currentTime page n) = false.
Proof.
  unfold loadCommands, loadedPage.
  intros [Htok Htt (userData & parsedUser & Hu & Hut & Hpu)
            (raw & Hraw & Hrt & Hpd) Htime] Hloaded Hage.
  assert (isCacheValid (Some (Js.toString fetchedAt)) currentTime = true)
    as Hvalid by (apply isCacheValid_toString; exact Hage).
  unfold loadEffect.
  rewrite Htok, Hu, Htt, Hut, Hraw, Hrt, Htime, Hvalid, Hloaded.
  cbn [negb orb andb mbind option_bind]. rewrite Hpu, Hpd.
  unfold fromCache. cbn [bind].
  destruct (validated rng parsedData n) as [[[pantry produce] alerts] n1].
  cbn [ret fst snd].
  repeat case_match; cbn [bind ret];
    repeat match goal with
      | |- context [ ensureValidPriceData ?r ?l ?st ?k ] =>
          destruct (ensureValidPriceData r l st k)
      end; cbn; auto.
Qed.


Lemma load_stale (json : Json) (rng : nat -> Q)
    (storage : gmap string string) (token : string)
    (parsedData : DashboardDataType) (fetchedAt currentTime : Z)
    (page : Page) (n : nat) :
  Session json storage token parsedData fetchedAt ->
  dataLoaded page = false ->
  3600000 <= currentTime - fetchedAt ->
  In (GetDashboard token) (loadCommands json rng storage currentTime page n)
  /\ dashboardData (loadedPage json rng storage currentTime page n)
     = dashboardData page
  /\ dataLoading (loadedPage json rng storage currentTime page n) = true.
Proof.
  unfold loadCommands, loadedPage.
  intros [Htok Htt (userData & parsedUser & Hu & Hut & Hpu)
            (raw & Hraw & Hrt & Hpd) Htime] Hloaded Hage.
  assert (isCacheValid (Some (Js.toString fetchedAt)) currentTime = false)
    as Hvalid.
  { apply not_true_is_false. rewrite isCacheValid_toString. lia. }
  unfold loadEffect.
  rewrite Htok, Hu, Htt, Hut, Hraw, Hrt, Htime, Hvalid, Hloaded.
  cbn [negb orb andb mbind option_bind]. rewrite Hpu.
  rewrite andb_false_r. cbn.
  repeat case_match; cbn [bind ret];
    repeat match goal with
      | |- context [ ensureValidPriceData ?r ?l ?st ?k ] =>
          destruct (ensureValidPriceData r l st k)
      end; cbn; auto.
Qed.

Lemma cachedStorage_session :
  Session demoJson cachedStorage "t0k3n" emptyDashboard 1000000.
Proof.
  split.
  - reflexivity.
  - reflexivity.
  - exists "{}", someUser. repeat split; reflexivity.
  - exists "{}". repeat split; reflexivity.
  - reflexivity.
Defined.

(** *** Writing the cache *)

Lemma fetchDashboardData_ok (json : Json) (rng : nat -> Q)
    (data : DashboardDataType) (currentTime : Z) (page : Page)
    (storage : gmap string string) (n : nat) :
  fst (fetchDashboardData_settled json rng (DOk data) currentTime
         page storage n)
  = (setDataLoading false
       (setDataLoaded true (setDashboardData (formatted rng data n) page)),
     <["lastFetchTime" := Js.toString currentTime]>
       (<["dashboardData" := stringifyDashboard json (formatted rng data n)]>
          storage)).
Proof.
  unfold fetchDashboardData_settled, formatted. cbn [bind].
  destruct (validated rng data n) as [[[pantry produce] alerts] n1].
  reflexivity.
Qed.

(** A first visit: the list arrives before the dashboard.  The list is
    stored, no timestamp is. *)
Lemma my_list_written_without_timestamp : ~ MyListWriteIsFresh.
Proof.
  intros H.
  specialize (H demoJson lowDraws (Some []) [] initialPage
                (<["token" := "t0k3n"]> ∅) 0%nat 1000000 3600000 eq_refl).
  discriminate H.
Qed.

(** C5, amended.  A write of the dashboard data stores, together with the
    value, [lastFetchTime = now]; from that moment and for as long as less
    than [window] has passed, the entry is fresh, for every [window > 0].
    A write of the shopping list ([fetchMyList], [removeFromList]) stores
    the list only and leaves [lastFetchTime] as it was. *)
Theorem dashboard_write_is_fresh (json : Json) (rng : nat -> Q)
    (data : DashboardDataType) (now : Z) (page : Page)
    (storage : gmap string string) (n : nat) (window later : Z) :
  0 < window ->
  later - now < window ->
  settledStorage json rng (DOk data) now page storage n !! "dashboardData"
  = Some (stringifyDashboard json (formatted rng data n))
  /\ settledStorage json rng (DOk data) now page storage n
       !! "lastFetchTime"
     = Some (Js.toString now)
  /\ freshWithin window
       (settledStorage json rng (DOk data) now page storage n
          !! "lastFetchTime") now = true
  /\ freshWithin window
       (settledStorage json rng (DOk data) now page storage n
          !! "lastFetchTime") later = true
  /\ (forall r closureStores k,
        snd (fst (fetchMyList_settled json rng r closureStores
                    page storage k)) !! "lastFetchTime"
        = storage !! "lastFetchTime")
  /\ (forall productId closureList,
        snd (removeFromList_settled json productId closureList page storage)
          !! "lastFetchTime"
        = storage !! "lastFetchTime").
Proof.
  intros Hwindow Hlater. unfold settledStorage.
  rewrite fetchDashboardData_ok. cbn [snd].
  assert (("lastFetchTime" : string) <> "dashboardData") as Hne1
    by discriminate.
  assert (("myList" : string) <> "lastFetchTime") as Hne2 by discriminate.
  rewrite lookup_insert_ne by exact Hne1.
  rewrite !lookup_insert_eq.
  rewrite !freshWithin_toString.
  repeat split.
  - apply isFresh_spec. lia.
  - apply isFresh_spec. exact Hlater.
  - intros r closureStores k. unfold fetchMyList_settled.
    destruct r as [ | items]; cbn [bind ret fst snd]; [reflexivity | ].
    destruct (ensureValidPriceData rng (default [] items) closureStores k).
    cbn [fst snd]. apply lookup_insert_ne. exact Hne2.
  - intros productId closureList. unfold removeFromList_settled. cbn [snd].
    apply lookup_insert_ne. exact Hne2.
Qed.

Lemma dashboard_write_is_fresh_witness :
  settledStorage demoJson lowDraws (DOk emptyDashboard) 1000000
    initialPage ∅ 0%nat !! "dashboardData"
  = Some (stringifyDashboard demoJson
            (formatted lowDraws emptyDashboard 0%nat))
  /\ settledStorage demoJson lowDraws (DOk emptyDashboard) 1000000
       initialPage ∅ 0%nat !! "lastFetchTime"
     = Some (Js.toString 1000000)
  /\ freshWithin 1
       (settledStorage demoJson lowDraws (DOk emptyDashboard) 1000000
          initialPage ∅ 0%nat !! "lastFetchTime") 1000000 = true
  /\ freshWithin 1
       (settledStorage demoJson lowDraws (DOk emptyDashboard) 1000000
          initialPage ∅ 0%nat !! "lastFetchTime") 1000000 = true
  /\ (forall r closureStores k,
        snd (fst (fetchMyList_settled demoJson lowDraws r closureStores
                    initialPage ∅ k)) !! "lastFetchTime"
        = (∅ : gmap string string) !! "lastFetchTime")
  /\ (forall productId closureList,
        snd (removeFromList_settled demoJson productId closureList
               initialPage ∅)
          !! "lastFetchTime"
        = (∅ : gmap string string) !! "lastFetchTime").
Proof.
  apply (dashboard_write_is_fresh demoJson lowDraws emptyDashboard 1000000
           initialPage ∅ 0%nat 1 1000000); lia.
Defined.

(** *** A failed dashboard request *)

(** The dashboard was cached ninety minutes ago and the request answers
    with HTTP 500: the page shows the error box, and no dashboard data. *)
Lemma stale_cache_not_served_on_failure : ~ StaleServedOnFailure.
Proof.
  intros H.
  apply (H demoJson lowDraws cachedStorage "t0k3n" emptyDashboard 1000000
           (1000000 + 5400000) (DHttpError None)
           "Failed to fetch dashboard data").
  - exact cachedStorage_session.
  - cbn. lia.
  - reflexivity.
  - reflexivity.
Qed.

Example failed_refresh_shows_no_data :
  dashboardData
    (afterFailedRefresh demoJson lowDraws cachedStorage
       (1000000 + 5400000) (DHttpError None)) = None.
Proof. reflexivity. Qed.

Lemma render_after_failure (page : Page) (msg : string) :
  loading page = false -> is_Some (user page) ->
  render (setDataLoading false (setError (Some msg) page))
  = if Js.truthy (Some msg) then ErrorBox msg
    else Content (dashboardData page).
Proof.
  intros Hl [u Hu]. unfold render. cbn.
  rewrite Hl, Hu. destruct msg; reflexivity.
Qed.

Lemma load_stale_page (json : Json) (rng : nat -> Q)
    (storage : gmap string string) (token : string)
    (parsedData : DashboardDataType) (fetchedAt currentTime : Z)
    (page : Page) (n : nat) :
  Session json storage token parsedData fetchedAt ->
  dataLoaded page = false ->
  3600000 <= currentTime - fetchedAt ->
  loading (loadedPage json rng storage currentTime page n) = false
  /\ is_Some (user (loadedPage json rng storage currentTime page n))
  /\ error (loadedPage json rng storage currentTime page n) = None.
Proof.
  unfold loadedPage.
  intros [Htok Htt (userData & parsedUser & Hu & Hut & Hpu)
            (raw & Hraw & Hrt & Hpd) Htime] Hloaded Hage.
  assert (isCacheValid (Some (Js.toString fetchedAt)) currentTime = false)
    as Hvalid.
  { apply not_true_is_false. rewrite isCacheValid_toString. lia. }
  unfold loadEffect.
  rewrite Htok, Hu, Htt, Hut, Hraw, Hrt, Htime, Hvalid, Hloaded.
  cbn [negb orb andb mbind option_bind]. rewrite Hpu.
  rewrite andb_false_r. cbn.
  repeat case_match; cbn [bind ret];
    repeat match goal with
      | |- context [ ensureValidPriceData ?r ?l ?st ?k ] =>
          destruct (ensureValidPriceData r l st k)
      end; cbn; eauto.
Qed.

(** C6, amended.  When the dashboard request fails, the page keeps the
    error message, leaves its dashboard data and the storage as they were,
    and ends the loading state, whether or not a cache entry exists.  The
    dashboard tab then shows the error box with that message when the
    message is not empty, which is always so for a non-2xx response; when
    the error that was thrown has an empty message, the tab shows the
    content area with the data that the page already had.  After a load
    from a stale cache that is no data at all: the cached data is not read
    on this path. *)
Theorem failed_fetch_shows_error (json : Json) (rng : nat -> Q)
    (r : DashboardResponse) (msg : string) (currentTime : Z) (page : Page)
    (storage : gmap string string) (n : nat) :
  failureMessage r = Some msg ->
  settledStorage json rng r currentTime page storage n = storage
  /\ dashboardData (settledPage json rng r currentTime page storage n)
     = dashboardData page
  /\ dataLoaded (settledPage json rng r currentTime page storage n)
     = dataLoaded page
  /\ dataLoading (settledPage json rng r currentTime page storage n) = false
  /\ error (settledPage json rng r currentTime page storage n) = Some msg
  /\ (loading page = false -> is_Some (user page) ->
      render (settledPage json rng r currentTime page storage n)
      = if Js.truthy (Some msg) then ErrorBox msg
        else Content (dashboardData page))
  /\ (forall m, r = DHttpError m -> Js.truthy (Some msg) = true)
  /\ (forall token parsedData fetchedAt,
        Session json storage token parsedData fetchedAt ->
        3600000 <= currentTime - fetchedAt ->
        dashboardData (afterFailedRefresh json rng storage currentTime r)
        = None
        /\ render (afterFailedRefresh json rng storage currentTime r)
           = if Js.truthy (Some msg) then ErrorBox msg else Content None).
Proof.
  intros Hmsg.
  assert (forall p k,
             fst (fst (fetchDashboardData_settled json rng r currentTime
                         p storage k))
             = setDataLoading false (setError (Some msg) p)
             /\ snd (fst (fetchDashboardData_settled json rng r currentTime
                            p storage k)) = storage) as Hsettled.
  { intros p k.
    destruct r as [m | m | m | data]; cbn in Hmsg; try discriminate Hmsg;
      injection Hmsg as <-; split; reflexivity. }
  unfold settledStorage, settledPage.
  destruct (Hsettled page n) as [-> ->].
  split; [reflexivity | ].
  split; [reflexivity | ].
  split; [reflexivity | ].
  split; [reflexivity | ].
  split; [reflexivity | ].
  split; [apply render_after_failure | ].
  split.
  - intros m ->. cbn in Hmsg. injection Hmsg as <-.
    destruct m as [[ | c m] | ]; reflexivity.
  - intros token parsedData fetchedAt Hsession Hage.
    unfold afterFailedRefresh, settledPage.
    destruct (Hsettled (loadedPage json rng storage currentTime
                          initialPage 0%nat) 0%nat) as [-> _].
    destruct (load_stale json rng storage token parsedData fetchedAt
                currentTime initialPage 0%nat Hsession eq_refl Hage)
      as (_ & Hdata & _).
    destruct (load_stale_page json rng storage token parsedData fetchedAt
                currentTime initialPage 0%nat Hsession eq_refl Hage)
      as (Hl & Hu & _).
    split.
    + cbn. exact Hdata.
    + rewrite (render_after_failure _ msg Hl Hu), Hdata. reflexivity.
Qed.

(** A non-2xx response after a load from a stale cache: the error box. *)
Lemma failed_fetch_shows_error_witness :
  error
    (settledPage demoJson lowDraws (DHttpError None) (1000000 + 5400000)
       refreshing cachedStorage 0%nat)
  = Some "Failed to fetch dashboard data"
  /\ render
       (settledPage demoJson lowDraws (DHttpError None) (1000000 + 5400000)
          refreshing cachedStorage 0%nat)
     = ErrorBox "Failed to fetch dashboard data"
  /\ dashboardData
       (afterFailedRefresh demoJson lowDraws cachedStorage
          (1000000 + 5400000) (DHttpError None)) = None
  /\ render
       (afterFailedRefresh demoJson lowDraws cachedStorage
          (1000000 + 5400000) (DHttpError None))
     = ErrorBox "Failed to fetch dashboard data".
Proof.
  destruct (failed_fetch_shows_error demoJson lowDraws (DHttpError None)
              "Failed to fetch dashboard data" (1000000 + 5400000)
              refreshing cachedStorage 0%nat eq_refl)
    as (_ & _ & _ & _ & Herror & Hrender & _ & Hstale).
  destruct (Hstale "t0k3n" emptyDashboard 1000000 cachedStorage_session
              ltac:(cbn; lia)) as [Hdata Hbox].
  split; [exact Herror | ].
  split; [exact (Hrender eq_refl (mk_is_Some _ _ eq_refl)) | ].
  split; [exact Hdata | exact Hbox].
Defined.

(** A rejection whose error has an empty message: no box, and no data. *)
Example empty_message_shows_no_box :
  render
    (afterFailedRefresh demoJson lowDraws cachedStorage
       (1000000 + 5400000) (DNetworkError EmptyString))
  = Content None.
Proof. reflexivity. Qed.

End DashboardFacts.

(* ===================================================================== *)
(** ** [ensureValidPriceData] and [Math.random]                           *)
(* ===================================================================== *)

Module PricesFacts.

Import Prices Dashboard.

Lemma lowDraws_valid : validDraws lowDraws.
Proof. intros n. split; [apply Qle_refl | reflexivity]. Qed.

Lemma midDraws_valid : validDraws midDraws.
Proof. intros n. split; [discriminate | reflexivity]. Qed.

(** A draw in [0, 1) picks an index inside the array. *)
Lemma randomIndex_in_range (r : Q) (len : nat) :
  (0 <= r)%Q -> (r < 1)%Q -> (0 < len)%nat ->
  (randomIndex r len < len)%nat.
Proof.
  intros H0 H1 Hlen. unfold randomIndex.
  set (l := inject_Z (Z.of_nat len)).
  assert (0 < l)%Q as Hl.
  { unfold l. change 0%Q with (inject_Z 0). rewrite <- Zlt_Qlt. lia. }
  assert (r * l < l)%Q as Hlt.
  { apply Qlt_le_trans with (1 * l)%Q.
    - apply Qmult_lt_compat_r; assumption.
    - rewrite Qmult_1_l. apply Qle_refl. }
  assert (0 <= r * l)%Q as Hge.
  { apply Qmult_le_0_compat; [assumption | apply Qlt_le_weak; assumption]. }
  assert (0 <= Qfloor (r * l)) as Hfloor0.
  { change 0 with (Qfloor 0). apply Qfloor_resp_le. exact Hge. }
  assert (Qfloor (r * l) < Z.of_nat len) as Hfloor1.
  { rewrite Zlt_Qlt. apply Qle_lt_trans with (r * l)%Q;
      [apply Qfloor_le | exact Hlt]. }
  lia.
Qed.

(** With every draw 0: price 1.00, range 1.00 to 1.00, first store. *)
Example unpriced_low :
  fst (ensureValidPriceData lowDraws [ unpriced ] twoStores 0%nat)
  = [ {| id := "p1"; rest := [ ("name", "Rice") ];
         lowestPrice :=
           Some {| price := Some (100 # 100)%Q;
                   store := Some "Corner Shop" |};
         priceRange :=
           Some {| min := Some (100 # 100)%Q; max := Some (100 # 100)%Q;
                   period := Some "6 weeks" |} |} ].
Proof. reflexivity. Qed.

(** With every draw one half: price 6.00, range 3.50 to 6.00, second
    store. *)
Example unpriced_mid :
  fst (ensureValidPriceData midDraws [ unpriced ] twoStores 0%nat)
  = [ {| id := "p1"; rest := [ ("name", "Rice") ];
         lowestPrice :=
           Some {| price := Some (600 # 100)%Q; store := Some "MegaMart" |};
         priceRange :=
           Some {| min := Some (350 # 100)%Q; max := Some (600 # 100)%Q;
                   period := Some "6 weeks" |} |} ].
Proof. reflexivity. Qed.

(** A complete record is copied and no draw is made. *)
Example complete_unchanged :
  ensureValidPriceData midDraws [ complete ] twoStores 0%nat
  = ([ complete ], 0%nat).
Proof. reflexivity. Qed.

(** When every draw is [c], a product without a positive price gets the
    price [toFixed2 (c * 10 + 1)], wherever it stands in the sequence of
    draws. *)
Lemma ensureOne_constant_price (c : Q) (stores : list StoreType)
    (index : nat) (product : ProductType) (n : nat) :
  Qgtb (readPrice product) 0 = false ->
  lowestPrice (fst (ensureOne (constant c) stores index product n)) ≫= price
  = Some (toFixed2 (c * 10 + 1)).
Proof.
  intros Hprice.
  unfold ensureOne, pickStore, random, constant, bind, ret.
  rewrite Hprice.
  repeat case_match; simplify_eq; reflexivity.
Qed.

(** A product with a usable store name, a positive price and a price
    range that is not 0 to 0 is handled without any draw: its image does
    not depend on [Math.random]. *)
Lemma ensureOne_no_draw (rng1 rng2 : nat -> Q) (stores : list StoreType)
    (index : nat) (product : ProductType) (n : nat) :
  needsStore (lowestPrice product ≫= store) = false ->
  Qgtb (readPrice product) 0 = true ->
  Qeq_bool (numOr0 (priceRange product ≫= min)) 0
  && Qeq_bool (numOr0 (priceRange product ≫= max)) 0 = false ->
  ensureOne rng1 stores index product n
  = ensureOne rng2 stores index product n
  /\ snd (ensureOne rng1 stores index product n) = n.
Proof.
  intros Hstore Hprice Hrange.
  unfold ensureOne, bind, ret.
  rewrite Hstore, Hprice, Hrange.
  repeat case_match; simplify_eq; split; reflexivity.
Qed.

(** The element at position [i] of the result is the image of the
    product at position [i], computed at some point of the sequence of
    draws. *)
Lemma mapFrom_nth (rng : nat -> Q) (stores : list StoreType)
    (products : list ProductType) :
  forall index n i product,
    nth_error products i = Some product ->
    exists m,
      nth_error (fst (mapFrom rng stores index products n)) i
      = Some (fst (ensureOne rng stores (index + i) product m)).
Proof.
  induction products as [ | first more IH]; intros index n i product Hnth.
  - destruct i; discriminate Hnth.
  - cbn [mapFrom bind ret].
    destruct (ensureOne rng stores index first n) as [p n1] eqn:E1.
    destruct (mapFrom rng stores (S index) more n1) as [ps n2] eqn:E2.
    destruct i as [ | j]; cbn in Hnth |- *.
    + injection Hnth as <-. exists n.
      rewrite Nat.add_0_r, E1. reflexivity.
    + destruct (IH (S index) n1 j product Hnth) as [m Hm].
      exists m. rewrite E2 in Hm. cbn in Hm.
      rewrite Hm. repeat f_equal. lia.
Qed.

Lemma constant_outputs_differ (products : list ProductType)
    (stores : list StoreType) (i : nat) (product : ProductType)
    (n1 n2 : nat) :
  nth_error products i = Some product ->
  Qgtb (readPrice product) 0 = false ->
  fst (mapFrom lowDraws stores 0%nat products n1)
  <> fst (mapFrom midDraws stores 0%nat products n2).
Proof.
  intros Hnth Hprice Heq.
  destruct (mapFrom_nth lowDraws stores products 0%nat n1 i product Hnth)
    as [m1 H1].
  destruct (mapFrom_nth midDraws stores products 0%nat n2 i product Hnth)
    as [m2 H2].
  cbn [Nat.add] in H1, H2.
  rewrite Heq, H2 in H1. injection H1 as H1.
  pose proof (ensureOne_constant_price 0 stores i product m1 Hprice) as P1.
  pose proof (ensureOne_constant_price (1 # 2) stores i product m2 Hprice)
    as P2.
  fold lowDraws in P1. fold midDraws in P2.
  rewrite H1, P1 in P2. discriminate P2.
Qed.

Lemma formatted_pantry (rng : nat -> Q) (data : DashboardDataType)
    (n : nat) :
  pantryItems (formatted rng data n)
  = Some (fst (ensureValidPriceData rng (default [] (pantryItems data))
                 (default [] (Dashboard.stores data)) n)).
Proof.
  unfold formatted, validated. cbn [bind ret].
  repeat match goal with
    | |- context [ ensureValidPriceData ?r ?l ?st ?k ] =>
        destruct (ensureValidPriceData r l st k)
    end.
  reflexivity.
Qed.

(** *** What constant draws give *)

Lemma ensureOne_constant_store (c : Q) (stores : list StoreType)
    (index : nat) (product : ProductType) (n : nat) :
  needsStore (PriceNotions.readStore product) = true ->
  PriceNotions.readStore (fst (ensureOne (constant c) stores index product n))
  = Some (PriceNotions.pickedStore c stores index).
Proof.
  unfold PriceNotions.readStore at 1. intros Hstore.
  unfold ensureOne, pickStore, random, constant, bind, ret.
  rewrite Hstore.
  unfold PriceNotions.pickedStore, PriceNotions.storeLabel.
  destruct stores as [ | st more];
    repeat case_match; simplify_eq; reflexivity.
Qed.

Lemma ensureOne_constant_range (c : Q) (stores : list StoreType)
    (index : nat) (product : ProductType) (n : nat) :
  PriceNotions.rangeIsBlank product = true ->
  PriceNotions.rangeOf (fst (ensureOne (constant c) stores index product n))
  = Some (PriceNotions.inventedRange c).
Proof.
  unfold PriceNotions.rangeIsBlank. intros Hrange.
  unfold ensureOne, pickStore, random, constant, bind, ret.
  rewrite Hrange.
  repeat case_match; simplify_eq; reflexivity.
Qed.

(** Two runs with constant draws whose images of one product differ in
    some respect [view] return different lists. *)
Lemma outputs_differ_at {A} (view : ProductType -> A) (c1 c2 : Q)
    (products : list ProductType) (stores : list StoreType) (i : nat)
    (product : ProductType) :
  nth_error products i = Some product ->
  (forall m1 m2,
      view (fst (ensureOne (constant c1) stores i product m1))
      <> view (fst (ensureOne (constant c2) stores i product m2))) ->
  fst (ensureValidPriceData (constant c1) products stores 0%nat)
  <> fst (ensureValidPriceData (constant c2) products stores 0%nat).
Proof.
  intros Hnth Hview Heq. unfold ensureValidPriceData in Heq.
  destruct (mapFrom_nth (constant c1) stores products 0%nat 0%nat i product
              Hnth) as [m1 H1].
  destruct (mapFrom_nth (constant c2) stores products 0%nat 0%nat i product
              Hnth) as [m2 H2].
  cbn [Nat.add] in H1, H2.
  rewrite Heq, H2 in H1. injection H1 as H1.
  apply (Hview m1 m2). rewrite H1. reflexivity.
Qed.

Lemma constant_valid (c : Q) :
  (0 <= c)%Q -> (c < 1)%Q -> validDraws (constant c).
Proof. intros H0 H1 n. split; assumption. Qed.

Lemma Zpos_of_nat (len : nat) :
  (0 < len)%nat -> Z.pos (Pos.of_nat len) = Z.of_nat len.
Proof.
  intros Hlen. rewrite <- positive_nat_Z, Nat2Pos.id by lia. reflexivity.
Qed.

Lemma drawFor_valid (j len : nat) :
  (j < len)%nat -> validDraws (constant (PriceNotions.drawFor j len)).
Proof.
  intros Hj. apply constant_valid; unfold PriceNotions.drawFor.
  - unfold Qle. cbn. lia.
  - unfold Qlt. cbn [Qnum Qden]. rewrite Z.mul_1_r, Z.mul_1_l.
    rewrite Zpos_of_nat by lia. lia.
Qed.

Lemma randomIndex_drawFor (j len : nat) :
  (j < len)%nat -> randomIndex (PriceNotions.drawFor j len) len = j.
Proof.
  intros Hj. unfold randomIndex, PriceNotions.drawFor.
  assert ((Z.of_nat j # Pos.of_nat len) * inject_Z (Z.of_nat len)
          == inject_Z (Z.of_nat j))%Q as E.
  { unfold Qeq, Qmult, inject_Z. cbn [Qnum Qden].
    rewrite Pos.mul_1_r, Z.mul_1_r, Zpos_of_nat by lia. reflexivity. }
  rewrite (Qfloor_comp _ _ E), Qfloor_Z. apply Nat2Z.id.
Qed.

Lemma dashboard_values_differ (rng1 rng2 : nat -> Q)
    (products : list ProductType) (stores : list StoreType) :
  validDraws rng1 -> validDraws rng2 ->
  fst (ensureValidPriceData rng1 products stores 0%nat)
  <> fst (ensureValidPriceData rng2 products stores 0%nat) ->
  DashboardNotions.DependsOnDraws products stores.
Proof.
  intros Hv1 Hv2 Hdiff. exists rng1, rng2.
  split; [exact Hv1 | ]. split; [exact Hv2 | ]. split; [exact Hdiff | ].
  intros json data currentTime page storage Hpantry Hstores.
  unfold settledPage, settledStorage.
  assert (("lastFetchTime" : string) <> "dashboardData") as Hne
    by discriminate.
  rewrite !DashboardFacts.fetchDashboardData_ok. cbn [fst snd].
  split; [ | intros rng; rewrite DashboardFacts.fetchDashboardData_ok;
              cbn [fst snd];
              rewrite (lookup_insert_ne _ _ _ _ Hne), lookup_insert_eq;
              reflexivity].
  cbn. intros Heq. injection Heq as Heq.
  apply (f_equal pantryItems) in Heq.
  rewrite !formatted_pantry, Hpantry, Hstores in Heq.
  injection Heq as Heq. exact (Hdiff Heq).
Qed.

Lemma inventedPrice_differs :
  PriceNotions.inventedPrice 0 <> PriceNotions.inventedPrice (1 # 2).
Proof. discriminate. Qed.

Lemma inventedRange_differs :
  PriceNotions.inventedRange 0 <> PriceNotions.inventedRange (1 # 2).
Proof. discriminate. Qed.

(** C10.  The dashboard value is not a function of the API response
    alone.  Let some product of the input have no lowest price above 0
    (absent, or 0), or a price range of 0 to 0 (or none), or no store
    name of its own (missing, empty or "Unknown Store") while the store
    list offers two different names.  Then there are two sequences of
    values of [Math.random] for which [ensureValidPriceData] returns
    different lists on that same input, and for an API response with
    these pantry items the value that [fetchDashboardData] shows is the
    value it stringifies into the cache, and it differs between the two
    runs.  What is substituted is read off the draws: with every draw
    equal to [c], the price is [(c * 10 + 1).toFixed(2)], the range
    starts at [(c * 5 + 1).toFixed(2)] and ends [c * 5] above it, rounded
    again, and the store is the one at position [floor(c * stores.length)]
    of the store list, by its name, else its chain name, else the name of
    [storeVariety] at the product's index; with an empty store list the
    name of [storeVariety] is used and no draw decides it. *)
Theorem price_data_not_deterministic (products : list ProductType)
    (stores : list StoreType) (i : nat) (product : ProductType) :
  nth_error products i = Some product ->
  (Qgtb (readPrice product) 0 = false ->
   DashboardNotions.DependsOnDraws products stores)
  /\ (PriceNotions.rangeIsBlank product = true ->
      DashboardNotions.DependsOnDraws products stores)
  /\ (needsStore (PriceNotions.readStore product) = true ->
      PriceNotions.TwoNames i stores ->
      DashboardNotions.DependsOnDraws products stores)
  /\ (forall c n,
        exists out,
          nth_error
            (fst (ensureValidPriceData (constant c) products stores n)) i
          = Some out
          /\ (Qgtb (readPrice product) 0 = false ->
              lowestPrice out ≫= price
              = Some (PriceNotions.inventedPrice c))
          /\ (PriceNotions.rangeIsBlank product = true ->
              PriceNotions.rangeOf out
              = Some (PriceNotions.inventedRange c))
          /\ (needsStore (PriceNotions.readStore product) = true ->
              PriceNotions.readStore out
              = Some (PriceNotions.pickedStore c stores i)))
  /\ (needsStore (PriceNotions.readStore product) = true ->
      stores = [] ->
      forall rng n,
        exists out,
          nth_error (fst (ensureValidPriceData rng products stores n)) i
          = Some out
          /\ PriceNotions.readStore out = Some (varietyAt i)).
Proof.
  intros Hnth. split; [ | split; [ | split; [ | split]]].
  - intros Hprice.
    apply (dashboard_values_differ lowDraws midDraws);
      [exact lowDraws_valid | exact midDraws_valid | ].
    apply (outputs_differ_at (fun out => lowestPrice out ≫= price) 0 (1 # 2)
             products stores i product Hnth).
    intros m1 m2.
    rewrite !ensureOne_constant_price by exact Hprice.
    intros H. apply inventedPrice_differs.
    unfold PriceNotions.inventedPrice. congruence.
  - intros Hrange.
    apply (dashboard_values_differ lowDraws midDraws);
      [exact lowDraws_valid | exact midDraws_valid | ].
    apply (outputs_differ_at PriceNotions.rangeOf 0 (1 # 2)
             products stores i product Hnth).
    intros m1 m2.
    rewrite !ensureOne_constant_range by exact Hrange.
    intros H. apply inventedRange_differs. congruence.
  - intros Hstore (j1 & j2 & st1 & st2 & H1 & H2 & Hlabels).
    assert (j1 < length stores)%nat as Hj1
      by (apply nth_error_Some; congruence).
    assert (j2 < length stores)%nat as Hj2
      by (apply nth_error_Some; congruence).
    apply (dashboard_values_differ
             (constant (PriceNotions.drawFor j1 (length stores)))
             (constant (PriceNotions.drawFor j2 (length stores))));
      [exact (drawFor_valid _ _ Hj1) | exact (drawFor_valid _ _ Hj2) | ].
    apply (outputs_differ_at PriceNotions.readStore _ _
             products stores i product Hnth).
    intros m1 m2.
    rewrite !ensureOne_constant_store by exact Hstore.
    unfold PriceNotions.pickedStore.
    destruct stores as [ | st more]; [destruct j1; discriminate H1 | ].
    rewrite !randomIndex_drawFor by assumption.
    rewrite (nth_error_nth _ _ _ H1), (nth_error_nth _ _ _ H2).
    congruence.
  - intros c n.
    destruct (mapFrom_nth (constant c) stores products 0%nat n i product
                Hnth) as [m Hm].
    cbn [Nat.add] in Hm.
    exists (fst (ensureOne (constant c) stores i product m)).
    split; [exact Hm | ].
    split; [apply ensureOne_constant_price | ].
    split; [apply ensureOne_constant_range | apply ensureOne_constant_store].
  - intros Hstore -> rng n.
    destruct (mapFrom_nth rng [] products 0%nat n i product Hnth)
      as [m Hm].
    cbn [Nat.add] in Hm.
    exists (fst (ensureOne rng [] i product m)).
    split; [exact Hm | ].
    unfold PriceNotions.readStore in Hstore |- *.
    unfold ensureOne, pickStore, bind, ret. rewrite Hstore.
    repeat case_match; simplify_eq; reflexivity.
Qed.

Lemma twoStores_TwoNames (index : nat) :
  PriceNotions.TwoNames index twoStores.
Proof.
  exists 0%nat, 1%nat,
    {| name := Some "Corner Shop"; chainName := None |},
    {| name := None; chainName := Some "MegaMart" |}.
  repeat split; try reflexivity. discriminate.
Defined.

(** One product for each cause: no price, no range, no store. *)
Lemma price_data_not_deterministic_witness :
  DashboardNotions.DependsOnDraws [ complete; unpriced ] twoStores
  /\ DashboardNotions.DependsOnDraws [ complete; PriceNotions.rangeless ]
       twoStores
  /\ DashboardNotions.DependsOnDraws [ complete; PriceNotions.storeless ]
       twoStores.
Proof.
  split; [ | split].
  - apply (proj1 (price_data_not_deterministic [ complete; unpriced ]
                    twoStores 1%nat unpriced eq_refl)).
    reflexivity.
  - apply (proj1 (proj2 (price_data_not_deterministic
                           [ complete; PriceNotions.rangeless ]
                           twoStores 1%nat PriceNotions.rangeless eq_refl))).
    reflexivity.
  - apply (proj1 (proj2 (proj2 (price_data_not_deterministic
                                  [ complete; PriceNotions.storeless ]
                                  twoStores 1%nat PriceNotions.storeless
                                  eq_refl)))).
    + reflexivity.
    + exact (twoStores_TwoNames 1%nat).
Defined.

(** The store of a product without one, draw by draw. *)
Example storeless_by_draw :
  map PriceNotions.readStore
    (fst (ensureValidPriceData lowDraws [ PriceNotions.storeless ] twoStores
            0%nat))
  = [ Some "Corner Shop" ]
  /\ map PriceNotions.readStore
       (fst (ensureValidPriceData midDraws [ PriceNotions.storeless ]
               twoStores 0%nat))
     = [ Some "MegaMart" ]
  /\ map PriceNotions.readStore
       (fst (ensureValidPriceData midDraws [ PriceNotions.storeless ] []
               0%nat))
     = [ Some "Walmart" ].
Proof. repeat split; reflexivity. Qed.

End PricesFacts.

(* ===================================================================== *)
(** ** More on [ensureValidPriceData]                                     *)
(* ===================================================================== *)

Module PriceLaws.

Import Prices PriceNotions.

(** *** Rounding to hundredths *)

Lemma toFixed2_mono (x y : Q) : (x <= y)%Q -> (toFixed2 x <= toFixed2 y)%Q.
Proof.
  intros H. unfold toFixed2, Qle. cbn [Qnum Qden].
  apply Z.mul_le_mono_nonneg_r; [lia | ].
  apply Qfloor_resp_le. lra.
Qed.

Lemma Qfloor_half (z : Z) : Qfloor (inject_Z z + (1 # 2)) = z.
Proof.
  pose proof (Qfloor_le (inject_Z z + (1 # 2))) as Hle.
  pose proof (Qlt_floor (inject_Z z + (1 # 2))) as Hlt.
  set (f := Qfloor (inject_Z z + (1 # 2))) in *.
  rewrite inject_Z_plus in Hlt. change (inject_Z 1) with 1%Q in Hlt.
  assert (inject_Z f < inject_Z (z + 1))%Q as H1.
  { rewrite inject_Z_plus. change (inject_Z 1) with 1%Q. lra. }
  assert (inject_Z z < inject_Z (f + 1))%Q as H2.
  { rewrite inject_Z_plus. change (inject_Z 1) with 1%Q. lra. }
  rewrite <- Zlt_Qlt in H1, H2. lia.
Qed.

(** A whole number of hundredths is its own rounding. *)
Lemma toFixed2_hundredths (z : Z) : toFixed2 (z # 100) = (z # 100)%Q.
Proof.
  unfold toFixed2. f_equal.
  rewrite <- (Qfloor_half z) at 2.
  apply Qfloor_comp. unfold Qeq. cbn. lia.
Qed.

Lemma toFixed2_idem (x : Q) : toFixed2 (toFixed2 x) = toFixed2 x.
Proof. unfold toFixed2 at 2 3. apply toFixed2_hundredths. Qed.

Lemma toFixed2_ge (k : Z) (x : Q) :
  (inject_Z k <= x)%Q -> (inject_Z k <= toFixed2 x)%Q.
Proof.
  intros H.
  apply Qle_trans with (toFixed2 (inject_Z k)); [ | apply toFixed2_mono, H].
  replace (toFixed2 (inject_Z k)) with ((k * 100 # 100))%Q.
  - unfold Qle. cbn. lia.
  - rewrite <- toFixed2_hundredths. unfold toFixed2. f_equal.
    apply Qfloor_comp. unfold Qeq. cbn. lia.
Qed.

Lemma toFixed2_le (k : Z) (x : Q) :
  (x <= inject_Z k)%Q -> (toFixed2 x <= inject_Z k)%Q.
Proof.
  intros H.
  apply Qle_trans with (toFixed2 (inject_Z k)); [apply toFixed2_mono, H | ].
  replace (toFixed2 (inject_Z k)) with ((k * 100 # 100))%Q.
  - unfold Qle. cbn. lia.
  - rewrite <- toFixed2_hundredths. unfold toFixed2. f_equal.
    apply Qfloor_comp. unfold Qeq. cbn. lia.
Qed.

Lemma Qgtb_true (x y : Q) : Qgtb x y = true <-> (y < x)%Q.
Proof.
  unfold Qgtb. rewrite negb_true_iff.
  split; intros H.
  - apply Qnot_le_lt. intros Hle. apply Qle_bool_iff in Hle. congruence.
  - apply not_true_is_false. intros Hle. apply Qle_bool_iff in Hle. lra.
Qed.

Lemma Qeq_bool_false_pos (x : Q) : (0 < x)%Q -> Qeq_bool x 0 = false.
Proof.
  intros H. apply not_true_is_false. intros E.
  apply Qeq_bool_iff in E. lra.
Qed.

(** *** One product *)

Lemma ensureOne_fields (rng : nat -> Q) (stores : list StoreType)
    (index : nat) (product : ProductType) (n : nat) :
  exists p s a b,
    fst (ensureOne rng stores index product n)
    = {| id := id product;
         rest := rest product;
         lowestPrice := Some {| price := Some p; store := Some s |};
         priceRange :=
           Some {| min := Some a; max := Some b;
                   period := Some (strOr (priceRange product ≫= period)
                                     "6 weeks") |} |}.
Proof.
  unfold ensureOne, pickStore, random, bind, ret.
  repeat case_match; simplify_eq; cbn; eauto.
Qed.

(** The price of the result: the product's own when it is positive, else
    a rounded draw. *)
Lemma ensureOne_price (rng : nat -> Q) (stores : list StoreType)
    (index : nat) (product : ProductType) (n : nat) :
  exists k,
    lowestPrice (fst (ensureOne rng stores index product n)) ≫= price
    = Some (if Qgtb (readPrice product) 0 then readPrice product
            else toFixed2 (rng k * 10 + 1)).
Proof.
  unfold ensureOne, pickStore, random, bind, ret.
  repeat case_match; simplify_eq; cbn; eauto.
Qed.

(** The store of the result: the product's own when it is usable, else a
    name taken from one of the stores or from [storeVariety]. *)
Lemma ensureOne_store (rng : nat -> Q) (stores : list StoreType)
    (index : nat) (product : ProductType) (n : nat) :
  exists s,
    readStore (fst (ensureOne rng stores index product n)) = Some s
    /\ (if needsStore (readStore product) then
          s = varietyAt index
          \/ exists st, In st stores
                        /\ s = strOr (name st)
                                 (strOr (chainName st) (varietyAt index))
        else readStore product = Some s).
Proof.
  unfold readStore, ensureOne, pickStore, random, bind, ret.
  destruct (needsStore (lowestPrice product ≫= store)) eqn:Hneed.
  - destruct stores as [ | st0 more].
    + repeat case_match; simplify_eq; cbn -[varietyAt]; eauto.
    + set (i := randomIndex (rng n) (length (st0 :: more))).
      destruct (nth_in_or_default i (st0 :: more)
                  {| name := None; chainName := None |}) as [Hin | Hdef];
        revert Hin || revert Hdef;
        generalize (nth i (st0 :: more) {| name := None; chainName := None |});
        intros st Hst.
      * repeat case_match; simplify_eq; cbn -[varietyAt];
          (eexists; split; [reflexivity | right; exists st; auto]).
      * subst st.
        repeat case_match; simplify_eq; cbn -[varietyAt];
          (eexists; split; [reflexivity | left; reflexivity]).
  - unfold needsStore in Hneed. apply orb_false_elim in Hneed as [Ht _].
    apply negb_false_iff in Ht.
    destruct (lowestPrice product ≫= store) as [v | ]; [ | discriminate].
    repeat case_match; simplify_eq; cbn; eauto.
Qed.

(** The range of the result: two rounded draws when the product's range
    is 0 to 0, else [repairRange]. *)
Lemma ensureOne_range (rng : nat -> Q) (stores : list StoreType)
    (index : nat) (product : ProductType) (n : nat) :
  exists k1 k2,
    rangeOf (fst (ensureOne rng stores index product n))
    = Some (if rangeIsBlank product then
              (toFixed2 (rng k1 * 5 + 1),
               toFixed2 (toFixed2 (rng k1 * 5 + 1) + rng k2 * 5))
            else repairRange (numOr0 (priceRange product ≫= min))
                             (numOr0 (priceRange product ≫= max))).
Proof.
  unfold rangeOf, rangeIsBlank, repairRange, ensureOne, pickStore, random,
    bind, ret.
  repeat case_match; simplify_eq; cbn; eauto.
Qed.

(** *** Names *)

Lemma varietyAt_In (index : nat) : In (varietyAt index) storeVariety.
Proof.
  unfold varietyAt. apply nth_In. apply Nat.mod_upper_bound. discriminate.
Qed.

Lemma varietyAt_nonempty (index : nat) : varietyAt index <> EmptyString.
Proof.
  pose proof (varietyAt_In index) as H.
  intros E. rewrite E in H. cbn in H.
  repeat (destruct H as [H | H]; [discriminate H | ]). exact H.
Qed.

Lemma varietyAt_known (index : nat) : varietyAt index <> "Unknown Store".
Proof.
  pose proof (varietyAt_In index) as H.
  intros E. rewrite E in H. cbn in H.
  repeat (destruct H as [H | H]; [discriminate H | ]). exact H.
Qed.

Lemma strOr_nonempty (s : option string) (d : string) :
  d <> EmptyString -> strOr s d <> EmptyString.
Proof.
  intros Hd. unfold strOr.
  destruct s as [[ | c v] | ]; cbn; [exact Hd | discriminate | exact Hd].
Qed.

Lemma strOr_other (s : option string) (d u : string) :
  s <> Some u -> d <> u -> strOr s d <> u.
Proof.
  intros Hs Hd. unfold strOr.
  destruct s as [[ | c v] | ]; cbn; [exact Hd | congruence | exact Hd].
Qed.

Lemma needsStore_false (s : string) :
  needsStore (Some s) = false <-> s <> EmptyString /\ s <> "Unknown Store".
Proof.
  unfold needsStore. rewrite orb_false_iff, negb_false_iff.
  rewrite bool_decide_eq_false.
  split.
  - intros [Ht Hu]. split; [ | congruence].
    intros ->. discriminate Ht.
  - intros [He Hu]. split; [ | congruence].
    destruct s; [contradiction | reflexivity].
Qed.

(** *** From one product to the list *)

Lemma mapFrom_Forall2 (rng : nat -> Q) (stores : list StoreType)
    (P : ProductType -> ProductType -> Prop) :
  (forall index product n,
      P product (fst (ensureOne rng stores index product n))) ->
  forall products index n,
    Forall2 P products (fst (mapFrom rng stores index products n)).
Proof.
  intros HP. induction products as [ | first more IH]; intros index n.
  - constructor.
  - cbn [mapFrom bind ret].
    pose proof (HP index first n) as H1.
    destruct (ensureOne rng stores index first n) as [p n1].
    pose proof (IH (S index) n1) as H2.
    destruct (mapFrom rng stores (S index) more n1) as [ps n2].
    constructor; assumption.
Qed.

Lemma Forall2_right {A B} (P : B -> Prop) (l : list A) (k : list B) :
  Forall2 (fun _ b => P b) l k -> Forall P k.
Proof. induction 1; constructor; assumption. Qed.

(** X1: the list that comes back has the products of the input, in the
    same order: as many, with the same ids and the same descriptive
    fields. *)
Theorem ensureValidPriceData_keeps_products (rng : nat -> Q)
    (products : list ProductType) (stores : list StoreType) (n : nat) :
  length (fst (ensureValidPriceData rng products stores n)) = length products
  /\ map id (fst (ensureValidPriceData rng products stores n))
     = map id products
  /\ map rest (fst (ensureValidPriceData rng products stores n))
     = map rest products.
Proof.
  unfold ensureValidPriceData.
  assert (Forall2 (fun p o => id o = id p /\ rest o = rest p) products
            (fst (mapFrom rng stores 0 products n))) as H.
  { apply mapFrom_Forall2. intros index product k.
    destruct (ensureOne_fields rng stores index product k)
      as (p & s & a & b & ->). split; reflexivity. }
  induction H as [ | p o ps os [Hid Hrest] _ (IH1 & IH2 & IH3)]; cbn.
  - auto.
  - rewrite IH1, IH2, IH3, Hid, Hrest. auto.
Qed.

Lemma ensureOne_priced (rng : nat -> Q) (stores : list StoreType)
    (index : nat) (product : ProductType) (n : nat) :
  validDraws rng -> Priced (fst (ensureOne rng stores index product n)).
Proof.
  intros Hrng.
  destruct (ensureOne_price rng stores index product n) as [k Hp].
  destruct (ensureOne_store rng stores index product n) as (s' & Hs & Hfrom).
  destruct (ensureOne_fields rng stores index product n)
    as (p & s & a & b & E).
  rewrite E in Hp, Hs |- *. unfold readStore in Hs. cbn in Hp, Hs.
  injection Hp as ->. injection Hs as ->.
  exists (if Qgtb (readPrice product) 0 then readPrice product
          else toFixed2 (rng k * 10 + 1)), s'.
  split; [reflexivity | split].
  - destruct (Qgtb (readPrice product) 0) eqn:Hg.
    + apply Qgtb_true. exact Hg.
    + destruct (Hrng k) as [H0 _].
      pose proof (toFixed2_ge 1 (rng k * 10 + 1)) as H.
      change (inject_Z 1) with 1%Q in H. lra.
  - destruct (needsStore (readStore product)) eqn:Hneed.
    + destruct Hfrom as [-> | (st & _ & ->)].
      * apply varietyAt_nonempty.
      * apply strOr_nonempty, strOr_nonempty, varietyAt_nonempty.
    + rewrite Hfrom in Hneed. apply needsStore_false in Hneed. tauto.
Qed.

(** X2: whatever the input, every product that comes back has a price
    above 0 and a store with a name, as long as [Math.random] returns
    values in [0, 1). *)
Theorem ensureValidPriceData_priced (rng : nat -> Q)
    (products : list ProductType) (stores : list StoreType) (n : nat) :
  validDraws rng ->
  Forall Priced (fst (ensureValidPriceData rng products stores n)).
Proof.
  intros Hrng. unfold ensureValidPriceData.
  apply (Forall2_right Priced products).
  apply mapFrom_Forall2. intros index product k.
  apply ensureOne_priced. exact Hrng.
Qed.

Lemma ensureValidPriceData_priced_witness :
  Forall Priced
    (fst (ensureValidPriceData midDraws [ unpriced; zeroPriced; complete ]
            twoStores 0%nat)).
Proof.
  apply ensureValidPriceData_priced.
  intros k. split; [discriminate | reflexivity].
Defined.

Lemma ensureOne_bounded (rng : nat -> Q) (stores : list StoreType)
    (index : nat) (product : ProductType) (n : nat) :
  validDraws rng ->
  InventedWithinBounds product (fst (ensureOne rng stores index product n)).
Proof.
  intros Hrng. split.
  - intros Hg.
    destruct (ensureOne_price rng stores index product n) as [k Hp].
    rewrite Hg in Hp. eexists. split; [exact Hp | ].
    destruct (Hrng k) as [H0 H1].
    pose proof (toFixed2_ge 1 (rng k * 10 + 1)) as Hlo.
    pose proof (toFixed2_le 11 (rng k * 10 + 1)) as Hhi.
    change (inject_Z 1) with 1%Q in Hlo.
    change (inject_Z 11) with 11%Q in Hhi.
    split; [apply Hlo | apply Hhi]; lra.
  - intros Hblank.
    destruct (ensureOne_range rng stores index product n)
      as (k1 & k2 & Hr).
    rewrite Hblank in Hr. do 2 eexists. split; [exact Hr | ].
    destruct (Hrng k1) as [H0 H1]. destruct (Hrng k2) as [H2 H3].
    set (a := toFixed2 (rng k1 * 5 + 1)).
    pose proof (toFixed2_ge 1 (rng k1 * 5 + 1)) as Ha1.
    pose proof (toFixed2_le 6 (rng k1 * 5 + 1)) as Ha6.
    change (inject_Z 1) with 1%Q in Ha1.
    change (inject_Z 6) with 6%Q in Ha6.
    assert (1 <= a)%Q as Hlo by (apply Ha1; lra).
    assert (a <= 6)%Q as Hhi by (apply Ha6; lra).
    pose proof (toFixed2_mono a (a + rng k2 * 5)) as Hm.
    assert (toFixed2 a = a) as Hfix by apply toFixed2_idem.
    rewrite Hfix in Hm.
    pose proof (toFixed2_le 11 (a + rng k2 * 5)) as Hb.
    change (inject_Z 11) with 11%Q in Hb.
    repeat split; [exact Hlo | exact Hhi | apply Hm; lra | apply Hb; lra].
Qed.

(** X3: the values that the function invents are within the bounds of its
    formulas, for draws in [0, 1): a missing price becomes a price from 1
    to 11; a missing range becomes a range [a, b] with
    1 <= a <= 6 and a <= b <= 11. *)
Theorem ensureValidPriceData_bounds (rng : nat -> Q)
    (products : list ProductType) (stores : list StoreType) (n : nat) :
  validDraws rng ->
  Forall2 InventedWithinBounds products
    (fst (ensureValidPriceData rng products stores n)).
Proof.
  intros Hrng. unfold ensureValidPriceData.
  apply mapFrom_Forall2. intros index product k.
  apply ensureOne_bounded. exact Hrng.
Qed.

Lemma ensureValidPriceData_bounds_witness :
  Forall2 InventedWithinBounds [ unpriced; zeroPriced ]
    (fst (ensureValidPriceData midDraws [ unpriced; zeroPriced ]
            twoStores 0%nat)).
Proof.
  apply ensureValidPriceData_bounds.
  intros k. split; [discriminate | reflexivity].
Defined.

(** *** Complete products *)

Lemma ensureOne_complete (product : ProductType) :
  Complete product ->
  exists out,
    (forall rng stores index n,
        ensureOne rng stores index product n = (out, n))
    /\ SamePriceAndStore product out.
Proof.
  intros (Hstore & Hprice & Hrange).
  unfold readStore in Hstore. unfold rangeIsBlank in Hrange.
  exists (fst (ensureOne lowDraws [] 0%nat product 0%nat)).
  split.
  - intros rng stores index n.
    unfold ensureOne, bind, ret. rewrite Hstore, Hprice, Hrange.
    repeat case_match; simplify_eq; reflexivity.
  - unfold SamePriceAndStore, readStore, ensureOne, bind, ret.
    rewrite Hstore, Hprice, Hrange.
    unfold needsStore in Hstore. apply orb_false_elim in Hstore as [Ht _].
    apply negb_false_iff in Ht.
    destruct (lowestPrice product ≫= store) as [v | ]; [ | discriminate].
    repeat case_match; simplify_eq; split; reflexivity.
Qed.

Lemma mapFrom_complete (products : list ProductType) :
  Forall Complete products ->
  exists out,
    (forall rng stores index n,
        mapFrom rng stores index products n = (out, n))
    /\ Forall2 SamePriceAndStore products out.
Proof.
  induction 1 as [ | product more Hc _ (outs & Hrun & Hsame)].
  - exists []. split; [reflexivity | constructor].
  - destruct (ensureOne_complete product Hc) as (out & Hone & Hps).
    exists (out :: outs). split.
    + intros rng stores index n. cbn [mapFrom bind ret].
      rewrite Hone, Hrun. reflexivity.
    + constructor; assumption.
Qed.

(** X4: on a list of complete products (usable store name, positive price,
    range not 0 to 0) the function calls [Math.random] not once: its
    result is the same for every sequence of draws and every list of
    stores, and it keeps each product's price and store. *)
Theorem complete_products_need_no_draw (products : list ProductType) :
  Forall Complete products ->
  exists out,
    (forall rng stores n,
        ensureValidPriceData rng products stores n = (out, n))
    /\ Forall2 SamePriceAndStore products out.
Proof.
  intros Hc. destruct (mapFrom_complete products Hc) as (out & Hrun & Hs).
  exists out. split; [ | exact Hs].
  intros rng stores n. apply Hrun.
Qed.

Lemma complete_products_need_no_draw_witness :
  exists out,
    (forall rng stores n,
        ensureValidPriceData rng [ complete ] stores n = (out, n))
    /\ Forall2 SamePriceAndStore [ complete ] out.
Proof.
  apply complete_products_need_no_draw.
  constructor; [ | constructor].
  split; [reflexivity | split; reflexivity].
Defined.

(** *** A second pass *)

Lemma strOr_idem (s : option string) (d : string) :
  d <> EmptyString -> strOr (Some (strOr s d)) d = strOr s d.
Proof.
  intros Hd. unfold strOr at 1.
  pose proof (strOr_nonempty s d Hd) as Hne.
  destruct (strOr s d); [contradiction | reflexivity].
Qed.

Lemma Qgtb_not_zero (x : Q) : Qgtb x 0 = true -> Qeq_bool x 0 = false.
Proof. intros H. apply Qeq_bool_false_pos, Qgtb_true, H. Qed.

(** A repaired range is repaired: a second repair changes nothing. *)
Lemma repairRange_stable (mn mx : Q) :
  Qeq_bool mn 0 && Qeq_bool mx 0 = false ->
  Qeq_bool (fst (repairRange mn mx)) 0
  && Qeq_bool (snd (repairRange mn mx)) 0 = false
  /\ repairRange (fst (repairRange mn mx)) (snd (repairRange mn mx))
     = repairRange mn mx.
Proof.
  intros Hblank. unfold repairRange at 1 2 4 5 6.
  destruct (Qeq_bool mn 0 && Qgtb mx 0) eqn:C1.
  - apply andb_prop in C1 as [_ Hmx].
    pose proof (Qgtb_not_zero mx Hmx) as Hz. cbn [fst snd].
    split; [rewrite Hz; apply andb_false_r | ].
    unfold repairRange. rewrite Hmx, Hz, andb_true_r, andb_false_r.
    destruct (Qeq_bool (toFixed2 (mx * (8 # 10))) 0); reflexivity.
  - destruct (Qgtb mn 0 && Qeq_bool mx 0) eqn:C2.
    + apply andb_prop in C2 as [Hmn _].
      pose proof (Qgtb_not_zero mn Hmn) as Hz. cbn [fst snd].
      split; [rewrite Hz; reflexivity | ].
      unfold repairRange. rewrite Hmn, Hz. cbn [andb].
      destruct (Qeq_bool (toFixed2 (mn * (12 # 10))) 0); reflexivity.
    + cbn [fst snd]. split; [exact Hblank | ].
      unfold repairRange. rewrite C1, C2. reflexivity.
Qed.

Lemma ensureOne_settled (i : string) (r : list (string * string))
    (p : Q) (s : string) (a b : Q) (per : string) :
  Qgtb p 0 = true ->
  needsStore (Some s) = false ->
  Qeq_bool a 0 && Qeq_bool b 0 = false ->
  repairRange a b = (a, b) ->
  strOr (Some per) "6 weeks" = per ->
  Settled
    {| id := i; rest := r;
       lowestPrice := Some {| price := Some p; store := Some s |};
       priceRange :=
         Some {| min := Some a; max := Some b; period := Some per |} |}.
Proof.
  intros Hp Hs Hblank Hrep Hper rng stores index n.
  unfold ensureOne, readPrice, bind, ret.
  cbn -[Qgtb Qeq_bool toFixed2 needsStore strOr Qmult].
  rewrite Hs, Hp, Hblank, Hper.
  unfold repairRange in Hrep.
  destruct (Qeq_bool a 0 && Qgtb b 0);
    [ | destruct (Qgtb a 0 && Qeq_bool b 0)];
    try (injection Hrep; intros); cbn; congruence.
Qed.

Lemma ensureOne_twice (rng : nat -> Q) (stores : list StoreType)
    (index : nat) (product : ProductType) (n : nat) :
  validDraws rng -> Forall Named stores ->
  Settled (fst (ensureOne rng stores index product n)).
Proof.
  intros Hrng Hnamed.
  destruct (ensureOne_price rng stores index product n) as [k Hp].
  destruct (ensureOne_store rng stores index product n) as (s' & Hs & Hfrom).
  destruct (ensureOne_range rng stores index product n) as (k1 & k2 & Hr).
  pose proof (ensureOne_bounded rng stores index product n Hrng)
    as [_ Hbounds].
  destruct (ensureOne_fields rng stores index product n)
    as (p & s & a & b & E).
  rewrite E in Hp, Hs, Hr, Hbounds |- *.
  unfold readStore in Hs. unfold rangeOf in Hr, Hbounds.
  cbn in Hp, Hs, Hr, Hbounds.
  injection Hs as ->.
  assert (6 <> 0)%nat as _ by discriminate.
  apply ensureOne_settled.
  - injection Hp as ->.
    destruct (Qgtb (readPrice product) 0) eqn:Hg; [exact Hg | ].
    apply Qgtb_true. destruct (Hrng k) as [H0 _].
    pose proof (toFixed2_ge 1 (rng k * 10 + 1)) as H.
    change (inject_Z 1) with 1%Q in H. lra.
  - apply needsStore_false.
    destruct (needsStore (readStore product)) eqn:Hneed.
    + destruct Hfrom as [-> | (st & Hin & ->)].
      * split; [apply varietyAt_nonempty | apply varietyAt_known].
      * rewrite Forall_forall in Hnamed.
        destruct (Hnamed st ltac:(apply list_elem_of_In; exact Hin))
          as [Hn Hc].
        split.
        -- apply strOr_nonempty, strOr_nonempty, varietyAt_nonempty.
        -- apply strOr_other; [exact Hn | ].
           apply strOr_other; [exact Hc | apply varietyAt_known].
    + rewrite Hfrom in Hneed. apply needsStore_false in Hneed. exact Hneed.
  - destruct (rangeIsBlank product) eqn:Hblank.
    + destruct (Hbounds eq_refl) as (a' & b' & E' & Ha & _ & Hab & _).
      assert (a' = a /\ b' = b) as [-> ->] by (inversion E'; auto).
      rewrite (Qeq_bool_false_pos a) by lra. reflexivity.
    + assert ((a, b) = repairRange (numOr0 (priceRange product ≫= min))
                         (numOr0 (priceRange product ≫= max))) as Hab
        by (inversion Hr; reflexivity).
      apply (f_equal fst) in Hab as Hfst. apply (f_equal snd) in Hab as Hsnd.
      cbn [fst snd] in Hfst, Hsnd. subst a b.
      apply repairRange_stable. exact Hblank.
  - destruct (rangeIsBlank product) eqn:Hblank.
    + destruct (Hbounds eq_refl) as (a' & b' & E' & Ha & _ & Hab & _).
      assert (a' = a /\ b' = b) as [-> ->] by (inversion E'; auto).
      unfold repairRange.
      rewrite (Qeq_bool_false_pos a), (Qeq_bool_false_pos b) by lra.
      rewrite andb_false_r. reflexivity.
    + assert ((a, b) = repairRange (numOr0 (priceRange product ≫= min))
                         (numOr0 (priceRange product ≫= max))) as Hab
        by (inversion Hr; reflexivity).
      apply (f_equal fst) in Hab as Hfst. apply (f_equal snd) in Hab as Hsnd.
      cbn [fst snd] in Hfst, Hsnd. subst a b.
      rewrite <- surjective_pairing.
      apply repairRange_stable. exact Hblank.
  - apply strOr_idem. discriminate.
Qed.

Lemma mapFrom_settled (rng : nat -> Q) (stores : list StoreType)
    (products : list ProductType) :
  Forall Settled products ->
  forall index n, mapFrom rng stores index products n = (products, n).
Proof.
  induction 1 as [ | product more Hs _ IH]; intros index n.
  - reflexivity.
  - cbn [mapFrom bind ret]. rewrite Hs, IH. reflexivity.
Qed.

Lemma second_pass_is_identity (rng : nat -> Q)
    (products : list ProductType) (stores : list StoreType) (n : nat) :
  validDraws rng -> Forall Named stores ->
  forall rng' stores' n',
    ensureValidPriceData rng'
      (fst (ensureValidPriceData rng products stores n)) stores' n'
    = (fst (ensureValidPriceData rng products stores n), n').
Proof.
  intros Hrng Hnamed rng' stores' n'. unfold ensureValidPriceData.
  apply mapFrom_settled.
  apply (Forall2_right Settled products).
  apply mapFrom_Forall2. intros index product k.
  apply ensureOne_twice; assumption.
Qed.

(** X5: a second pass changes nothing.  What the function returns, for
    draws in [0, 1) and stores none of which is called "Unknown Store",
    it returns unchanged when it is applied to it again, with any stores,
    and without calling [Math.random]. *)
Theorem ensureValidPriceData_twice (rng : nat -> Q)
    (products : list ProductType) (stores : list StoreType) (n : nat) :
  validDraws rng -> Forall Named stores ->
  forall rng' stores' n',
    ensureValidPriceData rng'
      (fst (ensureValidPriceData rng products stores n)) stores' n'
    = (fst (ensureValidPriceData rng products stores n), n').
Proof.
  intros Hrng Hnamed rng' stores' n'. unfold ensureValidPriceData.
  apply mapFrom_settled.
  apply (Forall2_right Settled products).
  apply mapFrom_Forall2. intros index product k.
  apply ensureOne_twice; assumption.
Qed.

Lemma ensureValidPriceData_twice_witness :
  ensureValidPriceData lowDraws
    (fst (ensureValidPriceData midDraws [ unpriced; zeroPriced; complete ]
            twoStores 0%nat)) [] 7%nat
  = (fst (ensureValidPriceData midDraws [ unpriced; zeroPriced; complete ]
            twoStores 0%nat), 7%nat).
Proof.
  apply ensureValidPriceData_twice.
  - intros k. split; [discriminate | reflexivity].
  - repeat constructor; discriminate.
Defined.

(** *** Products that are returned as they are *)





End PriceLaws.
(* ===================================================================== *)
(** ** More on the dashboard page                                         *)
(* ===================================================================== *)

Module DashboardLaws.

Import Prices Dashboard PriceNotions DashboardNotions.

(** *** Visitors without a session *)

Lemma load_redirects (json : Json) (rng : nat -> Q)
    (storage : gmap string string) (currentTime : Z) (page : Page)
    (n : nat) :
  Js.truthy (storage !! "token") = false
  \/ Js.truthy (storage !! "user") = false
  \/ storage !! "user" ≫= parseUser json = None ->
  fst (loadEffect json rng storage currentTime page n)
  = (page, [ Navigate "/login" ]).
Proof.
  intros H. unfold loadEffect.
  destruct (Js.truthy (storage !! "token")) eqn:Ht; [ | reflexivity].
  destruct (Js.truthy (storage !! "user")) eqn:Hu; [ | reflexivity].
  destruct H as [H | [H | H]]; try discriminate H.
  cbn [negb orb]. rewrite H. reflexivity.
Qed.

(** X6: without a token, without a user entry, or with a user entry that
    does not parse, the loading effect only sends the visitor to the
    login page: it starts no request and leaves the page state as it
    is. *)
Theorem load_without_session (json : Json) (rng : nat -> Q)
    (storage : gmap string string) (currentTime : Z) (page : Page)
    (n : nat) :
  Js.truthy (storage !! "token") = false
  \/ Js.truthy (storage !! "user") = false
  \/ storage !! "user" ≫= parseUser json = None ->
  fst (loadEffect json rng storage currentTime page n)
  = (page, [ Navigate "/login" ]).
Proof.
  intros H. unfold loadEffect.
  destruct (Js.truthy (storage !! "token")) eqn:Ht; [ | reflexivity].
  destruct (Js.truthy (storage !! "user")) eqn:Hu; [ | reflexivity].
  destruct H as [H | [H | H]]; try discriminate H.
  cbn [negb orb]. rewrite H. reflexivity.
Qed.

Lemma load_without_session_witness :
  fst (loadEffect demoJson lowDraws (<["token" := "t0k3n"]> ∅) 5000
         initialPage 0%nat)
  = (initialPage, [ Navigate "/login" ]).
Proof.
  apply load_without_session. right. left. reflexivity.
Defined.

Lemma handleLogout_lookup (storage : gmap string string) (key : string) :
  handleLogout storage !! key
  = if bool_decide (key ∈ sessionKeys) then None else storage !! key.
Proof.
  unfold handleLogout, sessionKeys.
  rewrite !lookup_delete.
  destruct (bool_decide_reflect
              (key ∈ [ "token"; "user"; "dashboardData"; "myList";
                       "lastFetchTime" ])) as [Hin | Hout].
  - rewrite !elem_of_cons, elem_of_nil in Hin.
    repeat case_decide; subst; try reflexivity. intuition congruence.
  - rewrite !not_elem_of_cons in Hout.
    repeat case_decide; subst; try reflexivity; intuition congruence.
Qed.

(** X7: [handleLogout] removes the token, the user and the three cache
    entries and nothing else; the next load of the dashboard, at any
    time, only sends the visitor to the login page. *)
Theorem logout_ends_session (json : Json) (rng : nat -> Q)
    (storage : gmap string string) (currentTime : Z) (page : Page)
    (n : nat) :
  (forall key, key ∈ sessionKeys -> handleLogout storage !! key = None)
  /\ (forall key, key ∉ sessionKeys ->
                  handleLogout storage !! key = storage !! key)
  /\ isCacheValid (handleLogout storage !! "lastFetchTime") currentTime
     = false
  /\ fst (loadEffect json rng (handleLogout storage) currentTime page n)
     = (page, [ Navigate "/login" ]).
Proof.
  repeat split.
  - intros key Hk. rewrite handleLogout_lookup.
    rewrite bool_decide_eq_true_2 by assumption. reflexivity.
  - intros key Hk. rewrite handleLogout_lookup.
    rewrite bool_decide_eq_false_2 by assumption. reflexivity.
  - rewrite handleLogout_lookup. reflexivity.
  - apply load_redirects. left.
    rewrite handleLogout_lookup. reflexivity.
Qed.

(** *** Which loads fetch the dashboard *)

Ltac split_runs :=
  repeat match goal with
    | |- context [ validated ?r ?d ?k ] =>
        destruct (validated r d k) as [[[? ?] ?] ?]
    | |- context [ ensureValidPriceData ?r ?l ?st ?k ] =>
        destruct (ensureValidPriceData r l st k)
    end.

(** X8: once the dashboard data is loaded, a further run of the loading
    effect (it runs again when [dataLoaded] changes) starts no dashboard
    request and leaves the data that is shown, whatever the storage
    holds. *)
Theorem load_once (json : Json) (rng : nat -> Q)
    (storage : gmap string string) (currentTime : Z) (page : Page)
    (n : nat) :
  dataLoaded page = true ->
  existsb isGetDashboard (loadCommands json rng storage currentTime page n)
  = false
  /\ dashboardData (loadedPage json rng storage currentTime page n)
     = dashboardData page
  /\ dataLoading (loadedPage json rng storage currentTime page n)
     = dataLoading page.
Proof.
  intros Hloaded. unfold loadCommands, loadedPage, loadEffect.
  rewrite Hloaded, andb_false_r. cbn [negb].
  repeat case_match; cbn [bind ret]; split_runs; cbn; auto.
Qed.

Lemma load_once_witness :
  existsb isGetDashboard
    (loadCommands demoJson lowDraws cachedStorage (1000000 + 5400000)
       (setDataLoaded true initialPage) 0%nat)
  = false
  /\ dashboardData
       (loadedPage demoJson lowDraws cachedStorage (1000000 + 5400000)
          (setDataLoaded true initialPage) 0%nat)
     = dashboardData (setDataLoaded true initialPage)
  /\ dataLoading
       (loadedPage demoJson lowDraws cachedStorage (1000000 + 5400000)
          (setDataLoaded true initialPage) 0%nat)
     = dataLoading (setDataLoaded true initialPage).
Proof. apply load_once. reflexivity. Defined.

Lemma load_refetches (json : Json) (rng : nat -> Q)
    (storage : gmap string string) (token : string) (currentTime : Z)
    (page : Page) (n : nat) :
  SignedIn json storage token ->
  dataLoaded page = false ->
  Unusable json storage currentTime ->
  In (GetDashboard token) (loadCommands json rng storage currentTime page n)
  /\ dashboardData (loadedPage json rng storage currentTime page n)
     = dashboardData page
  /\ dataLoading (loadedPage json rng storage currentTime page n) = true
  /\ error (loadedPage json rng storage currentTime page n) = None
  /\ render (loadedPage json rng storage currentTime page n) = Spinner.
Proof.
  intros (Htok & Htt & Hut & [u Hu]) Hloaded Hbad.
  unfold loadCommands, loadedPage, loadEffect.
  rewrite Htok, Htt, Hut, Hu, Hloaded. cbn [negb orb default].
  destruct Hbad as [Hbad | [Hbad | Hbad]]; rewrite Hbad;
    rewrite ?andb_false_r; cbn [andb negb];
    repeat case_match; cbn [bind ret]; split_runs; cbn; auto.
Qed.

(** X9: for a signed-in visitor whose dashboard is not loaded yet, the
    cache is passed over whenever its entry cannot be used: no entry, a
    timestamp that is missing, not a number or an hour old, or an entry
    that does not parse.  The effect then starts the dashboard request,
    shows the loading state in place of the data and clears the error. *)
Theorem unusable_cache_is_refetched (json : Json) (rng : nat -> Q)
    (storage : gmap string string) (token : string) (currentTime : Z)
    (page : Page) (n : nat) :
  SignedIn json storage token ->
  dataLoaded page = false ->
  Unusable json storage currentTime ->
  In (GetDashboard token) (loadCommands json rng storage currentTime page n)
  /\ dashboardData (loadedPage json rng storage currentTime page n)
     = dashboardData page
  /\ dataLoading (loadedPage json rng storage currentTime page n) = true
  /\ error (loadedPage json rng storage currentTime page n) = None
  /\ render (loadedPage json rng storage currentTime page n) = Spinner.
Proof.
  intros (Htok & Htt & Hut & [u Hu]) Hloaded Hbad.
  unfold loadCommands, loadedPage, loadEffect.
  rewrite Htok, Htt, Hut, Hu, Hloaded. cbn [negb orb default].
  destruct Hbad as [Hbad | [Hbad | Hbad]]; rewrite Hbad;
    rewrite ?andb_false_r; cbn [andb negb];
    repeat case_match; cbn [bind ret]; split_runs; cbn; auto.
Qed.

Lemma unusable_cache_is_refetched_witness :
  In (GetDashboard "t0k3n")
    (loadCommands demoJson lowDraws
       (<["lastFetchTime" := "yesterday"]> cachedStorage) 1000001
       initialPage 0%nat)
  /\ dashboardData
       (loadedPage demoJson lowDraws
          (<["lastFetchTime" := "yesterday"]> cachedStorage) 1000001
          initialPage 0%nat)
     = dashboardData initialPage
  /\ dataLoading
       (loadedPage demoJson lowDraws
          (<["lastFetchTime" := "yesterday"]> cachedStorage) 1000001
          initialPage 0%nat) = true
  /\ error
       (loadedPage demoJson lowDraws
          (<["lastFetchTime" := "yesterday"]> cachedStorage) 1000001
          initialPage 0%nat) = None
  /\ render
       (loadedPage demoJson lowDraws
          (<["lastFetchTime" := "yesterday"]> cachedStorage) 1000001
          initialPage 0%nat) = Spinner.
Proof.
  apply unusable_cache_is_refetched.
  - repeat split; try reflexivity. exists someUser. reflexivity.
  - reflexivity.
  - right. left. reflexivity.
Defined.

(** *** From the request to the next visit *)

Lemma fromCache_formatted (rng rng' : nat -> Q) (data : DashboardDataType)
    (n n' : nat) :
  validDraws rng ->
  Forall Named (default [] (stores data)) ->
  fromCache rng' (formatted rng data n) n' = formatted rng data n.
Proof.
  intros Hrng Hnamed.
  set (sts := default [] (stores data)) in *.
  unfold formatted, validated. cbn [bind ret]. fold sts.
  pose proof (PriceLaws.second_pass_is_identity rng
                (default [] (pantryItems data)) sts n Hrng Hnamed) as T1.
  destruct (ensureValidPriceData rng (default [] (pantryItems data)) sts n)
    as [pantry n1].
  pose proof (PriceLaws.second_pass_is_identity rng
                (default [] (produceItems data)) sts n1 Hrng Hnamed) as T2.
  destruct (ensureValidPriceData rng (default [] (produceItems data)) sts n1)
    as [produce n2].
  pose proof (PriceLaws.second_pass_is_identity rng
                (default [] (buyAlerts data)) sts n2 Hrng Hnamed) as T3.
  destruct (ensureValidPriceData rng (default [] (buyAlerts data)) sts n2)
    as [alerts n3].
  cbn [fst] in T1, T2, T3 |- *.
  unfold fromCache, validated.
  cbn [bind ret stores pantryItems produceItems buyAlerts newsHighlights
       default from_option].
  rewrite T1, T2, T3. reflexivity.
Qed.

(** X10: what a successful dashboard request shows is what the next visit
    within the hour shows, without a dashboard request.  It holds for a
    signed-in visitor when the stored string parses back to the value
    that was written, the draws are in [0, 1) and no store is called
    "Unknown Store". *)
Theorem cached_dashboard_shown_again (json : Json) (rng rng' : nat -> Q)
    (data : DashboardDataType) (now later : Z) (page page' : Page)
    (storage : gmap string string) (token : string) (n n' : nat) :
  SignedIn json storage token ->
  validDraws rng ->
  Forall Named (default [] (stores data)) ->
  parseDashboard json (stringifyDashboard json (formatted rng data n))
  = Some (formatted rng data n) ->
  Js.truthy (Some (stringifyDashboard json (formatted rng data n))) = true ->
  dataLoaded page' = false ->
  later - now < 3600000 ->
  existsb isGetDashboard
    (loadCommands json rng'
       (settledStorage json rng (DOk data) now page storage n)
       later page' n') = false
  /\ dashboardData
       (loadedPage json rng'
          (settledStorage json rng (DOk data) now page storage n)
          later page' n')
     = dashboardData (settledPage json rng (DOk data) now page storage n).
Proof.
  intros (Htok & Htt & Hut & [u Hu]) Hrng Hnamed Hparse Htruthy Hloaded Hage.
  unfold settledStorage, settledPage.
  rewrite DashboardFacts.fetchDashboardData_ok. cbn [fst snd].
  set (written := formatted rng data n) in *.
  set (storage' :=
         <["lastFetchTime" := Js.toString now]>
           (<["dashboardData" := stringifyDashboard json written]> storage)).
  assert (forall key, key <> "lastFetchTime" -> key <> "dashboardData" ->
                      storage' !! key = storage !! key) as Hother.
  { intros key H1 H2. unfold storage'.
    rewrite !lookup_insert_ne by congruence. reflexivity. }
  assert (Session json storage' token written now) as Hsession.
  { destruct (storage !! "user") as [userData | ] eqn:Euser;
      [ | discriminate Hut].
    split.
    - rewrite Hother by discriminate. exact Htok.
    - exact Htt.
    - exists userData, u. rewrite Hother by discriminate. auto.
    - exists (stringifyDashboard json written). unfold storage'.
      rewrite lookup_insert_ne by discriminate.
      rewrite lookup_insert_eq. auto.
    - unfold storage'. apply lookup_insert_eq. }
  destruct (DashboardFacts.load_fresh json rng' storage' token written now
              later page' n' Hsession Hloaded Hage) as (Hnone & Hshown & _).
  split; [exact Hnone | ].
  rewrite Hshown. unfold written.
  rewrite (fromCache_formatted rng rng' data n n' Hrng Hnamed).
  reflexivity.
Qed.

(** Rice, Beans, Oats and Lentils with two stores: the request draws
    prices, ranges and stores for them; half an hour later, with other
    draws, the page shows the same values from the cache. *)
Lemma cached_dashboard_shown_again_witness :
  existsb isGetDashboard
    (loadCommands pantryJson lowDraws
       (settledStorage pantryJson midDraws (DOk pantryResponse) 1000000
          initialPage signedInStorage 0%nat)
       (1000000 + 1800000) initialPage 3%nat) = false
  /\ dashboardData
       (loadedPage pantryJson lowDraws
          (settledStorage pantryJson midDraws (DOk pantryResponse) 1000000
             initialPage signedInStorage 0%nat)
          (1000000 + 1800000) initialPage 3%nat)
     = dashboardData
         (settledPage pantryJson midDraws (DOk pantryResponse) 1000000
            initialPage signedInStorage 0%nat).
Proof.
  apply (cached_dashboard_shown_again pantryJson midDraws lowDraws
           pantryResponse 1000000 (1000000 + 1800000) initialPage
           initialPage signedInStorage "t0k3n" 0%nat 3%nat).
  - repeat split; try reflexivity. exists someUser. reflexivity.
  - intros k. split; [discriminate | reflexivity].
  - repeat constructor; discriminate.
  - reflexivity.
  - reflexivity.
  - reflexivity.
  - cbn. lia.
Defined.

(** *** The shopping list *)

(** X11: [removeFromList] filters the list of the render whose handler was
    called, whatever the page holds when the response arrives, and stores
    what it shows.  Two removals in turn remove both items.  Two
    overlapping removals, started from the same render, end with the
    list of the second one: the item that the first removal took away is
    shown and stored again, although the server has removed it. *)
Theorem removeFromList_removes (json : Json) (a b : string)
    (shown : list ProductType) (page : Page)
    (storage : gmap string string) :
  (forall item,
      item ∈ myList (fst (removeFromList_settled json a shown page storage))
      <-> item ∈ shown /\ id item <> a)
  /\ (forall item,
        item ∈ myList (fst (removedInTurn json a b shown page storage))
        <-> item ∈ shown /\ id item <> a /\ id item <> b)
  /\ (forall item,
        item ∈ myList (fst (removedOverlapping json a b shown page storage))
        <-> item ∈ shown /\ id item <> b)
  /\ (a <> b ->
      forall item, item ∈ shown -> id item = a ->
        item ∈ myList (fst (removedOverlapping json a b shown page storage))
        /\ item ∉ myList (fst (removedInTurn json a b shown page storage)))
  /\ snd (removedOverlapping json a b shown page storage) !! "myList"
     = Some (stringifyList json
               (myList (fst (removedOverlapping json a b shown page
                               storage))))
  /\ snd (removedInTurn json a b shown page storage) !! "myList"
     = Some (stringifyList json
               (myList (fst (removedInTurn json a b shown page storage))))
  /\ (forall key, key <> "myList" ->
        snd (removedOverlapping json a b shown page storage) !! key
        = storage !! key)
  /\ dashboardData (fst (removedOverlapping json a b shown page storage))
     = dashboardData page.
Proof.
  unfold removedInTurn, removedOverlapping, removeFromList_settled.
  cbn [fst snd myList setMyList dashboardData].
  assert (forall item,
             item ∈ filter (fun item => id item <> b)
                      (filter (fun item => id item <> a) shown)
             <-> item ∈ shown /\ id item <> a /\ id item <> b) as Hturn.
  { intros item. rewrite !list_elem_of_filter. tauto. }
  split; [ | split; [ | split; [ | split; [ | split; [ | split;
    [ | split]]]]]].
  - intros item. rewrite list_elem_of_filter. tauto.
  - exact Hturn.
  - intros item. rewrite list_elem_of_filter. tauto.
  - intros Hab item Hin Hid. split.
    + rewrite list_elem_of_filter. split; [congruence | exact Hin].
    + rewrite Hturn. tauto.
  - apply lookup_insert_eq.
  - apply lookup_insert_eq.
  - intros key Hkey. rewrite !lookup_insert_ne by congruence. reflexivity.
  - reflexivity.
Qed.

(** With Rice, Beans and Oats on the list, Rice and Beans are removed
    before either response has arrived: Rice is back on the list. *)
Lemma removeFromList_removes_witness :
  unpriced
    ∈ myList (fst (removedOverlapping demoJson "p1" "p2"
                     [ unpriced; zeroPriced; complete ] initialPage ∅))
  /\ unpriced
       ∉ myList (fst (removedInTurn demoJson "p1" "p2"
                        [ unpriced; zeroPriced; complete ] initialPage ∅)).
Proof.
  destruct (removeFromList_removes demoJson "p1" "p2"
              [ unpriced; zeroPriced; complete ] initialPage ∅)
    as (_ & _ & _ & H & _).
  apply H.
  - discriminate.
  - apply list_elem_of_here.
  - reflexivity.
Defined.

(** *** Trying again *)

(** X12: after a failed dashboard request the page is not marked as loaded,
    so the next run of the loading effect (the "Try again" button bumps
    [retryCount]) starts the request again when the cache cannot serve:
    the error is cleared and the loading state is shown. *)
Theorem retry_after_failure (json : Json) (rng : nat -> Q)
    (r : DashboardResponse) (msg : string) (storage : gmap string string)
    (token : string) (failedAt retriedAt : Z) (page : Page) (n n' : nat) :
  SignedIn json storage token ->
  dataLoaded page = false ->
  failureMessage r = Some msg ->
  Unusable json storage retriedAt ->
  In (GetDashboard token)
    (loadCommands json rng storage retriedAt
       (settledPage json rng r failedAt page storage n) n')
  /\ error
       (loadedPage json rng storage retriedAt
          (settledPage json rng r failedAt page storage n) n') = None
  /\ render
       (loadedPage json rng storage retriedAt
          (settledPage json rng r failedAt page storage n) n') = Spinner.
Proof.
  intros Hin Hloaded Hmsg Hbad.
  assert (dataLoaded (settledPage json rng r failedAt page storage n)
          = false) as Hl.
  { rewrite <- Hloaded.
    destruct r; try discriminate Hmsg; reflexivity. }
  destruct (load_refetches json rng storage token retriedAt
              (settledPage json rng r failedAt page storage n) n'
              Hin Hl Hbad) as (Hcmd & _ & _ & Herr & Hspin).
  auto.
Qed.

Lemma retry_after_failure_witness :
  In (GetDashboard "t0k3n")
    (loadCommands demoJson lowDraws
       (<["lastFetchTime" := "yesterday"]> cachedStorage) 1000002
       (settledPage demoJson lowDraws (DHttpError None) 1000001 initialPage
          (<["lastFetchTime" := "yesterday"]> cachedStorage) 0%nat) 0%nat)
  /\ error
       (loadedPage demoJson lowDraws
          (<["lastFetchTime" := "yesterday"]> cachedStorage) 1000002
          (settledPage demoJson lowDraws (DHttpError None) 1000001
             initialPage
             (<["lastFetchTime" := "yesterday"]> cachedStorage) 0%nat)
          0%nat) = None
  /\ render
       (loadedPage demoJson lowDraws
          (<["lastFetchTime" := "yesterday"]> cachedStorage) 1000002
          (settledPage demoJson lowDraws (DHttpError None) 1000001
             initialPage
             (<["lastFetchTime" := "yesterday"]> cachedStorage) 0%nat)
          0%nat) = Spinner.
Proof.
  apply (retry_after_failure demoJson lowDraws (DHttpError None)
           "Failed to fetch dashboard data").
  - repeat split; try reflexivity. exists someUser. reflexivity.
  - reflexivity.
  - reflexivity.
  - right. left. reflexivity.
Defined.

(** *** Signed-in visitors *)

Lemma load_keeps_visitor (json : Json) (rng : nat -> Q)
    (storage : gmap string string) (token : string) (parsedUser : UserType)
    (currentTime : Z) (page : Page) (n : nat) :
  storage !! "token" = Some token ->
  token <> EmptyString ->
  Js.truthy (storage !! "user") = true ->
  storage !! "user" ≫= parseUser json = Some parsedUser ->
  user (loadedPage json rng storage currentTime page n) = Some parsedUser
  /\ loading (loadedPage json rng storage currentTime page n) = false
  /\ (forall c, In c (loadCommands json rng storage currentTime page n) ->
                c = GetDashboard token \/ c = GetMyList token).
Proof.
  intros Htok Hne Hut Hu.
  assert (Js.truthy (Some token) = true) as Htt
    by (destruct token; [destruct Hne; reflexivity | reflexivity]).
  unfold loadCommands, loadedPage, loadEffect.
  rewrite Htok, Htt, Hut, Hu. cbn [negb orb default].
  repeat case_match; cbn [bind ret]; split_runs; cbn; split_runs; cbn;
    (split; [reflexivity | split; [reflexivity | ]]);
    intros c Hc; intuition auto.
Qed.

(** X13: with a non-empty token and a user entry that parses in the
    storage, the loading effect never leaves the dashboard, at any time
    and whatever the cache holds: it shows the parsed user, ends the
    full-screen loading state, and the only things it starts are the
    dashboard request and the list request, both with the stored
    token. *)
Theorem signed_in_visitor_stays (json : Json) (rng : nat -> Q)
    (storage : gmap string string) (token : string) (parsedUser : UserType)
    (currentTime : Z) (page : Page) (n : nat) :
  storage !! "token" = Some token ->
  token <> EmptyString ->
  Js.truthy (storage !! "user") = true ->
  storage !! "user" ≫= parseUser json = Some parsedUser ->
  user (loadedPage json rng storage currentTime page n) = Some parsedUser
  /\ loading (loadedPage json rng storage currentTime page n) = false
  /\ (forall c, In c (loadCommands json rng storage currentTime page n) ->
                c = GetDashboard token \/ c = GetMyList token).
Proof.
  intros Htok Hne Hut Hu.
  assert (Js.truthy (Some token) = true) as Htt
    by (destruct token; [destruct Hne; reflexivity | reflexivity]).
  unfold loadCommands, loadedPage, loadEffect.
  rewrite Htok, Htt, Hut, Hu. cbn [negb orb default].
  repeat case_match; cbn [bind ret]; split_runs; cbn; split_runs; cbn;
    (split; [reflexivity | split; [reflexivity | ]]);
    intros c Hc; intuition auto.
Qed.

Lemma signed_in_visitor_stays_witness :
  user (loadedPage demoJson lowDraws cachedStorage 9000000 initialPage 0%nat)
  = Some someUser
  /\ loading
       (loadedPage demoJson lowDraws cachedStorage 9000000 initialPage 0%nat)
     = false
  /\ (forall c,
        In c (loadCommands demoJson lowDraws cachedStorage 9000000
                initialPage 0%nat) ->
        c = GetDashboard "t0k3n" \/ c = GetMyList "t0k3n").
Proof.
  apply (signed_in_visitor_stays demoJson lowDraws cachedStorage "t0k3n"
           someUser 9000000 initialPage 0%nat).
  - reflexivity.
  - discriminate.
  - reflexivity.
  - reflexivity.
Defined.

(** *** The shopping list from the cache *)

(** X14: the list that a successful list request shows is the list that
    the next load shows from the cache, without a list request, as long
    as the stored timestamp of the dashboard is less than an hour old.
    It holds for a signed-in visitor when the stored string parses back
    to the list that was written, the draws are in [0, 1) and no store is
    called "Unknown Store": the second pass of [ensureValidPriceData],
    with the five default stores, changes nothing. *)
Theorem cached_list_shown_again (json : Json) (rng rng' : nat -> Q)
    (items : option (list ProductType)) (closureStores : list StoreType)
    (later : Z) (page page' : Page) (storage : gmap string string)
    (token : string) (n n' : nat) :
  SignedIn json storage token ->
  validDraws rng ->
  Forall Named closureStores ->
  parseList json (stringifyList json (listedItems rng items closureStores n))
  = Some (listedItems rng items closureStores n) ->
  Js.truthy (Some (stringifyList json
                     (listedItems rng items closureStores n))) = true ->
  isMyListLoading page' = false ->
  isCacheValid (storage !! "lastFetchTime") later = true ->
  existsb isGetMyList
    (loadCommands json rng'
       (listStorage json rng items closureStores page storage n)
       later page' n') = false
  /\ myList
       (loadedPage json rng'
          (listStorage json rng items closureStores page storage n)
          later page' n')
     = listedItems rng items closureStores n.
Proof.
  intros (Htok & Htt & Hut & [u Hu]) Hrng Hnamed Hparse Htruthy Hidle Hfresh.
  pose proof (PriceLaws.second_pass_is_identity rng (default [] items)
                closureStores n Hrng Hnamed rng') as Hsame.
  unfold listStorage, fetchMyList_settled.
  unfold listedItems in *. cbn [bind ret].
  destruct (ensureValidPriceData rng (default [] items) closureStores n)
    as [validatedItems n1].
  cbn [bind ret fst snd] in *.
  unfold loadCommands, loadedPage, loadEffect.
  rewrite !lookup_insert_eq.
  rewrite !lookup_insert_ne by discriminate.
  rewrite Htok, Htt, Hut, Hu, Hidle, Hfresh, Htruthy.
  cbn [negb orb andb default mbind option_bind]. rewrite Hparse.
  cbn [bind ret].
  repeat case_match; cbn [bind ret];
    repeat first
      [ rewrite Hsame
      | match goal with
        | |- context [ validated ?r ?d ?k ] =>
            destruct (validated r d k) as [[[? ?] ?] ?]
        end ];
    cbn [bind ret fetchDashboardData] in *;
    repeat match goal with
      | H : ensureValidPriceData rng' validatedItems _ _ = _ |- _ =>
          rewrite Hsame in H
      | H : context [ validated ?r ?d ?k ] |- _ =>
          destruct (validated r d k) as [[[? ?] ?] ?]
      end;
    unfold ret in *; simplify_eq; cbn; auto.
Qed.

(** Rice, Beans and Oats on the list, validated with two stores by the
    list request; a later load, with other draws and the five default
    stores, shows the same list from the cache. *)
Lemma cached_list_shown_again_witness :
  existsb isGetMyList
    (loadCommands listJson lowDraws
       (listStorage listJson midDraws
          (Some [ unpriced; zeroPriced; complete ]) twoStores initialPage
          cachedStorage 0%nat)
       (1000000 + 60000) initialPage 2%nat) = false
  /\ myList
       (loadedPage listJson lowDraws
          (listStorage listJson midDraws
             (Some [ unpriced; zeroPriced; complete ]) twoStores initialPage
             cachedStorage 0%nat)
          (1000000 + 60000) initialPage 2%nat)
     = listedItems midDraws (Some [ unpriced; zeroPriced; complete ])
         twoStores 0%nat.
Proof.
  apply (cached_list_shown_again listJson midDraws lowDraws
           (Some [ unpriced; zeroPriced; complete ]) twoStores
           (1000000 + 60000) initialPage initialPage cachedStorage "t0k3n"
           0%nat 2%nat).
  - repeat split; try reflexivity. exists someUser. reflexivity.
  - intros k. split; [discriminate | reflexivity].
  - repeat constructor; discriminate.
  - reflexivity.
  - reflexivity.
  - reflexivity.
  - reflexivity.
Defined.

(** The list of that witness, as the request and the later load show
    it. *)
Example listed_items_shown :
  map readStore
    (listedItems midDraws (Some [ unpriced; zeroPriced; complete ])
       twoStores 0%nat)
  = [ Some "MegaMart"; Some "MegaMart"; Some "Aldi" ]
  /\ map (fun p => lowestPrice p ≫= price)
       (listedItems midDraws (Some [ unpriced; zeroPriced; complete ])
          twoStores 0%nat)
     = [ Some (600 # 100)%Q; Some (600 # 100)%Q; Some (3 # 2)%Q ].
Proof. split; reflexivity. Qed.

(** *** The one-hour window *)






(** In that witness the page shows the cached value itself. *)
Example pantry_shown_as_cached :
  dashboardData
    (loadedPage pantryJson lowDraws pantryStorage (1000000 + 1800000)
       initialPage 0%nat)
  = Some pantryWritten.
Proof. vm_compute. reflexivity. Qed.

End DashboardLaws.
(* ===================================================================== *)
(** ** More on the pollers                                                *)
(* ===================================================================== *)

Module PollLaws.

Import Poll PollNotions.

Lemma status_tests (data : StatusBody) (s t : string) :
  status data = Some s -> s <> t -> statusIs data t = false.
Proof.
  intros Hs Hne. unfold statusIs. apply bool_decide_eq_false_2.
  rewrite Hs. congruence.
Qed.

Lemma status_test (data : StatusBody) (s : string) :
  status data = Some s -> statusIs data s = true.
Proof. intros Hs. unfold statusIs. apply bool_decide_eq_true_2, Hs. Qed.

(** *** A job that stays pending *)

Lemma pending_schedules_next (site : Site) (data : StatusBody) :
  In site timeoutSites ->
  status data = Some "pending" -> progressDone data = false ->
  scheduled (onResponse site (Body true data)) = 1%nat.
Proof.
  intros Hs Hp Hprog.
  pose proof (status_test data _ Hp) as Epending.
  pose proof (status_tests data _ "completed" Hp ltac:(discriminate)) as Ec.
  pose proof (status_tests data _ "failed" Hp ltac:(discriminate)) as Ef.
  cbn in Hs. destruct Hs as [<- | [<- | [<- | []]]]; cbn;
    rewrite ?Ec, ?Ef, ?Epending, ?Hprog; reflexivity.
Qed.

Lemma pendingRounds_run (site : Site) (data : StatusBody) (k : nat) :
  In site timeoutSites ->
  status data = Some "pending" -> progressDone data = false ->
  forall s, inflight s = 1%nat -> timers s = 0%nat ->
  exists s',
    run site s (pendingRounds data k) = Some s'
    /\ requests s' = (requests s + k)%nat
    /\ inflight s' = 1%nat /\ timers s' = 0%nat.
Proof.
  intros Hs Hp Hprog.
  pose proof (pending_schedules_next site data Hs Hp Hprog) as Hnext.
  induction k as [ | k IH]; intros s Hf Ht.
  - exists s. cbn. auto with arith.
  - destruct s as [m i t f q p]. cbn in Hf, Ht. subst f t.
    cbn [pendingRounds run step inflight timers perform issueRequest
         mounted interval requests performed].
    rewrite Hnext. cbn [Nat.add].
    cbn [run step timers issueRequest mounted interval inflight requests
         performed].
    edestruct IH as (s' & Hrun & Hreq & Hf' & Ht');
      [ | | exists s'; split; [exact Hrun | ]]; cbn; try reflexivity.
    cbn in Hreq. split; [lia | auto].
Qed.

Lemma pendingTicks_run (data : StatusBody) (k : nat) :
  status data = Some "pending" ->
  forall s, interval s = true ->
  exists s',
    run signupStatus s (pendingTicks data k) = Some s'
    /\ requests s' = (requests s + k)%nat
    /\ inflight s' = inflight s /\ interval s' = true.
Proof.
  intros Hp.
  pose proof (status_tests data _ "completed" Hp ltac:(discriminate)) as Ec.
  pose proof (status_tests data _ "failed" Hp ltac:(discriminate)) as Ef.
  induction k as [ | k IH]; intros s Hi.
  - exists s. cbn. auto with arith.
  - destruct s as [m i t f q p]. cbn in Hi. subst i.
    cbn [pendingTicks run step interval issueRequest inflight mounted
         timers requests performed perform onResponse signupStatus
         statusCheckInterval].
    rewrite Ec, Ef. cbn [clears existsb negb andb scheduled List.filter
                         length Nat.add].
    edestruct IH as (s' & Hrun & Hreq & Hf' & Hi');
      [ | exists s'; split; [exact Hrun | ]]; cbn; try reflexivity.
    cbn in Hreq, Hf'. split; [lia | auto].
Qed.

(** X15: no poller ever gives up on a pending job.  After [k] answers
    "pending" (with a progress below 100) a timeout poller has issued
    [k + 1] requests and waits for the next answer; after [k] ticks
    answered "pending" the interval poller has issued [k] requests and
    its interval is still armed. *)
Theorem pending_job_is_polled_forever (data : StatusBody) (k : nat) :
  status data = Some "pending" -> progressDone data = false ->
  (forall site, In site timeoutSites ->
     exists s, run site (arm site) (pendingRounds data k) = Some s
               /\ requests s = S k /\ inflight s = 1%nat)
  /\ (exists s, run signupStatus (arm signupStatus) (pendingTicks data k)
                = Some s
                /\ requests s = k /\ interval s = true).
Proof.
  intros Hp Hprog. split.
  - intros site Hs.
    destruct (pendingRounds_run site data k Hs Hp Hprog (arm site))
      as (s & Hrun & Hreq & Hf & _).
    + cbn in Hs. destruct Hs as [<- | [<- | [<- | []]]]; reflexivity.
    + cbn in Hs. destruct Hs as [<- | [<- | [<- | []]]]; reflexivity.
    + exists s. repeat split; try assumption.
      rewrite Hreq.
      cbn in Hs. destruct Hs as [<- | [<- | [<- | []]]]; reflexivity.
  - destruct (pendingTicks_run data k Hp (arm signupStatus) eq_refl)
      as (s & Hrun & Hreq & _ & Hi).
    exists s. repeat split; assumption.
Qed.

Lemma pending_job_is_polled_forever_witness :
  (forall site, In site timeoutSites ->
     exists s, run site (arm site) (pendingRounds pendingBody 50) = Some s
               /\ requests s = 51%nat /\ inflight s = 1%nat)
  /\ (exists s, run signupStatus (arm signupStatus)
                  (pendingTicks pendingBody 50) = Some s
                /\ requests s = 50%nat /\ interval s = true).
Proof.
  apply (pending_job_is_polled_forever pendingBody 50); reflexivity.
Defined.

(** *** Going on, or letting the user go *)

Ltac all_sites H :=
  cbn in H;
  repeat match type of H with
         | _ \/ _ => destruct H as [H | H]
         end;
  try contradiction; subst.

Ltac response_cases r :=
  destruct r as [ | [] | [] | [] ?data ]; cbn;
  repeat match goal with
         | |- context [ statusIs ?d ?s ] => destruct (statusIs d s) eqn:?
         | |- context [ progressDone ?d ] => destruct (progressDone d) eqn:?
         end; cbn.

(** X16: whatever the answer to a status check, every handler does exactly
    one of two things: it keeps the poller going (a timeout poller sets
    its next timer, the interval poller leaves its interval armed), or it
    lets the user out of the waiting screen (the login form comes back,
    or the page goes to the login route, at once or by a timer).  No
    answer stops the polling and leaves the user waiting, and none
    releases the user while the polling goes on. *)
Theorem every_answer_continues_or_releases (site : Site) (r : Response) :
  In site allSites ->
  continues site (onResponse site r) = negb (releases (onResponse site r)).
Proof.
  intros Hs. all_sites Hs; response_cases r; reflexivity.
Qed.

Lemma every_answer_continues_or_releases_witness :
  continues signupDataLoading (onResponse signupDataLoading (NotJson true))
  = negb (releases (onResponse signupDataLoading (NotJson true))).
Proof.
  apply every_answer_continues_or_releases. cbn. auto.
Defined.

(** *** The two versions of the login poll *)

(** X17: the [checkDataFetchStatus] of [LoginContent] does what the first
    version does, with a delay of 5000 ms instead of 3000 ms, except on a
    non-2xx response whose body can be read: there the first version
    throws before it reads the body and keeps "pendingLoginEmail", while
    [LoginContent] falls to its last branch and removes the entry. *)
Theorem login_versions_agree (r : Response) :
  (failedWithBody r = false ->
   checkDataFetchStatus r = retimed 5000 (checkDataFetchStatus_v1 r))
  /\ (failedWithBody r = true ->
      checkDataFetchStatus_v1 r = checkDataFetchStatus_catch
      /\ checkDataFetchStatus r = checkDataFetchStatus_else).
Proof.
  split; intros Hr.
  - destruct r as [ | ok | [] | [] data]; try discriminate Hr;
      try reflexivity.
    cbn. destruct (statusIs data "completed"); [reflexivity | ].
    destruct (statusIs data "pending"); reflexivity.
  - destruct r as [ | ok | [] | [] data]; try discriminate Hr.
    + split; reflexivity.
    + split; [reflexivity | ].
      cbn. reflexivity.
Qed.

Lemma login_versions_agree_witness :
  checkDataFetchStatus (Body true pendingBody)
  = retimed 5000 (checkDataFetchStatus_v1 (Body true pendingBody))
  /\ checkDataFetchStatus_v1 (Body false pendingBody)
     = checkDataFetchStatus_catch
  /\ checkDataFetchStatus (Body false pendingBody)
     = checkDataFetchStatus_else.
Proof.
  split.
  - apply (proj1 (login_versions_agree (Body true pendingBody))).
    reflexivity.
  - apply (proj2 (login_versions_agree (Body false pendingBody))).
    reflexivity.
Defined.

(** *** One verdict *)

Import PollTimers.

Lemma handler_shape (site : Site) (r : Response) :
  In site timeoutSites ->
  scheduled (onResponse site r) = 1%nat
  /\ delayedBy (onResponse site r) = []
  \/ scheduled (onResponse site r) = 0%nat
     /\ (length (delayedBy (onResponse site r)) <= 1)%nat
     /\ Forall Quiet (delayedBy (onResponse site r)).
Proof.
  intros Hs. all_sites Hs; response_cases r;
    first [ left; split; reflexivity
          | right; split; [reflexivity | split; [lia | ]];
            repeat constructor ].
Qed.

Lemma cleanup_arms_nothing (site : Site) :
  In site timeoutSites -> cleanup site = [].
Proof. intros Hs. all_sites Hs; reflexivity. Qed.

Lemma tidy_arm (site : Site) : In site timeoutSites -> Tidy (armT site).
Proof.
  intros Hs. all_sites Hs; (split; [reflexivity | left; split; reflexivity]).
Qed.

Lemma one_delayed (l : list (list Effect)) (i : nat)
    (callback : list Effect) :
  (length l <= 1)%nat -> nth_error l i = Some callback ->
  l = [ callback ] /\ i = 0%nat.
Proof.
  intros Hlen Hnth.
  destruct l as [ | first [ | second more]]; cbn in Hlen; try lia.
  - destruct i; discriminate Hnth.
  - destruct i as [ | [ | j]]; cbn in Hnth; try discriminate Hnth.
    injection Hnth as ->. auto.
Qed.

Lemma tidy_step (site : Site) (s s' : Timed) (e : TimedEvent) :
  In site timeoutSites -> Tidy s -> stepT site s e = Some s' -> Tidy s'.
Proof.
  intros Hs [Hi Hshape] Hstep.
  destruct s as [[m i t f q p] d]. cbn in Hi, Hshape. subst i.
  destruct e as [[ | | r | ] | j]; cbn in Hstep.
  - destruct t as [ | k]; [discriminate | ]. injection Hstep as <-.
    destruct Hshape as [[Hone ->] | (Ht & _)]; [ | discriminate Ht].
    split; [reflexivity | left]. cbn. split; [lia | reflexivity].
  - discriminate.
  - destruct f as [ | k]; [discriminate | ]. injection Hstep as <-.
    destruct Hshape as [[Hone ->] | (_ & Hf & _)]; [ | discriminate Hf].
    assert (t = 0%nat /\ k = 0%nat) as [-> ->] by lia.
    split; [reflexivity | ]. cbn.
    destruct (handler_shape site r Hs) as [[-> ->] | (-> & Hlen & Hq)].
    + left. split; reflexivity.
    + right. repeat split; assumption.
  - destruct m; [ | discriminate]. injection Hstep as <-.
    rewrite (cleanup_arms_nothing site Hs).
    split; [reflexivity | ]. cbn.
    rewrite ?app_nil_r, ?Nat.add_0_r. exact Hshape.
  - destruct (nth_error d j) as [callback | ] eqn:Hnth; [ | discriminate].
    injection Hstep as <-.
    destruct Hshape as [[_ ->] | (-> & -> & Hlen & Hq)];
      [destruct j; discriminate Hnth | ].
    destruct (one_delayed d j callback Hlen Hnth) as [-> ->].
    apply Forall_cons_1 in Hq as [[Hsched Hnone] _].
    split; [reflexivity | right]. cbn.
    rewrite Hsched, Hnone. repeat split; auto.
Qed.

Lemma tidy_run (site : Site) (events : list TimedEvent) :
  In site timeoutSites ->
  forall s s', Tidy s -> runT site s events = Some s' -> Tidy s'.
Proof.
  intros Hs. induction events as [ | e more IH]; intros s s' Ht Hrun.
  - injection Hrun as <-. exact Ht.
  - cbn in Hrun.
    destruct (stepT site s e) as [s1 | ] eqn:E; [ | discriminate].
    exact (IH s1 s' (tidy_step site s s1 e Hs Ht E) Hrun).
Qed.

Lemma verdict_step (site : Site) (armed : list (list Effect))
    (count : nat) (done : list Effect) (s s' : Timed) (e : TimedEvent) :
  In site timeoutSites ->
  (length armed <= 1)%nat -> Forall Quiet armed ->
  Verdict armed count done s -> stepT site s e = Some s' ->
  Verdict armed count done s'.
Proof.
  intros Hs Hlen Hq (Hi & Ht & Hf & Hcount & Hdone) Hstep.
  destruct s as [[m i t f q p] d]. cbn in Hi, Ht, Hf, Hcount, Hdone.
  subst i t f q.
  destruct e as [[ | | r | ] | j]; cbn in Hstep; try discriminate.
  - destruct m; [ | discriminate]. injection Hstep as <-.
    rewrite (cleanup_arms_nothing site Hs).
    unfold Verdict. cbn. rewrite ?app_nil_r.
    repeat split; try reflexivity. exact Hdone.
  - destruct (nth_error d j) as [callback | ] eqn:Hnth; [ | discriminate].
    injection Hstep as <-.
    destruct Hdone as [[-> ->] | (cb & m' & _ & -> & _)];
      [ | destruct j; discriminate Hnth].
    destruct (one_delayed armed j callback Hlen Hnth) as [-> ->].
    apply Forall_cons_1 in Hq as [[Hsched Hnone] _].
    unfold Verdict. cbn. rewrite Hsched, Hnone.
    repeat split; try reflexivity.
    right. exists callback, m. repeat split; reflexivity.
Qed.

Lemma verdict_run (site : Site) (armed : list (list Effect))
    (count : nat) (done : list Effect) (events : list TimedEvent) :
  In site timeoutSites ->
  (length armed <= 1)%nat -> Forall Quiet armed ->
  forall s s',
    Verdict armed count done s -> runT site s events = Some s' ->
    Verdict armed count done s'.
Proof.
  intros Hs Hlen Hq. induction events as [ | e more IH]; intros s s' Hv Hrun.
  - injection Hrun as <-. exact Hv.
  - cbn in Hrun.
    destruct (stepT site s e) as [s1 | ] eqn:E; [ | discriminate].
    exact (IH s1 s' (verdict_step site armed count done s s1 e Hs Hlen Hq
                       Hv E) Hrun).
Qed.

(** X18: a timeout poller gives one verdict.  Once a handler has set no
    timer for a next check, no later event issues a request: not a timer,
    not a response, not the unmounting, not a delayed callback.  What is
    still done after the verdict can only be the delayed callback that
    the verdict itself has armed (the redirection to the login page five
    seconds after a failed check of the signup page), and it is done at
    most once, also after the component has unmounted. *)
Theorem verdict_is_final (site : Site) (s s1 s2 : Timed) (r : Response)
    (events : list TimedEvent) :
  In site timeoutSites -> ReachableT site s ->
  scheduled (onResponse site r) = 0%nat ->
  stepT site s (Plain (Settle r)) = Some s1 ->
  runT site s1 events = Some s2 ->
  requests (poller s2) = requests (poller s1)
  /\ delayed s1 = delayedBy (onResponse site r)
  /\ (performed (poller s2) = performed (poller s1)
      /\ delayed s2 = delayed s1
      \/ exists callback m,
           delayed s1 = [ callback ] /\ delayed s2 = []
           /\ performed (poller s2)
              = (performed (poller s1) ++ effective m callback)%list).
Proof.
  intros Hs [history Hreach] Hsched Hstep Hrun.
  pose proof (tidy_run site history Hs _ _ (tidy_arm site Hs) Hreach)
    as [Hi Hshape].
  destruct s as [[m i t f q p] d]. cbn in Hi, Hshape. subst i.
  cbn in Hstep. destruct f as [ | k]; [discriminate | ].
  injection Hstep as <-.
  destruct Hshape as [[Hone ->] | (_ & Hf & _)]; [ | discriminate Hf].
  assert (t = 0%nat /\ k = 0%nat) as [-> ->] by lia.
  destruct (handler_shape site r Hs) as [[H1 _] | (_ & Hlen & Hq)];
    [rewrite Hsched in H1; discriminate H1 | ].
  assert (Verdict (delayedBy (onResponse site r)) q
            (p ++ effective m (onResponse site r))%list
            {| poller :=
                 perform (onResponse site r)
                   {| mounted := m; interval := false; timers := 0;
                      inflight := 0; requests := q; performed := p |};
               delayed := ([] ++ delayedBy (onResponse site r))%list |})
    as Hv.
  { unfold Verdict. cbn. rewrite Hsched. repeat split; auto. }
  destruct (verdict_run site _ _ _ events Hs Hlen Hq _ _ Hv Hrun)
    as (_ & _ & _ & Hcount & Hdone).
  cbn [poller delayed perform requests performed mounted app] in *.
  split; [exact Hcount | ].
  split; [reflexivity | exact Hdone].
Qed.

(** The status check of the signup page fails, the component unmounts,
    five seconds pass: the page goes to the login route, once. *)
Example late_redirect_runs :
  runT signupDataLoading (armT signupDataLoading)
    [ Plain (Settle NetworkError); Plain Unmount; LaterFires 0 ]
  = Some releasedSignup
  /\ runT signupDataLoading (armT signupDataLoading)
       [ Plain (Settle NetworkError); LaterFires 0; LaterFires 0 ]
     = None.
Proof. split; reflexivity. Qed.

Lemma verdict_is_final_witness :
  requests (poller releasedSignup) = requests (poller caughtSignup)
  /\ delayed caughtSignup
     = delayedBy (onResponse signupDataLoading NetworkError)
  /\ (performed (poller releasedSignup) = performed (poller caughtSignup)
      /\ delayed releasedSignup = delayed caughtSignup
      \/ exists callback m,
           delayed caughtSignup = [ callback ]
           /\ delayed releasedSignup = []
           /\ performed (poller releasedSignup)
              = (performed (poller caughtSignup)
                 ++ effective m callback)%list).
Proof.
  apply (verdict_is_final signupDataLoading (armT signupDataLoading)
           caughtSignup releasedSignup NetworkError
           [ Plain Unmount; LaterFires 0 ]).
  - cbn. auto.
  - exists []. reflexivity.
  - reflexivity.
  - reflexivity.
  - reflexivity.
Defined.

End PollLaws.
(* ===================================================================== *)
(** ** Login page                                                         *)
(* ===================================================================== *)

Module LoginLaws.

Import JsString Login.

Lemma validateForm_valid (form : FormData) :
  fst (validateForm form) = true ->
  includes (email form) "@" = true /\ includes (email form) "." = true
  /\ password form <> EmptyString
  /\ snd (validateForm form) = errors initialState.
Proof.
  unfold validateForm. cbn [fst snd].
  destruct (includes (email form) "@"); [ | discriminate].
  destruct (includes (email form) "."); [ | discriminate].
  destruct (password form) as [ | c rest]; [discriminate | ].
  cbn. intros _. repeat split; auto; discriminate.
Qed.

Lemma validateForm_invalid (form : FormData) :
  fst (validateForm form) = false <->
  includes (email form) "@" = false \/ includes (email form) "." = false
  \/ password form = EmptyString.
Proof.
  unfold validateForm. cbn [fst].
  destruct (includes (email form) "@"), (includes (email form) "."),
    (password form) as [ | c rest]; cbn; intuition discriminate.
Qed.

(** X19: a form whose e-mail address lacks "@" or "." or whose password is
    empty is not submitted, in either version of the page: no request is
    sent, the storage is left as it is, the route does not change and the
    loading flag is not raised; and these are the only forms that send
    nothing. *)
Theorem invalid_form_sends_nothing (encodeURIComponent : string -> string)
    (ver : VerificationResponse) (resp : LoginResponse) (p : LoginState)
    (store : gmap string string) :
  (includes (email (formData p)) "@" = false
   \/ includes (email (formData p)) "." = false
   \/ password (formData p) = EmptyString
   <-> sent (handleSubmit resp p store) = [])
  /\ (sent (handleSubmit resp p store) = [] <->
      sent (handleSubmit_v1 encodeURIComponent ver resp p store) = [])
  /\ (sent (handleSubmit resp p store) = [] ->
      storage (handleSubmit resp p store) = store
      /\ pushed (handleSubmit resp p store) = None
      /\ isLoading (page (handleSubmit resp p store)) = isLoading p
      /\ handleSubmit_v1 encodeURIComponent ver resp p store
         = handleSubmit resp p store).
Proof.
  rewrite <- validateForm_invalid.
  unfold handleSubmit, handleSubmit_v1.
  destruct (validateForm (formData p)) as [valid newErrors]. cbn [fst].
  destruct valid; cbn [negb].
  - assert (forall before q, sent (login resp before q store) <> []) as Hne.
    { intros before q. destruct resp as [msg | [] result]; cbn;
        try destruct (bool_decide _); cbn;
        intros H; apply app_eq_nil in H; destruct H; discriminate. }
    split; [ | split].
    + split; [discriminate | ]. intros H. destruct (Hne _ _ H).
    + split; intros H; exfalso.
      * destruct (Hne _ _ H).
      * destruct (checkEmailVerification ver); cbn in H;
          [destruct (Hne _ _ H) | discriminate].
    + intros H. destruct (Hne _ _ H).
  - cbn. repeat split; auto.
Qed.

Lemma invalid_form_sends_nothing_witness :
  sent (handleSubmit (LBody true welcome) initialState ∅) = []
  /\ storage (handleSubmit (LBody true welcome) initialState ∅) = ∅
  /\ pushed (handleSubmit (LBody true welcome) initialState ∅) = None.
Proof.
  pose proof (invalid_form_sends_nothing id (VBody true true)
                (LBody true welcome) initialState ∅) as (H1 & _ & H3).
  assert (sent (handleSubmit (LBody true welcome) initialState ∅) = [])
    as Hsent by (apply H1; left; reflexivity).
  destruct (H3 Hsent) as (Hst & Hp & _).
  auto.
Defined.

(** X20: the verification check of the first version can only stop a login
    by a 2xx answer whose [verified] is falsy; then the page goes to the
    signup route with the address and sends no login request.  Every
    other outcome of the check (no response, a body that is not JSON, a
    [null] body, a non-2xx status) lets the login go on exactly as in
    [LoginContent], with the check as one more request before it. *)
Theorem verification_fails_open (encodeURIComponent : string -> string)
    (ver : VerificationResponse) (resp : LoginResponse) (p : LoginState)
    (store : gmap string string) :
  fst (validateForm (formData p)) = true ->
  (ver = VBody true false ->
   sent (handleSubmit_v1 encodeURIComponent ver resp p store)
   = [ CheckEmailVerification (email (formData p)) ]
   /\ storage (handleSubmit_v1 encodeURIComponent ver resp p store) = store
   /\ pushed (handleSubmit_v1 encodeURIComponent ver resp p store)
      = Some ("/signup?email=" ++ encodeURIComponent (email (formData p))
              ++ "&needsVerification=true")
   /\ isLoading (page (handleSubmit_v1 encodeURIComponent ver resp p store))
      = false)
  /\ (ver <> VBody true false ->
      sent (handleSubmit_v1 encodeURIComponent ver resp p store)
      = CheckEmailVerification (email (formData p))
        :: sent (handleSubmit resp p store)
      /\ storage (handleSubmit_v1 encodeURIComponent ver resp p store)
         = storage (handleSubmit resp p store)
      /\ pushed (handleSubmit_v1 encodeURIComponent ver resp p store)
         = pushed (handleSubmit resp p store)
      /\ page (handleSubmit_v1 encodeURIComponent ver resp p store)
         = page (handleSubmit resp p store)).
Proof.
  intros Hvalid. unfold handleSubmit, handleSubmit_v1.
  destruct (validateForm (formData p)) as [valid newErrors].
  cbn in Hvalid. subst valid. cbn [negb].
  split.
  - intros ->. cbn. auto.
  - intros Hver.
    assert (checkEmailVerification ver = true) as ->.
    { destruct ver as [ | ok | [] | [] []]; try reflexivity.
      destruct Hver. reflexivity. }
    cbn [negb].
    destruct resp as [msg | [] result]; cbn;
      try destruct (bool_decide _); cbn; auto.
Qed.

Lemma verification_fails_open_witness :
  sent (handleSubmit_v1 id (VNotJson false) (LBody true welcome) alicePage ∅)
  = CheckEmailVerification "alice@example.com"
    :: sent (handleSubmit (LBody true welcome) alicePage ∅)
  /\ pushed
       (handleSubmit_v1 id (VBody true false) (LBody true welcome)
          alicePage ∅)
     = Some "/signup?email=alice@example.com&needsVerification=true".
Proof.
  split.
  - apply (proj2 (verification_fails_open id (VNotJson false)
                    (LBody true welcome) alicePage ∅ eq_refl)).
    discriminate.
  - apply (proj1 (verification_fails_open id (VBody true false)
                    (LBody true welcome) alicePage ∅ eq_refl)).
    reflexivity.
Defined.

(** X21: [LoginContent] goes to the dashboard exactly when a valid form got
    a 2xx answer with a body; in every other case neither the token nor
    the user entry of the storage is written. *)
Theorem dashboard_only_after_success (resp : LoginResponse) (p : LoginState)
    (store : gmap string string) :
  (pushed (handleSubmit resp p store) = Some "/dashboard"
   <-> fst (validateForm (formData p)) = true
       /\ exists result, resp = LBody true result)
  /\ (pushed (handleSubmit resp p store) <> Some "/dashboard" ->
      pushed (handleSubmit resp p store) = None
      /\ storage (handleSubmit resp p store) !! "token" = store !! "token"
      /\ storage (handleSubmit resp p store) !! "user" = store !! "user").
Proof.
  unfold handleSubmit.
  destruct (validateForm (formData p)) as [valid newErrors]. cbn [fst].
  destruct valid; cbn [negb].
  - destruct resp as [msg | [] result]; cbn.
    + split; [ | auto].
      split; [discriminate | intros [_ [result Hr]]; discriminate].
    + split; [ | intros H; destruct H; reflexivity].
      split; [eauto | reflexivity].
    + destruct (bool_decide _); cbn.
      * split.
        -- split; [discriminate | intros [_ [r0 Hr]]; discriminate].
        -- intros _. repeat split.
           ++ rewrite lookup_insert_ne by discriminate. reflexivity.
           ++ rewrite lookup_insert_ne by discriminate. reflexivity.
      * split; [ | auto].
        split; [discriminate | intros [_ [r0 Hr]]; discriminate].
  - cbn. split; [ | auto].
    split; [discriminate | intros [H _]; discriminate].
Qed.

Lemma dashboard_only_after_success_witness :
  pushed (handleSubmit (LBody false stillPending) alicePage ∅) = None
  /\ storage (handleSubmit (LBody false stillPending) alicePage ∅) !! "token"
     = (∅ : gmap string string) !! "token"
  /\ storage (handleSubmit (LBody false stillPending) alicePage ∅) !! "user"
     = (∅ : gmap string string) !! "user".
Proof.
  apply (proj2 (dashboard_only_after_success (LBody false stillPending)
                  alicePage ∅)).
  discriminate.
Defined.

(** *** An account that is still being set up *)

Lemma includes_nonempty (s sub : string) :
  includes s sub = true -> sub <> EmptyString -> s <> EmptyString.
Proof.
  intros H Hsub ->. cbn in H. rewrite orb_false_r in H.
  destruct sub; [destruct Hsub; reflexivity | discriminate H].
Qed.

(** X22: when the login is refused because the account is still being set
    up, the page stores the address under "pendingLoginEmail", shows the
    waiting state and starts the status check; no token is written and
    the route does not change.  A later mount of the page with that
    storage takes the waiting up again: it puts the address back into the
    form, shows the waiting state and checks the status for the same
    address. *)
Theorem pending_login_is_resumed (result : LoginBody) (p : LoginState)
    (store : gmap string string) (urlMessage : option string) (q : LoginState) :
  fst (validateForm (formData p)) = true ->
  dataFetchStatus result = Some "pending" ->
  sent (handleSubmit (LBody false result) p store)
  = [ PostLogin (formData p); StatusByEmail (email (formData p)) ]
  /\ isCheckingStatus (page (handleSubmit (LBody false result) p store))
     = true
  /\ isLoading (page (handleSubmit (LBody false result) p store)) = false
  /\ pushed (handleSubmit (LBody false result) p store) = None
  /\ storage (handleSubmit (LBody false result) p store) !! "token"
     = store !! "token"
  /\ snd (mountEffect urlMessage
            (storage (handleSubmit (LBody false result) p store)) q)
     = [ StatusByEmail (email (formData p)) ]
  /\ isCheckingStatus
       (fst (mountEffect urlMessage
               (storage (handleSubmit (LBody false result) p store)) q))
     = true
  /\ email (formData
              (fst (mountEffect urlMessage
                      (storage (handleSubmit (LBody false result) p store))
                      q)))
     = email (formData p).
Proof.
  intros Hvalid Hpending.
  destruct (validateForm_valid _ Hvalid) as (Hat & _ & _ & _).
  pose proof (includes_nonempty _ _ Hat ltac:(discriminate)) as Hne.
  unfold handleSubmit.
  destruct (validateForm (formData p)) as [valid newErrors].
  cbn in Hvalid. subst valid. cbn [negb login].
  rewrite bool_decide_eq_true_2 by exact Hpending.
  cbn [sent page storage pushed isCheckingStatus isLoading setIsLoading
       setErrors setIsCheckingStatus formData app].
  unfold mountEffect. rewrite lookup_insert_eq.
  destruct (email (formData p)) as [ | c rest] eqn:E;
    [destruct Hne; reflexivity | ].
  cbn. repeat split; try reflexivity.
  rewrite lookup_insert_ne by discriminate. reflexivity.
Qed.

Lemma pending_login_is_resumed_witness :
  sent (handleSubmit (LBody false stillPending) alicePage ∅)
  = [ PostLogin aliceForm; StatusByEmail "alice@example.com" ]
  /\ snd (mountEffect None
            (storage (handleSubmit (LBody false stillPending) alicePage ∅))
            initialState)
     = [ StatusByEmail "alice@example.com" ].
Proof.
  destruct (pending_login_is_resumed stillPending alicePage ∅ None
              initialState eq_refl eq_refl)
    as (H1 & _ & _ & _ & _ & H2 & _).
  split; [exact H1 | exact H2].
Defined.

(** X23: what the status handler of [LoginContent] leaves on the page.  An
    answer "pending" changes neither the page nor the storage.  Every
    other answer brings the form back; it also removes
    "pendingLoginEmail", so that a later mount checks nothing, unless the
    check threw (no response, a body that is not JSON, a [null] body
    with a 2xx status): then the storage is left as it is and a later
    mount polls again. *)
Theorem status_verdict_on_login_page (r : Poll.Response) (p : LoginState)
    (store : gmap string string) (urlMessage : option string) (q : LoginState) :
  (Poll.scheduled (Poll.checkDataFetchStatus r) = 1%nat ->
   handled (Poll.checkDataFetchStatus r) (p, store) = (p, store))
  /\ (Poll.scheduled (Poll.checkDataFetchStatus r) <> 1%nat ->
      isCheckingStatus
        (fst (handled (Poll.checkDataFetchStatus r) (p, store))) = false
      /\ formData (fst (handled (Poll.checkDataFetchStatus r) (p, store)))
         = formData p
      /\ (threw r = false ->
          snd (mountEffect urlMessage
                 (snd (handled (Poll.checkDataFetchStatus r) (p, store))) q)
          = [])
      /\ (threw r = true ->
          snd (handled (Poll.checkDataFetchStatus r) (p, store)) = store)).
Proof.
  assert (forall m : gmap string string,
             Js.truthy (delete "pendingLoginEmail" m !! "pendingLoginEmail")
             = false) as Hdel.
  { intros m. rewrite lookup_delete_eq. reflexivity. }
  destruct r as [ | ok | [] | [] data]; cbn;
    repeat match goal with
      | |- context [ Poll.statusIs ?d ?s ] =>
          destruct (Poll.statusIs d s) eqn:?
      end; cbn; unfold mountEffect; cbn [snd];
    (split; [ intros H; try discriminate H; try reflexivity
            | intros H; try (destruct H; reflexivity);
              repeat split; try reflexivity; intros Ht;
              try discriminate Ht; rewrite ?Hdel; reflexivity ]).
Qed.

Lemma status_verdict_on_login_page_witness :
  handled (Poll.checkDataFetchStatus (Poll.Body true Poll.pendingBody))
    (alicePage, <["pendingLoginEmail" := "alice@example.com"]> ∅)
  = (alicePage, <["pendingLoginEmail" := "alice@example.com"]> ∅)
  /\ snd (mountEffect None
            (snd (handled
                    (Poll.checkDataFetchStatus
                       (Poll.Body true Poll.completedBody))
                    (alicePage,
                     <["pendingLoginEmail" := "alice@example.com"]> ∅)))
            initialState)
     = []
  /\ snd (handled (Poll.checkDataFetchStatus Poll.NetworkError)
            (alicePage, <["pendingLoginEmail" := "alice@example.com"]> ∅))
     = <["pendingLoginEmail" := "alice@example.com"]> ∅.
Proof.
  split; [ | split].
  - apply (proj1 (status_verdict_on_login_page
                    (Poll.Body true Poll.pendingBody) alicePage _ None
                    initialState)).
    reflexivity.
  - apply (proj2 (status_verdict_on_login_page
                    (Poll.Body true Poll.completedBody) alicePage _ None
                    initialState)); [discriminate | reflexivity].
  - apply (proj2 (status_verdict_on_login_page Poll.NetworkError alicePage
                    _ None initialState)); [discriminate | reflexivity].
Defined.

(** *** From the login page to the dashboard *)

(** X24: after a 2xx answer to a valid form the storage holds what the
    dashboard's loading effect asks for.  If the stored token is not
    empty and the stored user text parses, the next load of the
    dashboard, at any time, shows that user and starts only the
    dashboard and list requests with that token: the visitor is not sent
    back to the login page.  The token is stored as [String(result.token)],
    so an answer without a token leaves the text "undefined", which
    passes the same test. *)
Theorem login_then_dashboard (json : Dashboard.Json) (rng : nat -> Q)
    (result : LoginBody) (p : LoginState) (store : gmap string string)
    (parsedUser : Dashboard.UserType) (currentTime : Z)
    (dash : Dashboard.Page) (n : nat) :
  fst (validateForm (formData p)) = true ->
  stringOf (token result) <> EmptyString ->
  stringOf (user result) <> EmptyString ->
  Dashboard.parseUser json (stringOf (user result)) = Some parsedUser ->
  pushed (handleSubmit (LBody true result) p store) = Some "/dashboard"
  /\ Dashboard.user
       (Dashboard.loadedPage json rng
          (storage (handleSubmit (LBody true result) p store))
          currentTime dash n)
     = Some parsedUser
  /\ (forall c,
        In c (Dashboard.loadCommands json rng
                (storage (handleSubmit (LBody true result) p store))
                currentTime dash n) ->
        c = Dashboard.GetDashboard (stringOf (token result))
        \/ c = Dashboard.GetMyList (stringOf (token result))).
Proof.
  intros Hvalid Htok Huser Hparse.
  unfold handleSubmit.
  destruct (validateForm (formData p)) as [valid newErrors].
  cbn in Hvalid. subst valid. cbn [negb login pushed storage].
  split; [reflexivity | ].
  destruct (DashboardLaws.load_keeps_visitor json rng
              (<["user" := stringOf (user result)]>
                 (<["token" := stringOf (token result)]> store))
              (stringOf (token result)) parsedUser currentTime dash n)
    as (Hu & _ & Hc).
  - rewrite lookup_insert_ne by discriminate. apply lookup_insert_eq.
  - exact Htok.
  - rewrite lookup_insert_eq.
    destruct (stringOf (user result));
      [destruct Huser; reflexivity | reflexivity].
  - rewrite lookup_insert_eq. exact Hparse.
  - split; [exact Hu | exact Hc].
Qed.

Lemma login_then_dashboard_witness :
  pushed (handleSubmit (LBody true welcome) alicePage ∅) = Some "/dashboard"
  /\ Dashboard.user
       (Dashboard.loadedPage Dashboard.demoJson Prices.lowDraws
          (storage (handleSubmit (LBody true welcome) alicePage ∅))
          5000 Dashboard.initialPage 0%nat)
     = Some Dashboard.someUser
  /\ (forall c,
        In c (Dashboard.loadCommands Dashboard.demoJson Prices.lowDraws
                (storage (handleSubmit (LBody true welcome) alicePage ∅))
                5000 Dashboard.initialPage 0%nat) ->
        c = Dashboard.GetDashboard (stringOf (token welcome))
        \/ c = Dashboard.GetMyList (stringOf (token welcome))).
Proof.
  apply (login_then_dashboard Dashboard.demoJson Prices.lowDraws welcome
           alicePage ∅ Dashboard.someUser 5000 Dashboard.initialPage 0%nat).
  - reflexivity.
  - discriminate.
  - discriminate.
  - reflexivity.
Defined.

End LoginLaws.
(* ===================================================================== *)
(** ** Regular expressions                                                *)
(* ===================================================================== *)

Module RegexLaws.

Import Regex.

Lemma append_cons (c : ascii) (s t : string) :
  String c s ++ t = String c (s ++ t).
Proof. reflexivity. Qed.

Lemma append_nil_l (s : string) : EmptyString ++ s = s.
Proof. reflexivity. Qed.

Lemma append_nil_r (s : string) : s ++ EmptyString = s.
Proof.
  induction s as [ | c s IH]; [reflexivity | ].
  rewrite append_cons, IH. reflexivity.
Qed.

Lemma append_assoc (s t u : string) : (s ++ t) ++ u = s ++ (t ++ u).
Proof.
  induction s as [ | c s IH]; [reflexivity | ].
  rewrite !append_cons, IH. reflexivity.
Qed.

Lemma append_eq_nil (s t : string) :
  s ++ t = EmptyString -> s = EmptyString /\ t = EmptyString.
Proof.
  destruct s; [rewrite append_nil_l; auto | ].
  rewrite append_cons. discriminate.
Qed.

Lemma nullable_Lang (p : Pattern) :
  nullable p = true <-> Lang p EmptyString.
Proof.
  induction p as [ | | member | a IHa b IHb | a IHa b IHb | a IHa]; cbn.
  - split; [discriminate | tauto].
  - tauto.
  - split; [discriminate | intros (c & H & _); discriminate].
  - rewrite andb_true_iff, IHa, IHb. split.
    + intros [Ha Hb]. exists EmptyString, EmptyString. auto.
    + intros (u & v & Huv & Ha & Hb). symmetry in Huv.
      apply append_eq_nil in Huv. destruct Huv as [-> ->]. auto.
  - rewrite orb_true_iff, IHa, IHb. tauto.
  - split; [intros _; constructor | reflexivity].
Qed.

Lemma deriv_Lang (p : Pattern) :
  forall c s, Lang (deriv c p) s <-> Lang p (String c s).
Proof.
  induction p as [ | | member | a IHa b IHb | a IHa b IHb | a IHa];
    intros c s; cbn.
  - tauto.
  - split; [tauto | discriminate].
  - destruct (member c) eqn:E; cbn.
    + split.
      * intros ->. eauto.
      * intros (c' & H & _). injection H as _ ->. reflexivity.
    + split; [tauto | ].
      intros (c' & H & Hm). injection H as <- _. congruence.
  - destruct (nullable a) eqn:En; cbn.
    + split.
      * intros [(u & v & -> & Ha & Hb) | Hb].
        -- exists (String c u), v. rewrite <- IHa. auto.
        -- exists EmptyString, (String c s).
           rewrite <- nullable_Lang, <- IHb. auto.
      * intros (u & v & Huv & Ha & Hb).
        destruct u as [ | c' u].
        -- rewrite append_nil_l in Huv.
           right. subst v. apply IHb. exact Hb.
        -- rewrite append_cons in Huv. injection Huv as <- ->. left.
           exists u, v. rewrite IHa. auto.
    + split.
      * intros (u & v & -> & Ha & Hb).
        exists (String c u), v. rewrite <- IHa. auto.
      * intros (u & v & Huv & Ha & Hb).
        destruct u as [ | c' u].
        -- apply nullable_Lang in Ha. congruence.
        -- rewrite append_cons in Huv. injection Huv as <- ->.
           exists u, v. rewrite IHa. auto.
  - rewrite IHa, IHb. tauto.
  - split.
    + intros (u & v & -> & Ha & Hv).
      change (Iter (Lang a) (String c u ++ v)).
      constructor; [apply IHa; exact Ha | exact Hv].
    + intros H. inversion H as [ | c' u v Ha Hv [Hc Hs]]. subst c'.
      exists u, v. rewrite IHa. auto.
Qed.

Lemma test_Lang (s : string) :
  forall p, test p s = true <-> Lang p s.
Proof.
  induction s as [ | c s IH]; intros p; cbn.
  - apply nullable_Lang.
  - rewrite IH. apply deriv_Lang.
Qed.

Lemma dead_deriv (p : Pattern) (c : ascii) :
  dead p = true -> nullable p = false /\ dead (deriv c p) = true.
Proof.
  induction p as [ | | member | a IHa b IHb | a IHa b IHb | a IHa]; cbn;
    try discriminate; auto.
  - intros H. apply orb_true_iff in H.
    destruct (dead a) eqn:Ea.
    + destruct (IHa eq_refl) as [-> Hda]. cbn. rewrite Hda. auto.
    + destruct H as [H | H]; [discriminate | ].
      destruct (IHb H) as [Hnb Hdb]. rewrite Hnb, andb_false_r.
      split; [reflexivity | ].
      destruct (nullable a); cbn; rewrite ?Hdb, ?H, ?orb_true_r; auto.
  - intros H. apply andb_true_iff in H. destruct H as [Ha Hb].
    destruct (IHa Ha) as [-> ->], (IHb Hb) as [-> ->]. auto.
Qed.

Lemma test_dead (s : string) :
  forall p, dead p = true -> test p s = false.
Proof.
  induction s as [ | c s IH]; intros p Hp; cbn.
  - apply (dead_deriv p "a" Hp).
  - apply IH. apply (dead_deriv p c Hp).
Qed.

End RegexLaws.

(* ===================================================================== *)
(** ** Signup page: the checks of the form                                *)
(* ===================================================================== *)

Module SignupLaws.

Import JsString Regex Signup.

Ltac known :=
  repeat match goal with
         | H : isDigit _ = _ |- _ => rewrite H
         | H : Ascii.eqb _ _ = _ |- _ => rewrite H
         end.

Ltac crunch :=
  repeat first [ progress cbn -[isDigit Ascii.eqb] | progress known
               | progress rewrite ?Ascii.eqb_refl ].

Ltac no_match :=
  crunch; rewrite ?RegexLaws.test_dead by reflexivity;
  rewrite ?andb_false_r; reflexivity.

Ltac next_digit s c E :=
  destruct s as [ | c s]; [crunch; reflexivity | ];
  destruct (isDigit c) eqn:E; [ | no_match ].

Lemma zipPattern_shape (s : string) : test zipPattern s = zipShape s.
Proof.
  unfold zipPattern, zipShape.
  next_digit s c1 E1. next_digit s c2 E2. next_digit s c3 E3.
  next_digit s c4 E4. next_digit s c5 E5.
  destruct s as [ | c6 s]; [crunch; reflexivity | ].
  destruct (Ascii.eqb "-" c6) eqn:E6.
  2: { assert (Ascii.eqb c6 "-" = false) as E6'
         by (rewrite Ascii.eqb_sym; exact E6).
       no_match. }
  apply Ascii.eqb_eq in E6. subst c6.
  next_digit s c7 E7. next_digit s c8 E8. next_digit s c9 E9.
  next_digit s c10 E10.
  destruct s as [ | c11 s]; [crunch; reflexivity | ].
  no_match.
Qed.

Lemma digit_not_space (c : ascii) :
  isDigit c = true -> Js.isWhiteSpace c = false.
Proof.
  unfold isDigit, Js.isWhiteSpace. generalize (N_of_ascii c). intros n.
  cbn zeta.
  destruct (N.leb_spec 48 n); [ | discriminate].
  intros _.
  destruct (N.eqb_spec n 32); [lia | ].
  destruct (N.leb_spec 9 n), (N.leb_spec n 13); try reflexivity; lia.
Qed.

Lemma zipShape_first (s : string) :
  zipShape s = true ->
  isBlank s = false /\ (5 <= String.length s)%nat.
Proof.
  unfold zipShape. intros H. apply orb_true_iff in H.
  assert (5 <= String.length s)%nat as Hlen.
  { destruct H as [H | H].
    - apply andb_true_iff in H. destruct H as [H _].
      apply Nat.eqb_eq in H. lia.
    - rewrite !andb_true_iff in H. destruct H as [[[H _] _] _].
      apply Nat.eqb_eq in H. lia. }
  split; [ | exact Hlen].
  destruct s as [ | c s]; [cbn in Hlen; lia | ].
  assert (isDigit c = true) as Hd.
  { destruct H as [H | H].
    - apply andb_true_iff in H. destruct H as [_ H]. cbn in H.
      apply andb_true_iff in H. tauto.
    - rewrite !andb_true_iff in H. destruct H as [[[_ H] _] _].
      cbn in H. apply andb_true_iff in H. tauto. }
  cbn. rewrite (digit_not_space c Hd). reflexivity.
Qed.

Lemma truthy_nonempty (s : string) :
  Js.truthy (Some s) = true <-> s <> EmptyString.
Proof. destruct s; cbn; split; congruence. Qed.

Lemma validateStep2_None (formData : SignupForm) :
  validateStep2 formData = None
  <-> zipShape (zipCode formData) = true
      /\ shoppingStyle formData <> EmptyString.
Proof.
  unfold validateStep2. rewrite zipPattern_shape.
  rewrite <- truthy_nonempty.
  destruct (zipShape (zipCode formData)) eqn:Ez.
  - destruct (zipShape_first _ Ez) as [-> _]. cbn [negb].
    destruct (Js.truthy (Some (shoppingStyle formData))); cbn;
      intuition discriminate.
  - destruct (isBlank (zipCode formData)); cbn; intuition discriminate.
Qed.

(** X25: [validateStep2] accepts a form exactly when its ZIP code is five
    digits, or five digits, a hyphen and four digits, and a shopping style
    is chosen.  The check for a blank ZIP code adds nothing to the
    pattern: it only selects the message. *)
Theorem zip_code_check (formData : SignupForm) :
  validateStep2 formData = None
  <-> zipShape (zipCode formData) = true
      /\ shoppingStyle formData <> EmptyString.
Proof.
  unfold validateStep2. rewrite zipPattern_shape.
  rewrite <- truthy_nonempty.
  destruct (zipShape (zipCode formData)) eqn:Ez.
  - destruct (zipShape_first _ Ez) as [-> _]. cbn [negb].
    destruct (Js.truthy (Some (shoppingStyle formData))); cbn;
      intuition discriminate.
  - destruct (isBlank (zipCode formData)); cbn; intuition discriminate.
Qed.

(** *** The e-mail pattern *)

Lemma Lang_char (c : ascii) (s : string) :
  Lang (char c) s <-> s = String c EmptyString.
Proof.
  cbn. split.
  - intros (c' & -> & H). apply Ascii.eqb_eq in H. congruence.
  - intros ->. exists c. split; [reflexivity | apply Ascii.eqb_refl].
Qed.

Lemma Iter_nonSpace (s : string) :
  Iter (Lang nonSpace) s <-> noSpace s = true.
Proof.
  split.
  - induction 1 as [ | c u v Hc Hv IH]; [reflexivity | ].
    destruct Hc as (c' & Heq & Hc'). injection Heq as -> ->.
    rewrite RegexLaws.append_cons, RegexLaws.append_nil_l. cbn.
    rewrite Hc', IH. reflexivity.
  - induction s as [ | c s IH]; cbn; intros H; [constructor | ].
    apply andb_true_iff in H. destruct H as [Hc Hs].
    change (String c s) with (String c EmptyString ++ s).
    constructor; [ | auto].
    exists c. auto.
Qed.

Lemma Lang_word (s : string) : Lang (Plus nonSpace) s <-> word s.
Proof.
  unfold Plus, word. cbn [Lang]. split.
  - intros (u & v & -> & (c & -> & Hc) & Hv).
    apply Iter_nonSpace in Hv.
    rewrite RegexLaws.append_cons, RegexLaws.append_nil_l.
    split; [discriminate | ]. cbn. rewrite Hc, Hv. reflexivity.
  - intros [Hne Hs]. destruct s as [ | c s]; [destruct Hne; reflexivity | ].
    cbn in Hs. apply andb_true_iff in Hs. destruct Hs as [Hc Hs].
    exists (String c EmptyString), s. repeat split.
    + exists c. auto.
    + apply Iter_nonSpace. exact Hs.
Qed.

Lemma emailPattern_shape (s : string) :
  test emailPattern s = true <-> EmailShape s.
Proof.
  rewrite RegexLaws.test_Lang. unfold emailPattern, EmailShape.
  cbn [Lang]. fold (Plus nonSpace).
  split.
  - intros (a & r1 & -> & Ha & at_ & r2 & -> & Hat & b & r3 & -> & Hb
            & dot & c & -> & Hdot & Hc).
    change (Lang (Plus nonSpace) a) in Ha.
    change (Lang (Plus nonSpace) b) in Hb.
    change (Lang (Plus nonSpace) c) in Hc.
    change (Lang (char "@") at_) in Hat. change (Lang (char ".") dot) in Hdot.
    apply Lang_char in Hat, Hdot. subst at_ dot.
    exists a, b, c. rewrite <- !Lang_word. auto.
  - intros (a & b & c & -> & Ha & Hb & Hc).
    rewrite <- Lang_word in Ha, Hb, Hc.
    exists a, ("@" ++ b ++ "." ++ c). split; [reflexivity | ].
    split; [exact Ha | ].
    exists "@", (b ++ "." ++ c). split; [reflexivity | ].
    split; [apply Lang_char; reflexivity | ].
    exists b, ("." ++ c). split; [reflexivity | ].
    split; [exact Hb | ].
    exists ".", c. split; [reflexivity | ].
    split; [apply Lang_char; reflexivity | exact Hc].
Qed.

Lemma word_not_blank (s : string) : word s -> isBlank s = false.
Proof.
  intros [Hne Hs]. destruct s as [ | c s]; [destruct Hne; reflexivity | ].
  cbn [noSpace] in Hs. apply andb_true_iff in Hs. destruct Hs as [Hc _].
  cbn [isBlank]. apply negb_true_iff in Hc. rewrite Hc. reflexivity.
Qed.

Lemma EmailShape_not_blank (s : string) : EmailShape s -> isBlank s = false.
Proof.
  intros (a & b & c & -> & [Hne Ha] & _).
  destruct a as [ | x a]; [destruct Hne; reflexivity | ].
  rewrite RegexLaws.append_cons. cbn [isBlank noSpace] in Ha |- *.
  destruct (Js.isWhiteSpace x); [discriminate Ha | reflexivity].
Qed.

Lemma prefix_append (sub r : string) : String.prefix sub (sub ++ r) = true.
Proof.
  induction sub as [ | c sub IH].
  - rewrite RegexLaws.append_nil_l. destruct r; reflexivity.
  - rewrite RegexLaws.append_cons. cbn.
    destruct (ascii_dec c c); [exact IH | congruence].
Qed.

Lemma includes_prefix (s sub : string) :
  String.prefix sub s = true -> includes s sub = true.
Proof. intros H. destruct s; cbn [includes]; rewrite H; reflexivity. Qed.

Lemma includes_append (a sub r : string) :
  includes (a ++ sub ++ r) sub = true.
Proof.
  induction a as [ | c a IH].
  - rewrite RegexLaws.append_nil_l.
    apply includes_prefix, prefix_append.
  - rewrite RegexLaws.append_cons. cbn [includes].
    rewrite IH. apply orb_true_r.
Qed.

Lemma EmailShape_includes (s : string) :
  EmailShape s -> includes s "@" = true /\ includes s "." = true.
Proof.
  intros (a & b & c & -> & _). split.
  - apply includes_append.
  - rewrite <- (RegexLaws.append_assoc a "@" (b ++ "." ++ c)).
    rewrite <- (RegexLaws.append_assoc (a ++ "@") b ("." ++ c)).
    apply includes_append.
Qed.

Lemma validateStep1_None (formData : SignupForm) :
  validateStep1 formData = None
  <-> isBlank (firstName formData) = false
      /\ isBlank (lastName formData) = false
      /\ EmailShape (email formData)
      /\ (8 <= String.length (password formData))%nat
      /\ password formData = confirmPassword formData.
Proof.
  unfold validateStep1. rewrite <- emailPattern_shape.
  destruct (isBlank (firstName formData));
    [split; [discriminate | intros [H _]; discriminate] | ].
  destruct (isBlank (lastName formData));
    [split; [discriminate | intros (_ & H & _); discriminate] | ].
  destruct (test emailPattern (email formData)) eqn:Ee.
  2: { destruct (isBlank (email formData)); cbn;
         (split; [discriminate | intros (_ & _ & H & _); discriminate]). }
  apply emailPattern_shape, EmailShape_not_blank in Ee. rewrite Ee.
  cbn [negb].
  destruct (Nat.ltb_spec (String.length (password formData)) 8) as [Hlt | Hge].
  - destruct (Js.truthy (Some (password formData))); cbn;
      (split; [discriminate | intros (_ & _ & _ & H & _); lia]).
  - assert (Js.truthy (Some (password formData)) = true) as ->.
    { destruct (password formData); [cbn in Hge; lia | reflexivity]. }
    cbn [negb].
    destruct (String.eqb_spec (password formData) (confirmPassword formData));
      cbn; [tauto | ].
    split; [discriminate | tauto].
Qed.

(** X26: for a form written in ASCII, [validateStep1] accepts exactly
    when the first and last names are not blank, the e-mail address is a
    word, "@", a word, ".", a word (a word being non-empty and free of
    white space), the password has at least eight characters and the
    confirmation repeats it.  The checks "Email is required" and
    "Password is required" reject nothing that the later checks would
    accept. *)
Theorem signup_step1_check (formData : SignupForm) :
  asciiForm formData = true ->
  (validateStep1 formData = None
   <-> isBlank (firstName formData) = false
       /\ isBlank (lastName formData) = false
       /\ EmailShape (email formData)
       /\ (8 <= String.length (password formData))%nat
       /\ password formData = confirmPassword formData).
Proof.
  intros _.
  unfold validateStep1. rewrite <- emailPattern_shape.
  destruct (isBlank (firstName formData));
    [split; [discriminate | intros [H _]; discriminate] | ].
  destruct (isBlank (lastName formData));
    [split; [discriminate | intros (_ & H & _); discriminate] | ].
  destruct (test emailPattern (email formData)) eqn:Ee.
  2: { destruct (isBlank (email formData)); cbn;
         (split; [discriminate | intros (_ & _ & H & _); discriminate]). }
  apply emailPattern_shape, EmailShape_not_blank in Ee. rewrite Ee.
  cbn [negb].
  destruct (Nat.ltb_spec (String.length (password formData)) 8) as [Hlt | Hge].
  - destruct (Js.truthy (Some (password formData))); cbn;
      (split; [discriminate | intros (_ & _ & _ & H & _); lia]).
  - assert (Js.truthy (Some (password formData)) = true) as ->.
    { destruct (password formData); [cbn in Hge; lia | reflexivity]. }
    cbn [negb].
    destruct (String.eqb_spec (password formData) (confirmPassword formData));
      cbn; [tauto | ].
    split; [discriminate | tauto].
Qed.

Lemma signup_step1_check_witness :
  validateStep1 alice = None
  <-> isBlank (firstName alice) = false
      /\ isBlank (lastName alice) = false
      /\ EmailShape (email alice)
      /\ (8 <= String.length (password alice))%nat
      /\ password alice = confirmPassword alice.
Proof. apply (signup_step1_check alice). reflexivity. Defined.

(** X27: whoever passes the first step of the signup form can submit the
    same e-mail address and password on the login page: the login form's
    own check ("@" and "." somewhere in the address, a password that is
    not empty) accepts them. *)
Theorem signup_credentials_pass_login_form (formData : SignupForm) :
  validateStep1 formData = None ->
  fst (Login.validateForm
         {| Login.email := email formData;
            Login.password := password formData |}) = true.
Proof.
  intros H. apply validateStep1_None in H.
  destruct H as (_ & _ & He & Hp & _).
  destruct (EmailShape_includes _ He) as [Hat Hdot].
  unfold Login.validateForm. cbn [fst Login.email Login.password].
  rewrite Hat, Hdot. cbn.
  destruct (password formData); [cbn in Hp; lia | reflexivity].
Qed.

(** X28: the two-step signup form checks at least what the earlier
    one-step form checked, except for the length of the names: a form
    that passes both steps passes the earlier [validateForm] exactly when
    its first and last names have two characters or more. *)
Theorem two_step_checks_are_stricter (formData : SignupForm) :
  validateStep1 formData = None ->
  validateStep2 formData = None ->
  (validateForm_one_step formData = true
   <-> (2 <= String.length (firstName formData))%nat
       /\ (2 <= String.length (lastName formData))%nat).
Proof.
  intros H1 H2. apply validateStep1_None in H1. apply validateStep2_None in H2.
  destruct H1 as (_ & _ & He & Hp & _). destruct H2 as [Hz _].
  destruct (EmailShape_includes _ He) as [Hat Hdot].
  destruct (zipShape_first _ Hz) as [_ Hlen].
  unfold validateForm_one_step. rewrite Hat, Hdot. cbn [negb orb].
  rewrite !andb_true_iff, !negb_true_iff, !Nat.ltb_ge.
  intuition lia.
Qed.

Lemma signup_credentials_pass_login_form_witness :
  fst (Login.validateForm
         {| Login.email := email alice; Login.password := password alice |})
  = true.
Proof. apply (signup_credentials_pass_login_form alice). reflexivity. Defined.

Lemma two_step_checks_are_stricter_witness :
  validateForm_one_step alice = true
  <-> (2 <= String.length (firstName alice))%nat
      /\ (2 <= String.length (lastName alice))%nat.
Proof.
  apply (two_step_checks_are_stricter alice); reflexivity.
Defined.

End SignupLaws.
(* ===================================================================== *)
(** ** API helpers                                                        *)
(* ===================================================================== *)

Module ApiLaws.

Import JsString Api.

(** X29: [getApiUrl] puts exactly one "/" between the base and a path that
    does not start with one, so a path may be written with or without its
    leading "/"; a path that starts with "/" is appended as it is.  An
    empty [NEXT_PUBLIC_API_URL] counts as an unset one. *)
Theorem getApiUrl_leading_slash (env : option string) (path : string) :
  (startsWith path "/" = false ->
   getApiUrl env path = getApiUrl env ("/" ++ path))
  /\ getApiUrl env ("/" ++ path)
     = Prices.strOr env "http://localhost:5000/api" ++ "/" ++ path
  /\ getApiUrl (Some EmptyString) path = getApiUrl None path.
Proof.
  unfold getApiUrl, startsWith.
  rewrite (SignupLaws.prefix_append "/" path).
  repeat split.
  intros H. rewrite H. reflexivity.
Qed.

Lemma getApiUrl_leading_slash_witness :
  getApiUrl None "users/login" = getApiUrl None ("/" ++ "users/login").
Proof.
  apply (proj1 (getApiUrl_leading_slash None "users/login")). reflexivity.
Defined.

(** X30: the headers of [fetchWithAuth].  A header that the caller gives
    is sent as given, also "Authorization" and "Content-Type".  Otherwise
    "Authorization" carries the stored token, and is absent when the
    storage holds no token or an empty one; "Content-Type" is
    "application/json"; no other header is added. *)
Theorem fetchWithAuth_headers (env : option string)
    (storage : gmap string string) (path : string)
    (optionHeaders : gmap string string) (key : string) :
  (forall value, optionHeaders !! key = Some value ->
     headers (fetchWithAuth env storage path optionHeaders) !! key
     = Some value)
  /\ (optionHeaders !! key = None ->
      headers (fetchWithAuth env storage path optionHeaders) !! key
      = if bool_decide (key = "Authorization") then
          match storage !! "token" with
          | Some token =>
              if bool_decide (token = EmptyString) then None
              else Some ("Bearer " ++ token)
          | None => None
          end
        else if bool_decide (key = "Content-Type")
             then Some "application/json"
        else None).
Proof.
  cbn [fetchWithAuth headers]. split.
  - intros value H. apply lookup_union_Some_l. exact H.
  - intros H. rewrite lookup_union_r by exact H.
    case_bool_decide as Hk.
    + subst key.
      destruct (storage !! "token") as [[ | c token] | ]; cbn.
      * rewrite lookup_union_r by apply lookup_empty.
        apply lookup_singleton_ne. discriminate.
      * rewrite bool_decide_eq_false_2 by discriminate.
        apply lookup_union_Some_l. apply lookup_singleton_eq.
      * rewrite lookup_union_r by apply lookup_empty.
        apply lookup_singleton_ne. discriminate.
    + assert ((if Js.truthy (storage !! "token")
               then ({[ "Authorization"
                        := "Bearer " ++ default EmptyString
                                          (storage !! "token") ]}
                     : gmap string string)
               else ∅) !! key = None) as Hauth.
      { destruct (Js.truthy (storage !! "token"));
          [apply lookup_singleton_ne; congruence | apply lookup_empty]. }
      rewrite lookup_union_r by exact Hauth.
      case_bool_decide as Hc.
      * subst key. apply lookup_singleton_eq.
      * apply lookup_singleton_ne. congruence.
Qed.

Lemma fetchWithAuth_headers_witness :
  headers (fetchWithAuth None ∅ "dashboard" ∅) !! "Authorization" = None.
Proof.
  rewrite (proj2 (fetchWithAuth_headers None ∅ "dashboard" ∅
                    "Authorization") (lookup_empty _)).
  rewrite lookup_empty. reflexivity.
Defined.

End ApiLaws.
